(** * The osquery watchdog: registry, sanity check and supervisor loop

    A shallow embedding of [osquery/core/watcher.cpp] (the watcher
    singleton, [WatcherRunner] and [getWorkerLimit]) together with the
    properties of the supervisor that the specification states about it.

    Conventions of the embedding.
    - [size_t] and [unsigned long long] are 64-bit (LP64); a value is a
      [Z] and every operation of the source that can wrap is followed by
      [u64].  [pid_t] is a signed 32-bit integer.
    - [std::map] is a [gmap]; a loop over a [std::map] visits the keys in
      increasing byte order, which [sorted_paths] reproduces.
    - [std::shared_ptr<PlatformProcess>] is an [option PlatformProcess];
      [None] is the null pointer and dereferencing it ends the run.
    - Calls into collaborators that are not part of the watcher (the
      process table, process launch, signals, the clock, sleeping) read
      their answer from an environment [Env] and leave an [event] in the
      trace of the run. *)

From stdpp Require Import gmap strings list fin_maps.
From Stdlib Require Import ZArith Lia.

Open Scope Z_scope.

(** ** Fixed-width integers *)

(** [size_t], [UNSIGNED_BIGINT_LITERAL]: arithmetic modulo 2^64. *)
Definition u64 (z : Z) : Z := z mod 2 ^ 64.

(** Conversion of a [long long] to [pid_t] (signed, 32 bits). *)
Definition to_pid_t (z : Z) : Z := (z + 2 ^ 31) mod 2 ^ 32 - 2 ^ 31.

(** The value of a non-negative integer after rounding to the nearest
    [double] (53-bit significand, ties to even).  Only used for the
    [pow(2, n) * 1000] of the respawn back-off. *)
Definition round_double (z : Z) : Z :=
  if z <? 2 ^ 53 then z
  else
    let e := Z.log2 z - 52 in
    let q := z / 2 ^ e in
    let r := z mod 2 ^ e in
    let half := 2 ^ (e - 1) in
    let q' := if r <? half then q
              else if half <? r then q + 1
              else if Z.even q then q else q + 1 in
    q' * 2 ^ e.

(** ** The limit table *)

Inductive WatchdogLimitType :=
| MEMORY_LIMIT
| UTILIZATION_LIMIT
| RESPAWN_LIMIT
| RESPAWN_DELAY
| LATENCY_LIMIT
| INTERVAL.

#[global] Instance WatchdogLimitType_eq_dec : EqDecision WatchdogLimitType.
Proof. solve_decision. Defined.

Definition kWatchdogLimits : list (WatchdogLimitType * list Z) :=
  [ (MEMORY_LIMIT, [80; 50; 30; 1000]);
    (UTILIZATION_LIMIT, [90; 80; 60; 1000]);
    (RESPAWN_LIMIT, [20; 20; 20; 5]);
    (RESPAWN_DELAY, [5; 5; 5; 1]);
    (LATENCY_LIMIT, [12; 6; 3; 1]);
    (INTERVAL, [3; 3; 3; 1]) ].

Fixpoint limits_of (name : WatchdogLimitType)
    (table : list (WatchdogLimitType * list Z)) : option (list Z) :=
  match table with
  | [] => None
  | (k, row) :: rest => if decide (k = name) then Some row else limits_of name rest
  end.

(** [std::vector::at]: the index is converted to [size_t], so a negative
    [int] is out of range like an index past the end; [None] stands for
    the [std::out_of_range] that [at] throws. *)
Definition vector_at (row : list Z) (i : Z) : option Z :=
  if (0 <=? i) && (i <? Z.of_nat (length row)) then row !! Z.to_nat i else None.

(** [getWorkerLimit(name, level)] with [flag] the value of
    [FLAGS_watchdog_level].  [None] is the exception thrown by [at]. *)
Definition getWorkerLimit (flag : Z) (name : WatchdogLimitType) (level : Z)
    : option Z :=
  match limits_of name kWatchdogLimits with
  | None => Some 0
  | Some row =>
      let level := if level =? -1 then flag else level in
      if 3 <? level then Some (List.last row 0)
      else vector_at row level
  end.

(** ** Data model *)

(** Modelled from the spec: the platform-process handle of
    [osquery/core/process.h], which is not among the sources.  A handle
    carries an OS pid and a validity predicate, two handles are equal
    when they name the same process, and the default-constructed handle
    is invalid. *)
Inductive PlatformProcess :=
| NoProcess
| Process (pid : Z).

#[global] Instance PlatformProcess_eq_dec : EqDecision PlatformProcess.
Proof. solve_decision. Defined.

Definition isValid (p : PlatformProcess) : bool :=
  match p with NoProcess => false | Process _ => true end.

Definition pid_of (p : PlatformProcess) : Z :=
  match p with NoProcess => -1 | Process n => n end.

(** Modelled from the spec: [PerformanceState] of [osquery/core/watcher.h];
    every field starts at zero. *)
Record PerformanceState := mkState {
  sustained_latency : Z;
  user_time : Z;
  system_time : Z;
  last_respawn_time : Z;
  initial_footprint : Z
}.

Definition zero_state : PerformanceState := mkState 0 0 0 0 0.

(** Modelled from the spec: the fields of the [Watcher] singleton of
    [osquery/core/watcher.h]; the names are the ones [watcher.cpp] uses. *)
Record Watcher := mkWatcher {
  state_ : PerformanceState;
  extension_states_ : gmap string PerformanceState;
  worker_ : option PlatformProcess;
  worker_restarts_ : Z;
  extensions_ : gmap string (option PlatformProcess);
  worker_status_ : Z;
  fates_bound_ : bool
}.

Inductive ProcessState :=
| PROCESS_ERROR
| PROCESS_STILL_ALIVE
| PROCESS_EXITED.

(** One row of the [processes] table: a column is [None] when the key is
    missing or its text is not a [long long], which makes [at] or
    [AS_LITERAL] throw; [r_path] is [None] when the row has no ["path"]
    key. *)
Record Row := mkRow {
  r_parent : option Z;
  r_user_time : option Z;
  r_system_time : option Z;
  r_resident_size : option Z;
  r_path : option string
}.

(** ** Collaborators *)

(** What a run does to the outside: taking and releasing the registry
    mutex, [pauseMilli], a query of the [processes] table for a pid,
    [checkChildProcessStatus], [kill] and [cleanupDefunctProcesses],
    the two launches, [relayStatusLogs], [setEnvVar] and the two
    shutdown calls of the initialiser. *)
Inductive event :=
| EvLock
| EvUnlock
| EvPauseMilli (ms : Z)
| EvSelectProcesses (pid : Z)
| EvCheckChildProcessStatus (child : PlatformProcess)
| EvKill (child : PlatformProcess)
| EvCleanupDefunctProcesses
| EvLaunchWorker (path : string)
| EvLaunchExtension (path : string)
| EvRelayStatusLogs
| EvSetEnvVar
| EvRequestShutdown (code : Z)
| EvShutdown (code : Z).

#[global] Instance event_eq_dec : EqDecision event.
Proof. solve_decision. Defined.

(** What the outside answers.  [FLAGS_watchdog_level] is the flag;
    [EXIT_CATASTROPHIC] is the project-wide exit code, whose header is
    not among the sources; [use_worker_] is the member of the runner;
    [current_pid] is [PlatformProcess::getCurrentProcess()->pid()];
    [processes pid] are the rows of [SQL::selectAllFrom] for that pid;
    [getUnixTime n] is the clock at its [n]-th reading;
    [launchWorker] and [launchExtension] return [None] for [nullptr];
    [verbose] tells whether [VLOG(1)] lines are evaluated; [interrupted]
    is the runnable's flag. *)
Record Env := mkEnv {
  FLAGS_watchdog_level : Z;
  EXIT_CATASTROPHIC : Z;
  use_worker_ : bool;
  current_pid : Z;
  processes : Z -> list Row;
  checkChildProcessStatus : PlatformProcess -> ProcessState * Z;
  getUnixTime : nat -> Z;
  system_complete : string -> string;
  safePermissions : string -> bool;
  launchWorker : string -> option PlatformProcess;
  launchExtension : string -> option PlatformProcess;
  verbose : bool;
  interrupted : bool
}.

Definition EXIT_SUCCESS : Z := 0.
Definition EXIT_FAILURE : Z := 1.

(** The state of a run: the singleton, the events so far (oldest first),
    how often the clock was read (the n-th read returns [getUnixTime n])
    and whether [OSQUERY_EXTENSIONS] is set in the environment block. *)
Record World := mkWorld {
  watcher : Watcher;
  trace : list event;
  clock_reads : nat;
  env_OSQUERY_EXTENSIONS : bool
}.

(** How a run ends when its routine does not return: an exception that
    nothing in the watcher catches, the dereference of a null pointer, a
    conversion that is undefined, or the end of the process in
    [Initializer::shutdown]. *)
Inductive crash :=
| OutOfRange
| NullDereference
| DoubleToSizeOverflow
| ProcessExit (code : Z).

Inductive outcome (A : Type) :=
| Done (a : A) (w : World)
| Crash (r : crash) (w : World).
Arguments Done {A} a w.
Arguments Crash {A} r w.

Definition M (A : Type) : Type := Env -> World -> outcome A.

Definition ret {A} (a : A) : M A := fun _ w => Done a w.

Definition bind {A B} (c : M A) (k : A -> M B) : M B :=
  fun e w => match c e w with
             | Done a w' => k a e w'
             | Crash r w' => Crash r w'
             end.

Notation "'let*' x := c 'in' k" := (bind c (fun x => k))
  (at level 10, x name, c at level 100, k at level 200).

Definition throw {A} (r : crash) : M A := fun _ w => Crash r w.
Definition ask {A} (f : Env -> A) : M A := fun e w => Done (f e) w.
Definition gets {A} (f : Watcher -> A) : M A := fun _ w => Done (f (watcher w)) w.
Definition modify (f : Watcher -> Watcher) : M unit :=
  fun _ w => Done tt (mkWorld (f (watcher w)) (trace w) (clock_reads w)
                              (env_OSQUERY_EXTENSIONS w)).
Definition emit (ev : event) : M unit :=
  fun _ w => Done tt (mkWorld (watcher w) (trace w ++ [ev]) (clock_reads w)
                              (env_OSQUERY_EXTENSIONS w)).
Definition deref {A} (p : option A) : M A :=
  match p with Some a => ret a | None => throw NullDereference end.
Definition when (b : bool) (c : M unit) : M unit := if b then c else ret tt.

(** [getWorkerLimit(name)] at the configured level. *)
Definition limit (name : WatchdogLimitType) : M Z :=
  fun e w => match getWorkerLimit (FLAGS_watchdog_level e) name (-1) with
             | Some v => Done v w
             | None => Crash OutOfRange w
             end.

Definition unixTime : M Z :=
  fun e w => Done (getUnixTime e (clock_reads w))
                  (mkWorld (watcher w) (trace w) (S (clock_reads w))
                           (env_OSQUERY_EXTENSIONS w)).

Definition setEnvVar_OSQUERY_EXTENSIONS : M unit :=
  fun _ w => Done tt (mkWorld (watcher w) (trace w ++ [EvSetEnvVar])
                              (clock_reads w) true).

Definition pauseMilli (ms : Z) : M unit := emit (EvPauseMilli ms).

(** [WatcherLocker]: the constructor takes the registry mutex and the
    destructor releases it at the end of the enclosing block, also when
    an exception leaves the block. *)
Definition unlock_world (w : World) : World :=
  mkWorld (watcher w) (trace w ++ [EvUnlock]) (clock_reads w)
          (env_OSQUERY_EXTENSIONS w).

Definition locked {A} (c : M A) : M A :=
  fun e w =>
    match (let* _ := emit EvLock in c) e w with
    | Done a w' => Done a (unlock_world w')
    | Crash OutOfRange w' => Crash OutOfRange (unlock_world w')
    | Crash r w' => Crash r w'
    end.

(** ** The registry ([Watcher]) *)

Definition set_state_ (s : PerformanceState) (r : Watcher) : Watcher :=
  mkWatcher s (extension_states_ r) (worker_ r) (worker_restarts_ r)
            (extensions_ r) (worker_status_ r) (fates_bound_ r).
Definition set_extension_states_ (m : gmap string PerformanceState)
    (r : Watcher) : Watcher :=
  mkWatcher (state_ r) m (worker_ r) (worker_restarts_ r)
            (extensions_ r) (worker_status_ r) (fates_bound_ r).
Definition set_worker_ (p : option PlatformProcess) (r : Watcher) : Watcher :=
  mkWatcher (state_ r) (extension_states_ r) p (worker_restarts_ r)
            (extensions_ r) (worker_status_ r) (fates_bound_ r).
Definition set_worker_restarts_ (n : Z) (r : Watcher) : Watcher :=
  mkWatcher (state_ r) (extension_states_ r) (worker_ r) n
            (extensions_ r) (worker_status_ r) (fates_bound_ r).
Definition set_extensions_ (m : gmap string (option PlatformProcess))
    (r : Watcher) : Watcher :=
  mkWatcher (state_ r) (extension_states_ r) (worker_ r) (worker_restarts_ r)
            m (worker_status_ r) (fates_bound_ r).
Definition set_worker_status_ (n : Z) (r : Watcher) : Watcher :=
  mkWatcher (state_ r) (extension_states_ r) (worker_ r) (worker_restarts_ r)
            (extensions_ r) n (fates_bound_ r).

(** The assignments shared by the two counter resets: [sustained_latency],
    [user_time], [system_time] and [last_respawn_time]. *)
Definition reset_counters (respawn_time : Z) (s : PerformanceState)
    : PerformanceState :=
  mkState 0 0 0 respawn_time (initial_footprint s).

(** [std::map::operator[]] on [extension_states_]: the entry is created
    with a zero state when the key is absent. *)
Definition state_at (path : string) (r : Watcher) : PerformanceState :=
  default zero_state (extension_states_ r !! path).

Definition touch_state (path : string) (r : Watcher) : Watcher :=
  set_extension_states_ (<[path := state_at path r]> (extension_states_ r)) r.

Definition resetWorkerCounters (respawn_time : Z) : M unit :=
  modify (fun r => set_state_ (reset_counters respawn_time (state_ r)) r).

Definition resetExtensionCounters (extension : string) (respawn_time : Z)
    : M unit :=
  locked (modify (fun r =>
    set_extension_states_
      (<[extension := reset_counters respawn_time (state_at extension r)]>
         (extension_states_ r)) r)).

(** Keys of a [std::map<std::string, _>] in iteration order. *)
Fixpoint insert_path (p : string) (l : list string) : list string :=
  match l with
  | [] => [p]
  | q :: rest => if String.leb p q then p :: q :: rest else q :: insert_path p rest
  end.

Definition sorted_paths (l : list string) : list string :=
  foldr insert_path [] l.

Definition extension_paths (r : Watcher) : list string :=
  sorted_paths (map fst (map_to_list (extensions_ r))).

(** The body of [for (const auto& extension : extensions())] in
    [getExtensionPath]; the map is not changed by the loop. *)
Fixpoint find_extension (child : PlatformProcess) (paths : list string)
    : M string :=
  match paths with
  | [] => ret ""%string
  | path :: rest =>
      let* h := gets (fun r => extensions_ r !! path) in
      match h with
      | None => find_extension child rest
      | Some ptr =>
          let* p := deref ptr in
          if decide (p = child) then ret path else find_extension child rest
      end
  end.

Definition getExtensionPath (child : PlatformProcess) : M string :=
  let* paths := gets extension_paths in
  find_extension child paths.

Definition removeExtensionPath (extension : string) : M unit :=
  locked (modify (fun r =>
    set_extension_states_ (delete extension (extension_states_ r))
      (set_extensions_ (delete extension (extensions_ r)) r))).

(** A [PerformanceState&] returned by [getState]. *)
Inductive state_ref :=
| WorkerState
| ExtensionState (path : string).

Definition read_state (ref : state_ref) (r : Watcher) : PerformanceState :=
  match ref with
  | WorkerState => state_ r
  | ExtensionState path => state_at path r
  end.

Definition write_state (ref : state_ref) (s : PerformanceState) (r : Watcher)
    : Watcher :=
  match ref with
  | WorkerState => set_state_ s r
  | ExtensionState path =>
      set_extension_states_ (<[path := s]> (extension_states_ r)) r
  end.

(** Modelled from the spec: the inline accessors of
    [osquery/core/watcher.h], which is not among the sources.
    [getWorker()] is [*instance().worker_], [setWorker] assigns the
    pointer, [extensions()] is the map [extensions_], [fatesBound()] and
    [getWorkerStatus()] read their fields, [workerRestartCount()] reads
    the restart counter and [workerRestarted()] increments it. *)
Definition getWorker : M PlatformProcess :=
  let* ptr := gets worker_ in deref ptr.

(** [getState(const PlatformProcess&)]. *)
Definition getState (child : PlatformProcess) : M state_ref :=
  let* wk := getWorker in
  if decide (child = wk) then ret WorkerState
  else
    let* path := getExtensionPath child in
    let* _ := modify (touch_state path) in
    ret (ExtensionState path).

(** [getState(const std::string&)]. *)
Definition getState_path (extension : string) : M state_ref :=
  let* _ := modify (touch_state extension) in
  ret (ExtensionState extension).

Definition setExtension (extension : string) (child : option PlatformProcess)
    : M unit :=
  locked (modify (fun r =>
    set_extensions_ (<[extension := child]> (extensions_ r)) r)).

Definition setWorker (child : option PlatformProcess) : M unit :=
  modify (set_worker_ child).

(** The loop of [Watcher::reset].  [child] is a reference to the object
    the matching entry owns; the model keeps the value it had on entry. *)
Fixpoint reset_extensions (child : PlatformProcess) (paths : list string)
    : M unit :=
  match paths with
  | [] => ret tt
  | path :: rest =>
      let* h := gets (fun r => extensions_ r !! path) in
      let* _ :=
        match h with
        | None => ret tt
        | Some ptr =>
            let* p := deref ptr in
            if decide (p = child) then
              let* _ := setExtension path (Some NoProcess) in
              resetExtensionCounters path 0
            else ret tt
        end in
      reset_extensions child rest
  end.

Definition reset (child : PlatformProcess) : M unit :=
  let* wk := getWorker in
  if decide (child = wk) then
    let* _ := modify (set_worker_ None) in
    resetWorkerCounters 0
  else
    let* paths := gets extension_paths in
    reset_extensions child paths.

Definition addExtensionPath (path : string) : M unit :=
  let* _ := setExtension path (Some NoProcess) in
  resetExtensionCounters path 0.

(** [getEnvVar("OSQUERY_EXTENSIONS").is_initialized()] is read from the
    run state. *)
Definition hasManagedExtensions : M bool :=
  fun _ w =>
    if 0 <? Z.of_nat (size (extensions_ (watcher w))) then Done true w
    else Done (env_OSQUERY_EXTENSIONS w) w.

(** ** The runner ([WatcherRunner]) *)

Definition ok : M bool :=
  let* status := gets worker_status_ in
  let* catastrophic := ask EXIT_CATASTROPHIC in
  if (status =? EXIT_SUCCESS) || (status =? catastrophic) then ret false
  else
    let* wk := getWorker in
    if isValid wk then ret true else hasManagedExtensions.

Definition stopChild (child : PlatformProcess) : M unit :=
  let* _ := emit (EvKill child) in
  emit EvCleanupDefunctProcesses.

(** What the [try] block of [isChildSane] leaves in [parent],
    [user_time], [system_time] and [footprint], and whether the [catch]
    clause ran.  The columns are read in this order and the first one
    that throws leaves the later variables at 0. *)
Record Sample := mkSample {
  s_parent : Z;
  s_user_time : Z;
  s_system_time : Z;
  s_footprint : Z;
  s_caught : bool
}.

Definition read_row (iv : Z) (row : Row) : Sample :=
  match r_parent row with
  | None => mkSample 0 0 0 0 true
  | Some p =>
      match r_user_time row with
      | None => mkSample (to_pid_t p) 0 0 0 true
      | Some u =>
          match r_system_time row with
          | None => mkSample (to_pid_t p) (u64 u / iv) 0 0 true
          | Some s =>
              match r_resident_size row with
              | None => mkSample (to_pid_t p) (u64 u / iv) (u64 s / iv) 0 true
              | Some f =>
                  mkSample (to_pid_t p) (u64 u / iv) (u64 s / iv) (u64 f) false
              end
          end
      end
  end.

(** The block of [isChildSane] that runs under the [WatcherLocker], on
    the state [getState(child)] refers to: the new state, the local
    [sustained_latency] and the local [footprint]. *)
Definition update_counters (utilization : Z) (smp : Sample)
    (state : PerformanceState) : PerformanceState * Z * Z :=
  let latency0 := if s_caught smp then 0 else sustained_latency state in
  let latency :=
    if (utilization <? u64 (s_user_time smp - user_time state))
       || (utilization <? u64 (s_system_time smp - system_time state))
    then u64 (latency0 + 1) else 0 in
  let initial :=
    if initial_footprint state =? 0 then s_footprint smp
    else initial_footprint state in
  let footprint :=
    if s_footprint smp <? initial then 0 else s_footprint smp - initial in
  (mkState latency (s_user_time smp) (s_system_time smp)
           (last_respawn_time state) initial,
   latency, footprint).

(** The scope of the [WatcherLocker] in [isChildSane]: the values of
    [parent], [sustained_latency] and [footprint] when it is left. *)
Definition sample_counters (child : PlatformProcess) (iv : Z) (row : Row)
    : M (Z * Z * Z) :=
  locked (
    let* ref := getState child in
    let smp := read_row iv row in
    let* utilization := limit UTILIZATION_LIMIT in
    let* state := gets (read_state ref) in
    let* _ := modify (write_state ref (update_counters utilization smp state).1.1) in
    ret (s_parent smp,
         (update_counters utilization smp state).1.2,
         (update_counters utilization smp state).2)).

Definition isChildSane (child : PlatformProcess) : M bool :=
  let* _ := emit (EvSelectProcesses (pid_of child)) in
  let* rows := ask (fun e => processes e (pid_of child)) in
  match rows with
  | [] => ret false
  | row :: _ =>
      let* interval := limit INTERVAL in
      let iv := Z.max interval 1 in
      let* checked := sample_counters child iv row in
      let parent := checked.1.1 in
      let latency := checked.1.2 in
      let footprint := checked.2 in
      let* self := ask current_pid in
      if negb (parent =? self) then
        let* _ := reset child in
        ret true
      else
        let* latency_limit := limit LATENCY_LIMIT in
        if (0 <? latency) && (latency_limit <=? u64 (latency * iv)) then
          ret false
        else
          let* memory_limit := limit MEMORY_LIMIT in
          if (0 <? footprint)
             && (u64 (memory_limit * 1024 * 1024) <? footprint) then
            ret false
          else
            let* use_worker := ask use_worker_ in
            let* _ := when use_worker (emit EvRelayStatusLogs) in
            ret true
  end.

Definition watch (child : PlatformProcess) : M bool :=
  let* _ := emit (EvCheckChildProcessStatus child) in
  let* answer := ask (fun e => checkChildProcessStatus e child) in
  let '(result, status) := answer in
  let* bound := gets fates_bound_ in
  if bound then ret false
  else if negb (isValid child) then ret false
  else
    match result with
    | PROCESS_ERROR => ret false
    | PROCESS_STILL_ALIVE =>
        let* sane := isChildSane child in
        if sane then ret true
        else
          let* _ := stopChild child in
          ret false
    | PROCESS_EXITED =>
        let* _ := modify (set_worker_status_ status) in
        ret true
    end.

(** [delay += pow(2, n) * 1000] on a [size_t delay]: the operands are
    converted to [double], added, and the sum is converted back; the
    conversion is undefined ([None]) when the sum does not fit. *)
Definition backoff_delay (respawn_delay restarts : Z) : option Z :=
  let delay := u64 (respawn_delay * 1000) in
  if 1024 <=? restarts then None
  else
    let sum := round_double (round_double delay
                             + round_double (2 ^ restarts * 1000)) in
    if sum <? 2 ^ 64 then Some sum else None.

(** [last_respawn_time > getUnixTime() - getWorkerLimit(RESPAWN_LIMIT)]. *)
Definition respawning_too_quickly (ref : state_ref) : M bool :=
  let* state := gets (read_state ref) in
  let* now := unixTime in
  let* respawn_limit := limit RESPAWN_LIMIT in
  ret (u64 (now - respawn_limit) <? last_respawn_time state).

(** [Watcher::workerRestarted()], see [getWorker]. *)
Definition workerRestarted : M unit :=
  modify (fun r => set_worker_restarts_ (u64 (worker_restarts_ r + 1)) r).

(** Modelled from the spec: [Initializer::requestShutdown], which is not
    among the sources, is a request made to the top-level initialiser;
    the call is recorded and the statements that follow it in the caller
    run. *)
Definition requestShutdown (code : Z) : M unit := emit (EvRequestShutdown code).

(** Modelled from the spec: [Initializer::shutdown], which is not among
    the sources, is the immediate, non-recoverable shutdown; the call is
    recorded and the process ends with [code], so that no statement after
    the call runs. *)
Definition shutdown (code : Z) : M unit :=
  let* _ := emit (EvShutdown code) in throw (ProcessExit code).

(** The first block of [createWorker], in the scope of its
    [WatcherLocker]. *)
Definition respawn_backoff : M unit :=
  locked (
    let* wk := getWorker in
    let* ref := getState wk in
    let* quick := respawning_too_quickly ref in
    if quick then
      let* _ := workerRestarted in
      let* respawn_delay := limit RESPAWN_DELAY in
      let* restarts := gets worker_restarts_ in
      match backoff_delay respawn_delay restarts with
      | Some delay => pauseMilli delay
      | None => throw DoubleToSizeOverflow
      end
    else ret tt).

(** The rest of [createWorker], after the scope of the locker. *)
Definition launch_worker : M unit :=
  let* self := ask current_pid in
  let* _ := emit (EvSelectProcesses self) in
  let* qd := ask (fun e => processes e self) in
  match qd with
  | [row] =>
      match r_path row with
      | Some path =>
          if Nat.eqb (String.length path) 0 then
            requestShutdown EXIT_FAILURE
          else
            let* managed := hasManagedExtensions in
            let* _ := when managed setEnvVar_OSQUERY_EXTENSIONS in
            let* exec_path := ask (fun e => system_complete e path) in
            let* safe := ask (fun e => safePermissions e exec_path) in
            if negb safe then requestShutdown EXIT_FAILURE
            else
              let* _ := emit (EvLaunchWorker exec_path) in
              let* worker := ask (fun e => launchWorker e exec_path) in
              match worker with
              | None => shutdown EXIT_FAILURE
              | Some _ =>
                  let* _ := setWorker worker in
                  let* now := unixTime in
                  resetWorkerCounters now
              end
      | None => requestShutdown EXIT_FAILURE
      end
  | _ => requestShutdown EXIT_FAILURE
  end.

Definition createWorker : M unit :=
  let* _ := respawn_backoff in
  launch_worker.

Definition createExtension (extension : string) : M bool :=
  let* quick :=
    locked (
      let* ref := getState_path extension in
      respawning_too_quickly ref) in
  if quick then ret false
  else
    let* exec_path := ask (fun e => system_complete e extension) in
    let* safe := ask (fun e => safePermissions e exec_path) in
    if negb safe then ret false
    else
      let* _ := emit (EvLaunchExtension exec_path) in
      let* ext_process := ask (fun e => launchExtension e exec_path) in
      let* _ :=
        match ext_process with
        | None => shutdown EXIT_FAILURE
        | Some _ => ret tt
        end in
      let* _ := setExtension extension ext_process in
      let* now := unixTime in
      let* _ := resetExtensionCounters extension now in
      (* VLOG(1) << ... << ext_process->pid() *)
      let* is_verbose := ask verbose in
      let* _ := if is_verbose then (let* _ := deref ext_process in ret tt)
                else ret tt in
      ret true.

(** The worker part of one pass of the loop of [start]; [true] is the
    [break]. *)
Definition watch_worker : M bool :=
  let* use_worker := ask use_worker_ in
  if use_worker then
    let* wk := getWorker in
    let* alive := watch wk in
    if alive then ret false
    else
      let* bound := gets fates_bound_ in
      if bound then ret true
      else
        let* _ := createWorker in
        ret false
  else ret false.

(** The loop over [Watcher::extensions()] in [start]; the result is
    [failing_extensions]. *)
Fixpoint watch_extensions (paths failing : list string) : M (list string) :=
  match paths with
  | [] => ret failing
  | path :: rest =>
      let* h := gets (fun r => extensions_ r !! path) in
      match h with
      | None => watch_extensions rest failing
      | Some ptr =>
          let* child := deref ptr in
          let* alive := watch child in
          if alive then watch_extensions rest failing
          else
            let* created := createExtension path in
            watch_extensions rest
              (if created then failing else failing ++ [path])
      end
  end.

Fixpoint remove_failing (failing : list string) : M unit :=
  match failing with
  | [] => ret tt
  | path :: rest =>
      let* _ := removeExtensionPath path in
      remove_failing rest
  end.

(** One pass through the body of the [do ... while] of [start], followed
    by the loop condition: [true] when the loop goes round again. *)
Definition start_pass : M bool :=
  let* broke := watch_worker in
  if broke then ret false
  else
    let* paths := gets extension_paths in
    let* failing := watch_extensions paths [] in
    let* _ := remove_failing failing in
    let* interval := limit INTERVAL in
    let* _ := pauseMilli (u64 (interval * 1000)) in
    let* stop := ask interrupted in
    if stop then ret false else ok.

Inductive loop_end :=
| LoopExited
| LoopRunning.

(** The loop of [start], one environment per pass: what the collaborators
    answer may change from pass to pass.  [LoopRunning] means that the
    loop has not ended when the listed passes are over. *)
Fixpoint start_loop (passes : list Env) (w : World) : outcome loop_end :=
  match passes with
  | [] => Done LoopRunning w
  | e :: rest =>
      match start_pass e w with
      | Done true w' => start_loop rest w'
      | Done false w' => Done LoopExited w'
      | Crash r w' => Crash r w'
      end
  end.

Definition start (passes : list Env) (w : World) : outcome loop_end :=
  match passes with
  | [] => Done LoopRunning w
  | e :: _ =>
      match resetWorkerCounters 0 e w with
      | Done _ w' => start_loop passes w'
      | Crash r w' => Crash r w'
      end
  end.

(** ** The worker's watcher ([WatcherWatcherRunner]) *)

Module WatcherWatcherRunner.

(** Modelled from the spec: [isLauncherProcessDead], called on the handle
    of the supervisor, asks the OS whether the supervisor is gone.  A
    tick of the loop of [start] pairs the environment of that moment,
    for [interrupted()] and the watchdog level, with the answer. *)
Definition tick : Type := Env * bool.

(** Modelled from the spec: [Initializer::requestShutdown()] without an
    argument is the request of [requestShutdown] with the default exit
    code, which a header that is not among the sources declares. *)
Definition requestShutdown_default (default_code : Z) : M unit :=
  requestShutdown default_code.

(** The body of the loop when the supervisor is alive. *)
Definition sleep_interval : M unit :=
  let* interval := limit INTERVAL in
  pauseMilli (u64 (interval * 1000)).

(** [WatcherWatcherRunner::start], one tick per evaluation of the loop
    condition.  [LoopRunning] means that the loop has not ended when the
    listed ticks are over. *)
Fixpoint start (default_code : Z) (ticks : list tick) (w : World)
    : outcome loop_end :=
  match ticks with
  | [] => Done LoopRunning w
  | (e, dead) :: rest =>
      if interrupted e then Done LoopExited w
      else if dead then
        match requestShutdown_default default_code e w with
        | Done _ w' => Done LoopExited w'
        | Crash r w' => Crash r w'
        end
      else
        match sleep_interval e w with
        | Done _ w' => start default_code rest w'
        | Crash r w' => Crash r w'
        end
  end.

End WatcherWatcherRunner.

(** * Vocabulary of the properties *)

(** ** Registry and traces *)

(** No entry of [extensions_] holds a null pointer. *)
Definition no_null_handle (m : gmap string (option PlatformProcess)) : Prop :=
  forall path, m !! path <> Some None.

(** An operation leaves everything of the registry alone except the two
    extension maps. *)
Definition same_worker_part (r r' : Watcher) : Prop :=
  state_ r' = state_ r /\ worker_ r' = worker_ r
  /\ worker_restarts_ r' = worker_restarts_ r
  /\ worker_status_ r' = worker_status_ r
  /\ fates_bound_ r' = fates_bound_ r.

Definition is_lock_event (ev : event) : Prop := ev = EvLock \/ ev = EvUnlock.

Definition is_pause (ev : event) : Prop := exists ms, ev = EvPauseMilli ms.

(** Events that neither signal a process nor launch one. *)
Definition quiet (ev : event) : Prop :=
  match ev with
  | EvKill _ | EvLaunchWorker _ | EvLaunchExtension _ => False
  | _ => True
  end.

(** [w'] continues [w] by events that all satisfy [P]. *)
Definition extends_by (P : event -> Prop) (w w' : World) : Prop :=
  exists tr, trace w' = trace w ++ tr /\ Forall P tr.

(** The launch of [createWorker] is reached and fails: the supervisor's
    pid selects one row with a non-empty path, the binary has safe
    permissions and [launchWorker] returns a null pointer. *)
Definition worker_launch_fails (e : Env) : bool :=
  match processes e (current_pid e) with
  | [row] =>
      match r_path row with
      | Some path =>
          negb (Nat.eqb (String.length path) 0)
          && safePermissions e (system_complete e path)
          && match launchWorker e (system_complete e path) with
             | Some _ => false
             | None => true
             end
      | None => false
      end
  | _ => false
  end.

(** The two extension maps have the same keys. *)
Definition keys_agree (r : Watcher) : Prop :=
  dom (extensions_ r) = dom (extension_states_ r).

(** [child] is the worker's handle, or a handle other than the worker's
    that is stored for exactly one extension path; [ref] is the state
    [getState(child)] refers to. *)
Definition tracks (r : Watcher) (child : PlatformProcess) (ref : state_ref)
    : Prop :=
  (worker_ r = Some child /\ ref = WorkerState)
  \/ (exists wk path,
        worker_ r = Some wk /\ child <> wk
        /\ no_null_handle (extensions_ r)
        /\ extensions_ r !! path = Some (Some child)
        /\ (forall p, extensions_ r !! p = Some (Some child) -> p = path)
        /\ ref = ExtensionState path).

(** What [getState] does to the registry on its way to [ref]. *)
Definition touch (ref : state_ref) (r : Watcher) : Watcher :=
  match ref with
  | WorkerState => r
  | ExtensionState path => touch_state path r
  end.

(** Calls that the mutex must not be held across: sleeping, launching a
    process, signalling or reaping one, asking for its status, and
    querying the process table. *)
Definition blocking (ev : event) : bool :=
  match ev with
  | EvPauseMilli _ | EvLaunchWorker _ | EvLaunchExtension _ | EvKill _
  | EvCleanupDefunctProcesses | EvCheckChildProcessStatus _
  | EvSelectProcesses _ => true
  | _ => false
  end.

(** No blocking call of [tr] happens between an [EvLock] and the next
    [EvUnlock]; [held] tells whether the mutex is held at the start. *)
Fixpoint lock_discipline (held : bool) (tr : list event) : bool :=
  match tr with
  | [] => true
  | EvLock :: rest => lock_discipline true rest
  | EvUnlock :: rest => lock_discipline false rest
  | ev :: rest => negb (held && blocking ev) && lock_discipline held rest
  end.

(** ** Limits and sanity checks *)

(** The value of [getWorkerLimit(name)] when [FLAGS_watchdog_level] is
    [level]; only meaningful for [0 <= level], where the call returns. *)
Definition worker_limit (level : Z) (name : WatchdogLimitType) : Z :=
  default 0 (getWorkerLimit level name (-1)).

(** The world after the locked block of a sanity check. *)
Definition sampled (ref : state_ref) (child : PlatformProcess)
    (state' : PerformanceState) (w : World) : World :=
  mkWorld (write_state ref state' (watcher w))
          (((trace w ++ [EvSelectProcesses (pid_of child)]) ++ [EvLock])
             ++ [EvUnlock])
          (clock_reads w) (env_OSQUERY_EXTENSIONS w).

(** Consecutive sanity checks of one child, one environment per check
    (what the process table answers changes from check to check). *)
Fixpoint sanity_checks (child : PlatformProcess) (envs : list Env) (w : World)
    : outcome (list bool) :=
  match envs with
  | [] => Done [] w
  | e :: rest =>
      match isChildSane child e w with
      | Done sane w' =>
          match sanity_checks child rest w' with
          | Done verdicts w'' => Done (sane :: verdicts) w''
          | Crash r w'' => Crash r w''
          end
      | Crash r w' => Crash r w'
      end
  end.

(** At every check of the sequence, starting with the counters [prev]:
    the watchdog level is [level], the row of [child] is found and all
    its columns parse, its parent is the supervisor, a user or system
    delta exceeds [UTILIZATION_LIMIT], and the memory limit does not
    trip. *)
Fixpoint utilization_trips (level : Z) (child : PlatformProcess)
    (prev : PerformanceState) (envs : list Env) : Prop :=
  match envs with
  | [] => True
  | e :: rest =>
      let iv := Z.max (worker_limit level INTERVAL) 1 in
      let utilization := worker_limit level UTILIZATION_LIMIT in
      FLAGS_watchdog_level e = level
      /\ exists row rows,
           processes e (pid_of child) = row :: rows
           /\ s_caught (read_row iv row) = false
           /\ s_parent (read_row iv row) = current_pid e
           /\ (utilization
               < u64 (s_user_time (read_row iv row) - user_time prev)
               \/ utilization
                  < u64 (s_system_time (read_row iv row) - system_time prev))
           /\ ~ (0 < (update_counters utilization (read_row iv row) prev).2
                 /\ u64 (worker_limit level MEMORY_LIMIT * 1024 * 1024)
                    < (update_counters utilization (read_row iv row) prev).2)
           /\ utilization_trips level child
                (update_counters utilization (read_row iv row) prev).1.1 rest
  end.

(** The verdicts of [k] further tripping checks when [j] have tripped
    already. *)
Fixpoint verdicts (latency_limit iv j : Z) (k : nat) : list bool :=
  match k with
  | O => []
  | S k' =>
      negb (latency_limit <=? (j + 1) * iv)
      :: verdicts latency_limit iv (j + 1) k'
  end.

(** The number of checks [⌈limit(LATENCY_LIMIT) / iv⌉] with
    [iv = max(limit(INTERVAL), 1)]. *)
Definition checks_to_trip (level : Z) : Z :=
  let iv := Z.max (worker_limit level INTERVAL) 1 in
  (worker_limit level LATENCY_LIMIT + iv - 1) / iv.

(** The stored counter exceeds the sample, by less than
    [2^64 - limit]. *)
Definition exceeds_sample (limit sample stored : Z) : Prop :=
  sample < stored < 2 ^ 64 /\ stored - sample < 2 ^ 64 - limit.

(** The unsigned difference [sample - stored] has wrapped and compares
    greater than [limit]. *)
Definition wraps_above (limit sample stored : Z) : Prop :=
  u64 (sample - stored) = 2 ^ 64 - (stored - sample)
  /\ limit < u64 (sample - stored).

(** For every restart count below [n], the [double] arithmetic of the
    back-off gives the exact sum. *)
Definition backoff_exact_upto (respawn_delay : Z) (n : nat) : bool :=
  forallb (fun k =>
             match backoff_delay respawn_delay (Z.of_nat k) with
             | Some delay =>
                 delay =? respawn_delay * 1000 + 2 ^ Z.of_nat k * 1000
             | None => false
             end)
          (seq 0 n).

(** ** Scenarios *)

(** The supervisor is process 100 and the worker, when there is one,
    process 200; the clock stands at second 1500000000, binaries have
    safe permissions, a launch gives the worker pid 201 and an extension
    pid 301, and [EXIT_CATASTROPHIC] is 78. *)
Definition supervisor_row : Row :=
  mkRow (Some 1) (Some 0) (Some 0) (Some 0) (Some "/usr/bin/osqueryd"%string).

(** The row of the worker: its parent, its [user_time] column, no system
    time and 4096 resident bytes. *)
Definition worker_row (parent : Z) (user : option Z) : Row :=
  mkRow (Some parent) user (Some 0) (Some 4096)
        (Some "/usr/bin/osqueryd"%string).

Definition host (level : Z) (use_worker : bool) (worker_rows : list Row)
    (status : PlatformProcess -> ProcessState * Z)
    (launches is_verbose : bool) : Env :=
  mkEnv level 78 use_worker 100
    (fun pid => if pid =? 100 then [supervisor_row]
                else if pid =? 200 then worker_rows else [])
    status (fun _ => 1500000000) (fun path => path) (fun _ => true)
    (fun _ => if launches then Some (Process 201) else None)
    (fun _ => if launches then Some (Process 301) else None)
    is_verbose false.

Definition all_alive (child : PlatformProcess) : ProcessState * Z :=
  (PROCESS_STILL_ALIVE, 0).

Definition none_found (child : PlatformProcess) : ProcessState * Z :=
  (PROCESS_ERROR, 0).

(** Level 0, nothing running. *)
Definition sample_env : Env := host 0 true [] none_found true false.

(** The worker has used [ticks] of user time. *)
Definition busy_env (level ticks : Z) : Env :=
  host level true [worker_row 100 (Some ticks)] all_alive true false.

(** The worker answers as alive, but its row names pid 1 as parent. *)
Definition reparented_env : Env :=
  host 1 true [worker_row 1 (Some 3000)] all_alive true false.

(** The worker runs within its limits; the extension 300 has exited with
    code 0. *)
Definition extension_exit_env : Env :=
  host 0 true [worker_row 100 (Some 30)]
       (fun child => match child with
                     | Process 300 => (PROCESS_EXITED, 0)
                     | _ => (PROCESS_STILL_ALIVE, 0)
                     end)
       true false.

(** The worker has used [ticks] of user time; the [resident_size] column
    of its row does not parse. *)
Definition half_parsed_row (ticks : Z) : Row :=
  mkRow (Some 100) (Some ticks) (Some 0) None
        (Some "/usr/bin/osqueryd"%string).

Definition half_parsed_env (level ticks : Z) : Env :=
  host level true [half_parsed_row ticks] all_alive true false.

(** The worker runs within its limits; the extension 300 answers as
    alive, but its row names pid 1 as parent. *)
Definition reparented_extension_env : Env :=
  mkEnv 1 78 true 100
    (fun pid => if pid =? 100 then [supervisor_row]
                else if pid =? 200 then [worker_row 100 (Some 30)]
                else if pid =? 300 then [worker_row 1 (Some 3000)] else [])
    all_alive (fun _ => 1500000000) (fun path => path) (fun _ => true)
    (fun _ => Some (Process 201)) (fun _ => Some (Process 301)) false false.


(** Debug level; the row of the worker carries the given [user_time]
    column. *)
Definition debug_env (user : option Z) : Env :=
  host 3 true [worker_row 100 user] all_alive true false.

(** Level 0; the [user_time] column of the worker's row does not
    parse. *)
Definition unparsed_env : Env :=
  host 0 true [worker_row 100 None] all_alive true false.

(** Launching fails: [launchWorker] and [launchExtension] return a null
    pointer. *)
Definition failed_launch_env (is_verbose : bool) : Env :=
  host 0 true [] none_found false is_verbose.

(** Nothing answers as alive, launches succeed; [use_worker] is the
    [use_worker_] of the runner. *)
Definition signalled_env (use_worker : bool) : Env :=
  host 0 use_worker [] none_found true false.

(** A registry that holds the worker 200 with the given state and no
    extension. *)
Definition worker_only (state : PerformanceState) : World :=
  mkWorld (mkWatcher state ∅ (Some (Process 200)) 0 ∅ (-1) false) [] 0 false.

Definition fresh_worker : World := worker_only zero_state.

(** A worker that has been through a sanity check which recorded 4096
    resident bytes as its initial footprint. *)
Definition measured_worker : World :=
  worker_only (mkState 1 1000 0 1500000000 4096).

(** The worker was started five seconds before. *)
Definition young_worker : World :=
  worker_only (mkState 0 0 0 1499999995 0).

(** The worker had used 300 ticks per second at its last check. *)
Definition sampled_worker : World :=
  worker_only (mkState 0 300 0 0 4096).

(** The worker had used 300 ticks per second at its last check, the
    third in a row that found it over the utilization limit. *)
Definition lagging_worker : World :=
  worker_only (mkState 3 300 0 0 4096).

(** A registry with the worker and one extension, stored with [handle],
    whose two maps have the same key. *)
Definition with_extension (worker handle : PlatformProcess) (bound : bool)
    : World :=
  mkWorld (mkWatcher zero_state {[ "/opt/ext/a"%string := zero_state ]}
                     (Some worker) 0
                     {[ "/opt/ext/a"%string := Some handle ]}
                     (-1) bound)
          [] 0 false.

Definition one_extension : World :=
  with_extension (Process 200) (Process 300) false.



(** A registered extension that has not been launched yet. *)
Definition unlaunched_extension : World :=
  with_extension (Process 200) NoProcess false.

(** [fates_bound_] is set; no worker runs and one extension is
    registered. *)
Definition bound_fates : World :=
  with_extension NoProcess NoProcess true.

(** ** Runs and their events *)

(** The world a run ends in, finished or not. *)
Definition world_of {A} (o : outcome A) : World :=
  match o with Done _ w => w | Crash _ w => w end.

(** Every run of [c] adds only events that satisfy [P]. *)
Definition emits {A} (P : event -> Prop) (c : M A) : Prop :=
  forall e w, extends_by P w (world_of (c e w)).

(** The events of a sanity check: the query of the process table, the
    registry mutex and the relay of the status logs. *)
Definition sanity_event (ev : event) : Prop :=
  match ev with
  | EvSelectProcesses _ | EvLock | EvUnlock | EvRelayStatusLogs => True
  | _ => False
  end.

(** The world after the events [tr]. *)
Definition after_events (tr : list event) (w : World) : World :=
  mkWorld (watcher w) (trace w ++ tr) (clock_reads w)
          (env_OSQUERY_EXTENSIONS w).

(** The world once [checkChildProcessStatus(child)] has been called. *)
Definition status_checked (child : PlatformProcess) (w : World) : World :=
  mkWorld (watcher w) (trace w ++ [EvCheckChildProcessStatus child])
          (clock_reads w) (env_OSQUERY_EXTENSIONS w).

(** The world once [stopChild(child)] has run. *)
Definition stopped (child : PlatformProcess) (w : World) : World :=
  mkWorld (watcher w)
          ((trace w ++ [EvKill child]) ++ [EvCleanupDefunctProcesses])
          (clock_reads w) (env_OSQUERY_EXTENSIONS w).

(** The values an interval-averaged sample of [row] leaves in the locals
    of [isChildSane] at watchdog level [level]. *)
Definition sample_at (level : Z) (row : Row) : Sample :=
  read_row (Z.max (worker_limit level INTERVAL) 1) row.

(** [MEMORY_LIMIT] in bytes. *)
Definition memory_limit_bytes (level : Z) : Z :=
  worker_limit level MEMORY_LIMIT * 1024 * 1024.

(** What [hasManagedExtensions] answers in [w]. *)
Definition manages_extensions (w : World) : bool :=
  (0 <? Z.of_nat (size (extensions_ (watcher w)))) || env_OSQUERY_EXTENSIONS w.

(** The supervisor is alive at this tick of the worker's watcher and the
    thread is not interrupted. *)
Definition supervised (t : WatcherWatcherRunner.tick) : Prop :=
  interrupted t.1 = false /\ t.2 = false /\ 0 <= FLAGS_watchdog_level t.1.

(** The sleep the worker's watcher makes at this tick. *)
Definition tick_sleep (t : WatcherWatcherRunner.tick) : event :=
  EvPauseMilli (worker_limit (FLAGS_watchdog_level t.1) INTERVAL * 1000).

(** ** Invariants of the registry *)

(** Every run of [c] from a registry that satisfies [J] ends, finished
    or not, in a registry that satisfies [J]. *)
Definition keeps {A} (J : Watcher -> Prop) (c : M A) : Prop :=
  forall e w, J (watcher w) -> J (watcher (world_of (c e w))).

(** The worker's memory baseline is [b]. *)
Definition worker_baseline (b : Z) (r : Watcher) : Prop :=
  initial_footprint (state_ r) = b.

(** Both extension maps have exactly the keys [D]. *)
Definition same_keys (D : gset string) (r : Watcher) : Prop :=
  dom (extensions_ r) = D /\ dom (extension_states_ r) = D.

(** [child] is the worker's handle or a handle stored for an
    extension. *)
Definition holds (r : Watcher) (child : PlatformProcess) : Prop :=
  worker_ r = Some child
  \/ exists path, extensions_ r !! path = Some (Some child).

(** ** The registry mutex over a run *)

(** Whether the mutex is held after [tr], when [held] tells whether it
    is held before. *)
Fixpoint held_after (held : bool) (tr : list event) : bool :=
  match tr with
  | [] => held
  | EvLock :: rest => held_after true rest
  | EvUnlock :: rest => held_after false rest
  | _ :: rest => held_after held rest
  end.

(** [lock_discipline] for a choice [blocks] of the calls that must not
    be made with the mutex held. *)
Fixpoint no_call_under_lock (blocks : event -> bool) (held : bool)
    (tr : list event) : bool :=
  match tr with
  | [] => true
  | EvLock :: rest => no_call_under_lock blocks true rest
  | EvUnlock :: rest => no_call_under_lock blocks false rest
  | ev :: rest => negb (held && blocks ev) && no_call_under_lock blocks held rest
  end.

(** The blocking calls other than [pauseMilli]. *)
Definition blocking_but_sleep (ev : event) : bool :=
  match ev with
  | EvPauseMilli _ => false
  | _ => blocking ev
  end.

(** An event that may happen while the mutex is held. *)
Definition calm (blocks : event -> bool) (ev : event) : Prop :=
  blocks ev = false /\ ev <> EvLock /\ ev <> EvUnlock.

(** Entered with the mutex released, a run of [c] in [e] makes none of
    the calls [blocks] while it holds the mutex, and has released the
    mutex when it returns. *)
Definition disciplined {A} (blocks : event -> bool) (e : Env) (c : M A)
    : Prop :=
  forall w, exists tr,
    trace (world_of (c e w)) = trace w ++ tr
    /\ no_call_under_lock blocks false tr = true
    /\ (forall a w', c e w = Done a w' -> held_after false tr = false).

(** ** Further scenarios *)

(** The worker's row reports [bytes] resident bytes and no CPU time. *)
Definition resident_env (level bytes : Z) : Env :=
  host level true
       [mkRow (Some 100) (Some 0) (Some 0) (Some bytes)
              (Some "/usr/bin/osqueryd"%string)]
       all_alive true false.

(** The [parent] column of the worker's row does not parse. *)
Definition orphan_row_env : Env :=
  host 0 true
       [mkRow None (Some 0) (Some 0) (Some 4096)
              (Some "/usr/bin/osqueryd"%string)]
       all_alive true false.

(** The worker answers as alive, but the process table has no row for
    it. *)
Definition vanished_env : Env := host 0 true [] all_alive true false.

(** The supervisor cannot find itself in the process table. *)
Definition hidden_supervisor_env : Env :=
  mkEnv 0 78 true 100 (fun _ => []) none_found (fun _ => 1500000000)
        (fun path => path) (fun _ => true)
        (fun _ => Some (Process 201)) (fun _ => Some (Process 301))
        false false.

(** An extension that was launched five seconds before as process 300,
    in a registry without a worker. *)
Definition young_extension : World :=
  mkWorld (mkWatcher zero_state
                     {[ "/opt/ext/a"%string := mkState 0 0 0 1499999995 0 ]}
                     (Some NoProcess) 0
                     {[ "/opt/ext/a"%string := Some (Process 300) ]}
                     (-1) false)
          [] 0 false.

(** The entry of the one registered extension is a null pointer. *)
Definition null_extension : World :=
  mkWorld (mkWatcher zero_state {[ "/opt/ext/a"%string := zero_state ]}
                     (Some (Process 200)) 0
                     {[ "/opt/ext/a"%string := None ]}
                     (-1) false)
          [] 0 false.

(** A supervisor that has not launched its worker yet; the state still
    carries a recent [last_respawn_time]. *)
Definition idle_supervisor : World :=
  mkWorld (mkWatcher (mkState 0 0 0 1499999999 0) ∅ (Some NoProcess) 0 ∅
                     (-1) false)
          [] 0 false.

(** * Properties *)

(** ** Running the registry operations *)

Lemma extends_by_refl P w : extends_by P w w.
Proof. exists []. split; [by rewrite app_nil_r | constructor]. Qed.

Lemma extends_by_trans P w1 w2 w3 :
  extends_by P w1 w2 -> extends_by P w2 w3 -> extends_by P w1 w3.
Proof.
  intros (t1 & E1 & F1) (t2 & E2 & F2). exists (t1 ++ t2). split.
  - by rewrite E2, E1, app_assoc.
  - by apply Forall_app.
Qed.

Lemma extends_by_weaken (P Q : event -> Prop) w w' :
  (forall ev, P ev -> Q ev) -> extends_by P w w' -> extends_by Q w w'.
Proof.
  intros HPQ (tr & E & F). exists tr. split; [done|].
  eapply Forall_impl; eauto.
Qed.

Lemma reset_counters_idem t s :
  reset_counters t (reset_counters t s) = reset_counters t s.
Proof. reflexivity. Qed.

Lemma setExtension_run path child e w :
  setExtension path child e w =
  Done tt (mkWorld (set_extensions_ (<[path := child]> (extensions_ (watcher w)))
                                    (watcher w))
                   ((trace w ++ [EvLock]) ++ [EvUnlock]) (clock_reads w)
                   (env_OSQUERY_EXTENSIONS w)).
Proof. reflexivity. Qed.

Lemma resetExtensionCounters_run path t e w :
  resetExtensionCounters path t e w =
  Done tt (mkWorld
             (set_extension_states_
                (<[path := reset_counters t (state_at path (watcher w))]>
                   (extension_states_ (watcher w))) (watcher w))
             ((trace w ++ [EvLock]) ++ [EvUnlock]) (clock_reads w)
             (env_OSQUERY_EXTENSIONS w)).
Proof. reflexivity. Qed.

Lemma lock_pair_extends w r' c x :
  extends_by is_lock_event w
    (mkWorld r' ((trace w ++ [EvLock]) ++ [EvUnlock]) c x).
Proof.
  exists [EvLock; EvUnlock]. split.
  - simpl. by rewrite <- app_assoc.
  - constructor; [by left|]. constructor; [by right|]. constructor.
Qed.

(** The loop of [Watcher::reset]: every listed path whose handle equals
    [child] gets an invalid handle and reset counters, nothing else
    changes, and only the mutex is touched. *)
Lemma reset_extensions_run child paths : forall e w,
  no_null_handle (extensions_ (watcher w)) ->
  exists w',
    reset_extensions child paths e w = Done tt w'
    /\ (forall p, p ∈ paths ->
          extensions_ (watcher w) !! p = Some (Some child) ->
          extensions_ (watcher w') !! p = Some (Some NoProcess)
          /\ extension_states_ (watcher w') !! p
             = Some (reset_counters 0 (state_at p (watcher w))))
    /\ (forall p, ~ (p ∈ paths /\ extensions_ (watcher w) !! p = Some (Some child)) ->
          extensions_ (watcher w') !! p = extensions_ (watcher w) !! p
          /\ extension_states_ (watcher w') !! p
             = extension_states_ (watcher w) !! p)
    /\ same_worker_part (watcher w) (watcher w')
    /\ extends_by is_lock_event w w'.
Proof.
  induction paths as [|path rest IH]; intros e w Hnn.
  - exists w. split; [reflexivity|]. split; [intros p Hp; inversion Hp|].
    split; [done|]. split; [by repeat split | apply extends_by_refl].
  - simpl. unfold bind at 1. unfold gets at 1.
    destruct (extensions_ (watcher w) !! path) as [[p0|]|] eqn:Hpath.
    + unfold bind at 1; unfold bind at 1; simpl.
      destruct (decide (p0 = child)) as [->|Hne].
      * unfold bind at 1. rewrite setExtension_run.
        rewrite resetExtensionCounters_run. simpl.
        set (w1 := mkWorld _ _ _ _).
        destruct (IH e w1) as (w' & Hrun & H1 & H2 & Hframe & Hext).
        { intros p. subst w1; simpl.
          destruct (decide (path = p)) as [->|Hp].
          - rewrite lookup_insert_eq. congruence.
          - rewrite lookup_insert_ne by done. apply Hnn. }
        exists w'. split; [exact Hrun|].
        assert (Hw1e : forall p, extensions_ (watcher w1) !! p
                 = if decide (path = p) then Some (Some NoProcess)
                   else extensions_ (watcher w) !! p).
        { intros p. subst w1; simpl. by rewrite lookup_insert. }
        assert (Hw1s : forall p, extension_states_ (watcher w1) !! p
                 = if decide (path = p)
                   then Some (reset_counters 0 (state_at path (watcher w)))
                   else extension_states_ (watcher w) !! p).
        { intros p. subst w1; simpl. by rewrite lookup_insert. }
        split; [|split; [|split]].
        -- intros p Hp Hm.
           destruct (decide (path = p)) as [<-|Hpp].
           ++ destruct (decide (path ∈ rest
                                /\ extensions_ (watcher w1) !! path
                                   = Some (Some child))) as [[Hin Hm1]|Hno].
              ** destruct (H1 path Hin Hm1) as [He Hs]. split; [done|].
                 rewrite Hs. unfold state_at at 1. rewrite Hw1s.
                 rewrite decide_True by done. reflexivity.
              ** destruct (H2 path Hno) as [He Hs].
                 rewrite He, Hs, Hw1e, Hw1s. by rewrite !decide_True.
           ++ assert (Hin : p ∈ rest) by (inversion Hp; [congruence | done]).
              assert (Hm1 : extensions_ (watcher w1) !! p = Some (Some child)).
              { rewrite Hw1e. by rewrite decide_False. }
              destruct (H1 p Hin Hm1) as [He Hs]. split; [done|].
              rewrite Hs. unfold state_at. rewrite Hw1s.
              by rewrite decide_False.
        -- intros p Hno.
           destruct (decide (path = p)) as [<-|Hpp].
           { exfalso. apply Hno. split; [left | done]. }
           assert (Hno1 : ~ (p ∈ rest /\ extensions_ (watcher w1) !! p
                                       = Some (Some child))).
           { intros [Hin Hm1]. apply Hno. split; [by right|].
             rewrite Hw1e in Hm1. by rewrite decide_False in Hm1. }
           destruct (H2 p Hno1) as [He Hs].
           rewrite He, Hs, Hw1e, Hw1s. by rewrite !decide_False.
        -- destruct Hframe as (F1 & F2 & F3 & F4 & F5).
           by repeat split.
        -- eapply extends_by_trans; [|exact Hext].
           exists [EvLock; EvUnlock; EvLock; EvUnlock]. split.
           ++ subst w1; simpl. by rewrite <- !app_assoc.
           ++ repeat (constructor; [by (left + right)|]). constructor.
      * unfold ret at 1.
        destruct (IH e w Hnn) as (w' & Hrun & H1 & H2 & Hframe & Hext).
        exists w'. split; [exact Hrun|]. split; [|split; [|done]].
        -- intros p Hp Hm. apply H1; [|done].
           inversion Hp; subst; [congruence | done].
        -- intros p Hno. apply H2. intros [Hin Hm]. apply Hno.
           split; [by right | done].
    + exfalso. by apply (Hnn path).
    + unfold bind at 1; unfold ret at 1.
      destruct (IH e w Hnn) as (w' & Hrun & H1 & H2 & Hframe & Hext).
      exists w'. split; [exact Hrun|]. split; [|split; [|done]].
      * intros p Hp Hm. apply H1; [|done].
        inversion Hp; subst; [congruence | done].
      * intros p Hno. apply H2. intros [Hin Hm]. apply Hno.
        split; [by right | done].
Qed.

Lemma elem_of_insert_path p q l : p ∈ insert_path q l <-> p = q \/ p ∈ l.
Proof.
  induction l as [|x l IH]; simpl.
  - rewrite list_elem_of_singleton, elem_of_nil. tauto.
  - destruct (String.leb q x); rewrite !elem_of_cons; [tauto|].
    rewrite IH. tauto.
Qed.

Lemma elem_of_sorted_paths p l : p ∈ sorted_paths l <-> p ∈ l.
Proof.
  induction l as [|x l IH]; simpl; [done|].
  rewrite elem_of_insert_path, IH, elem_of_cons. tauto.
Qed.

Lemma elem_of_extension_paths p r :
  p ∈ extension_paths r <-> is_Some (extensions_ r !! p).
Proof.
  unfold extension_paths. rewrite elem_of_sorted_paths, list_elem_of_fmap.
  split.
  - intros ([k v] & -> & Hin). apply elem_of_map_to_list in Hin. eauto.
  - intros [v Hv]. exists (p, v). split; [done|].
    by apply elem_of_map_to_list.
Qed.

Lemma reset_worker_run child e w :
  worker_ (watcher w) = Some child ->
  reset child e w =
  Done tt (mkWorld (set_state_ (reset_counters 0 (state_ (watcher w)))
                      (set_worker_ None (watcher w)))
                   (trace w) (clock_reads w) (env_OSQUERY_EXTENSIONS w)).
Proof.
  intros Hw. unfold reset, getWorker, bind, gets. rewrite Hw. simpl.
  by rewrite decide_True.
Qed.

Lemma reset_extension_run child wk e w :
  worker_ (watcher w) = Some wk -> child <> wk ->
  reset child e w = reset_extensions child (extension_paths (watcher w)) e w.
Proof.
  intros Hw Hne. unfold reset, getWorker, bind, gets. rewrite Hw. simpl.
  by rewrite decide_False.
Qed.

(** ** C1: what a reset does to the counters *)




(** ** C2: bound fates and the extension branch *)

(** C2, with the fates bound before a pass of the loop: a runner without
    a worker ([use_worker_] false) launches the registered extension in
    that pass, sleeps, and goes round again; a runner with a worker
    breaks out of the loop at the check in the worker branch. *)
Theorem bound_fates_still_launch_extension :
  exists w_ext w_worker,
    fates_bound_ (watcher bound_fates) = true
    /\ start_pass (signalled_env false) bound_fates = Done true w_ext
    /\ trace w_ext
       = [EvCheckChildProcessStatus NoProcess; EvLock; EvUnlock;
          EvLaunchExtension "/opt/ext/a"; EvLock; EvUnlock; EvLock; EvUnlock;
          EvPauseMilli 3000]
    /\ extensions_ (watcher w_ext) !! "/opt/ext/a"%string
       = Some (Some (Process 301))
    /\ start_pass (signalled_env true) bound_fates = Done false w_worker
    /\ trace w_worker = [EvCheckChildProcessStatus NoProcess].
Proof.
  eexists _, _. split; [reflexivity|].
  split; [vm_compute; reflexivity|]. split; [reflexivity|].
  split; [vm_compute; reflexivity|].
  split; [vm_compute; reflexivity|]. reflexivity.
Qed.

(** ** C3: the key sets of the two extension maps *)

(** [getExtensionPath]: the path of an entry whose handle equals [child],
    or the empty string when no listed entry has such a handle. *)
Lemma find_extension_run child paths : forall e w,
  no_null_handle (extensions_ (watcher w)) ->
  exists path,
    find_extension child paths e w = Done path w
    /\ ((path ∈ paths /\ extensions_ (watcher w) !! path = Some (Some child))
        \/ (path = ""%string
            /\ forall p, p ∈ paths ->
                 extensions_ (watcher w) !! p <> Some (Some child))).
Proof.
  induction paths as [|q rest IH]; intros e w Hnn.
  - exists ""%string. split; [reflexivity|]. right. split; [done|].
    intros p Hp. inversion Hp.
  - simpl. unfold bind at 1. unfold gets at 1.
    destruct (IH e w Hnn) as (path & Hrun & Hres).
    assert (Hskip : extensions_ (watcher w) !! q <> Some (Some child) ->
              exists path0,
                find_extension child rest e w = Done path0 w
                /\ ((path0 ∈ q :: rest
                     /\ extensions_ (watcher w) !! path0 = Some (Some child))
                    \/ (path0 = ""%string
                        /\ forall p, p ∈ q :: rest ->
                             extensions_ (watcher w) !! p
                             <> Some (Some child)))).
    { intros Hq. exists path. split; [exact Hrun|].
      destruct Hres as [[Hin Hm]|[-> Hno]].
      - left. split; [by right | done].
      - right. split; [done|]. intros p Hp.
        apply elem_of_cons in Hp as [->|Hp]; [done | by apply Hno]. }
    destruct (extensions_ (watcher w) !! q) as [[p0|]|] eqn:Hq.
    + unfold bind at 1; simpl.
      destruct (decide (p0 = child)) as [->|Hne].
      * exists q. split; [reflexivity|]. left. split; [left | done].
      * apply Hskip. congruence.
    + exfalso. by apply (Hnn q).
    + apply Hskip. congruence.
Qed.

Lemma getState_worker child e w :
  worker_ (watcher w) = Some child ->
  getState child e w = Done WorkerState w.
Proof.
  intros Hw. unfold getState, getWorker, bind, gets. rewrite Hw. simpl.
  by rewrite decide_True.
Qed.

Lemma getState_extension child wk e w :
  worker_ (watcher w) = Some wk -> child <> wk ->
  no_null_handle (extensions_ (watcher w)) ->
  exists path,
    getState child e w
    = Done (ExtensionState path)
           (mkWorld (touch_state path (watcher w)) (trace w) (clock_reads w)
                    (env_OSQUERY_EXTENSIONS w))
    /\ ((extensions_ (watcher w) !! path = Some (Some child))
        \/ (path = ""%string
            /\ forall p, extensions_ (watcher w) !! p <> Some (Some child))).
Proof.
  intros Hw Hne Hnn.
  destruct (find_extension_run child (extension_paths (watcher w)) e w Hnn)
    as (path & Hrun & Hres).
  exists path. split.
  - unfold getState, getWorker, bind, gets. rewrite Hw. simpl.
    rewrite decide_False by done. unfold getExtensionPath, bind, gets.
    by rewrite Hrun.
  - destruct Hres as [[_ Hm]|[-> Hno]]; [by left|]. right. split; [done|].
    intros p Hp. apply (Hno p); [|done].
    apply elem_of_extension_paths. eauto.
Qed.

Lemma touch_state_known path r :
  is_Some (extension_states_ r !! path) ->
  extension_states_ (touch_state path r) = extension_states_ r.
Proof.
  intros [s Hs]. unfold touch_state, state_at. simpl. rewrite Hs. simpl.
  by apply insert_id.
Qed.

(** C3, refuted as stated: looking up the state of a handle that is
    neither the worker nor a stored extension handle creates a state for
    the empty path, which is no key of [extensions_]. *)
Lemma unmatched_lookup_breaks_key_sets :
  keys_agree (watcher one_extension)
  /\ exists w',
       getState (Process 999) sample_env one_extension
       = Done (ExtensionState "") w'
       /\ ~ keys_agree (watcher w').
Proof.
  split.
  - unfold keys_agree, one_extension; simpl. by rewrite !dom_singleton_L.
  - exists (mkWorld (touch_state "" (watcher one_extension)) [] 0 false).
    split; [vm_compute; reflexivity|].
    unfold keys_agree, touch_state, one_extension. simpl. intros Heq.
    assert (Hin : (""%string) ∈ dom ({[ "/opt/ext/a"%string := Some (Process 300) ]}
                 : gmap string (option PlatformProcess))).
    { rewrite Heq, dom_insert_L. apply elem_of_union_l.
      by apply elem_of_singleton. }
    rewrite dom_singleton_L in Hin. apply elem_of_singleton in Hin.
    discriminate Hin.
Qed.

Lemma reset_keeps_keys child wk e w :
  worker_ (watcher w) = Some wk ->
  no_null_handle (extensions_ (watcher w)) ->
  keys_agree (watcher w) ->
  exists w', reset child e w = Done tt w' /\ keys_agree (watcher w').
Proof.
  intros Hw Hnn Hk. destruct (decide (child = wk)) as [->|Hne].
  - rewrite (reset_worker_run _ _ _ Hw). eexists. split; [reflexivity|].
    exact Hk.
  - rewrite (reset_extension_run _ _ _ _ Hw Hne).
    destruct (reset_extensions_run child (extension_paths (watcher w)) e w Hnn)
      as (w' & Hrun & H1 & H2 & _).
    exists w'. split; [exact Hrun|]. unfold keys_agree in *.
    assert (Hsame : forall p,
              is_Some (extensions_ (watcher w') !! p)
              <-> is_Some (extensions_ (watcher w) !! p)).
    { intros p.
      destruct (decide (p ∈ extension_paths (watcher w)
                        /\ extensions_ (watcher w) !! p = Some (Some child)))
        as [[Hin Hm]|Hno].
      - destruct (H1 p Hin Hm) as [-> _]. rewrite Hm. split; eauto.
      - destruct (H2 p Hno) as [-> _]. done. }
    assert (Hstates : forall p,
              is_Some (extension_states_ (watcher w') !! p)
              <-> is_Some (extension_states_ (watcher w) !! p)).
    { intros p.
      destruct (decide (p ∈ extension_paths (watcher w)
                        /\ extensions_ (watcher w) !! p = Some (Some child)))
        as [[Hin Hm]|Hno].
      - destruct (H1 p Hin Hm) as [_ ->]. split; [|eauto]. intros _.
        apply elem_of_dom. rewrite <- Hk. apply elem_of_dom. eauto.
      - destruct (H2 p Hno) as [_ ->]. done. }
    apply set_eq. intros p. rewrite !elem_of_dom, Hsame, Hstates.
    rewrite <- !elem_of_dom. by rewrite Hk.
Qed.

(** C3, amended: when the two maps have the same keys before,
    they have the same keys after [addExtensionPath], [removeExtensionPath],
    [reset], [setExtension] and [resetExtensionCounters] on a registered
    path, and after a [getState] lookup of the worker's handle or of a
    handle stored for an extension; a [getState] lookup of any other handle
    leaves [extensions_] as it is and adds the empty path to the keys of
    [extension_states_]. *)
Theorem key_sets_agree_after_registry_operations :
  (forall e w path,
      keys_agree (watcher w) ->
      exists w', addExtensionPath path e w = Done tt w'
                 /\ keys_agree (watcher w'))
  /\ (forall e w path,
      keys_agree (watcher w) ->
      exists w', removeExtensionPath path e w = Done tt w'
                 /\ keys_agree (watcher w'))
  /\ (forall e w child wk,
      worker_ (watcher w) = Some wk ->
      no_null_handle (extensions_ (watcher w)) ->
      keys_agree (watcher w) ->
      exists w', reset child e w = Done tt w' /\ keys_agree (watcher w'))
  /\ (forall e w path child t,
      is_Some (extensions_ (watcher w) !! path) ->
      keys_agree (watcher w) ->
      exists w1 w2,
        setExtension path child e w = Done tt w1 /\ keys_agree (watcher w1)
        /\ resetExtensionCounters path t e w = Done tt w2
        /\ keys_agree (watcher w2))
  /\ (forall e w child wk,
      worker_ (watcher w) = Some wk ->
      no_null_handle (extensions_ (watcher w)) ->
      keys_agree (watcher w) ->
      child = wk \/ (exists path,
                       extensions_ (watcher w) !! path = Some (Some child)) ->
      exists ref w', getState child e w = Done ref w'
                     /\ keys_agree (watcher w'))
  /\ (forall e w child wk,
      worker_ (watcher w) = Some wk -> child <> wk ->
      no_null_handle (extensions_ (watcher w)) ->
      (forall p, extensions_ (watcher w) !! p <> Some (Some child)) ->
      exists w',
        getState child e w = Done (ExtensionState "") w'
        /\ extensions_ (watcher w') = extensions_ (watcher w)
        /\ dom (extension_states_ (watcher w'))
           = {[ ""%string ]} ∪ dom (extension_states_ (watcher w))).
Proof.
  split; [|split; [|split; [|split; [|split]]]].
  - intros e w path Hk. unfold addExtensionPath, bind.
    rewrite setExtension_run, resetExtensionCounters_run. eexists.
    split; [reflexivity|]. unfold keys_agree in *. simpl.
    by rewrite !dom_insert_L, Hk.
  - intros e w path Hk. eexists. split; [reflexivity|].
    unfold keys_agree in *. simpl. by rewrite !dom_delete_L, Hk.
  - intros e w child wk. apply reset_keeps_keys.
  - intros e w path child t Hreg Hk.
    rewrite setExtension_run, resetExtensionCounters_run.
    eexists _, _. split; [reflexivity|]. split; [|split; [reflexivity|]].
    + unfold keys_agree in *. simpl. rewrite dom_insert_L, <- Hk.
      apply elem_of_dom in Hreg. apply subseteq_union_1_L.
      by apply singleton_subseteq_l.
    + unfold keys_agree in *. simpl. rewrite dom_insert_L, <- Hk.
      apply elem_of_dom in Hreg. symmetry. apply subseteq_union_1_L.
      by apply singleton_subseteq_l.
  - intros e w child wk Hw Hnn Hk Hmatch.
    destruct (decide (child = wk)) as [->|Hne].
    { rewrite (getState_worker _ _ _ Hw). eauto. }
    destruct (getState_extension child wk e w Hw Hne Hnn)
      as (path & Hrun & Hres).
    rewrite Hrun. eexists _, _. split; [reflexivity|].
    destruct Hres as [Hm|[_ Hno]].
    + unfold keys_agree in *. cbn [watcher].
      rewrite touch_state_known; [done|].
      apply elem_of_dom. rewrite <- Hk. apply elem_of_dom. eauto.
    + destruct Hmatch as [?|[p Hp]]; [done|]. by destruct (Hno p).
  - intros e w child wk Hw Hne Hnn Hno.
    destruct (getState_extension child wk e w Hw Hne Hnn)
      as (path & Hrun & Hres).
    destruct Hres as [Hm|[-> _]]; [by destruct (Hno path)|].
    rewrite Hrun. eexists. split; [reflexivity|]. split; [reflexivity|].
    simpl. by rewrite dom_insert_L.
Qed.

Lemma key_sets_agree_after_registry_operations_witness :
  exists w', reset (Process 300) sample_env one_extension = Done tt w'
             /\ keys_agree (watcher w').
Proof.
  destruct key_sets_agree_after_registry_operations as (_ & _ & H & _).
  apply (H sample_env one_extension (Process 300) (Process 200)).
  - reflexivity.
  - intros path. unfold one_extension; simpl.
    destruct (decide (path = "/opt/ext/a"%string)) as [->|Hne].
    + rewrite lookup_singleton_eq. discriminate.
    + rewrite lookup_singleton_ne by done. discriminate.
  - unfold keys_agree, one_extension; simpl. by rewrite !dom_singleton_L.
Defined.

(** ** Limits at a configured level *)

Lemma getWorkerLimit_clamp level name :
  3 <= level -> getWorkerLimit level name (-1) = getWorkerLimit 3 name (-1).
Proof.
  intros H. unfold getWorkerLimit.
  destruct (limits_of name kWatchdogLimits) as [row|] eqn:Hrow; [|done].
  change (-1 =? -1) with true. cbv iota.
  destruct (3 <? level) eqn:Hlt.
  - destruct name; simpl in Hrow; inversion Hrow; reflexivity.
  - apply Z.ltb_ge in Hlt. by replace level with 3 by lia.
Qed.

Lemma getWorkerLimit_returns level name :
  0 <= level -> getWorkerLimit level name (-1) = Some (worker_limit level name).
Proof.
  intros H. unfold worker_limit.
  assert (Hc : level = 0 \/ level = 1 \/ level = 2 \/ 3 <= level) by lia.
  destruct Hc as [->|[->|[->|Hc]]]; try (by destruct name).
  rewrite (getWorkerLimit_clamp _ _ Hc). by destruct name.
Qed.

Lemma limit_run name e w :
  0 <= FLAGS_watchdog_level e ->
  limit name e w = Done (worker_limit (FLAGS_watchdog_level e) name) w.
Proof. intros H. unfold limit. by rewrite getWorkerLimit_returns. Qed.

(** The limits of the table, level by level. *)
Lemma worker_limit_values level :
  0 <= level ->
  (level = 0 /\ worker_limit level INTERVAL = 3
   /\ worker_limit level LATENCY_LIMIT = 12
   /\ worker_limit level UTILIZATION_LIMIT = 90
   /\ worker_limit level MEMORY_LIMIT = 80
   /\ worker_limit level RESPAWN_LIMIT = 20
   /\ worker_limit level RESPAWN_DELAY = 5)
  \/ (level = 1 /\ worker_limit level INTERVAL = 3
      /\ worker_limit level LATENCY_LIMIT = 6
      /\ worker_limit level UTILIZATION_LIMIT = 80
      /\ worker_limit level MEMORY_LIMIT = 50
      /\ worker_limit level RESPAWN_LIMIT = 20
      /\ worker_limit level RESPAWN_DELAY = 5)
  \/ (level = 2 /\ worker_limit level INTERVAL = 3
      /\ worker_limit level LATENCY_LIMIT = 3
      /\ worker_limit level UTILIZATION_LIMIT = 60
      /\ worker_limit level MEMORY_LIMIT = 30
      /\ worker_limit level RESPAWN_LIMIT = 20
      /\ worker_limit level RESPAWN_DELAY = 5)
  \/ (3 <= level /\ worker_limit level INTERVAL = 1
      /\ worker_limit level LATENCY_LIMIT = 1
      /\ worker_limit level UTILIZATION_LIMIT = 1000
      /\ worker_limit level MEMORY_LIMIT = 1000
      /\ worker_limit level RESPAWN_LIMIT = 5
      /\ worker_limit level RESPAWN_DELAY = 1).
Proof.
  intros H.
  assert (Hc : level = 0 \/ level = 1 \/ level = 2 \/ 3 <= level) by lia.
  destruct Hc as [->|[->|[->|Hc]]].
  - left. by repeat split.
  - right; left. by repeat split.
  - right; right; left. by repeat split.
  - right; right; right. unfold worker_limit.
    rewrite !(getWorkerLimit_clamp _ _ Hc). by repeat split.
Qed.

(** ** Which state a handle resolves to *)

Lemma read_touch ref r : read_state ref (touch ref r) = read_state ref r.
Proof.
  destruct ref as [|path]; [done|]. unfold read_state, touch, touch_state, state_at.
  simpl. by rewrite lookup_insert_eq.
Qed.

Lemma write_touch ref s r : write_state ref s (touch ref r) = write_state ref s r.
Proof.
  destruct ref as [|path]; [done|]. unfold write_state, touch, touch_state.
  simpl. unfold set_extension_states_. simpl. by rewrite insert_insert_eq.
Qed.

Lemma read_write ref s r : read_state ref (write_state ref s r) = s.
Proof.
  destruct ref as [|path]; [done|]. unfold read_state, write_state, state_at.
  simpl. by rewrite lookup_insert_eq.
Qed.

Lemma tracks_write r child ref s :
  tracks r child ref -> tracks (write_state ref s r) child ref.
Proof.
  intros [[Hw ->]|(wk & path & Hw & Hne & Hnn & Hp & Hu & ->)].
  - by left.
  - right. exists wk, path. by repeat split.
Qed.

Lemma getState_tracked child ref e w :
  tracks (watcher w) child ref ->
  getState child e w
  = Done ref (mkWorld (touch ref (watcher w)) (trace w) (clock_reads w)
                      (env_OSQUERY_EXTENSIONS w)).
Proof.
  intros [[Hw ->]|(wk & path & Hw & Hne & Hnn & Hp & Hu & ->)].
  - rewrite (getState_worker _ _ _ Hw). by destruct w.
  - destruct (getState_extension child wk e w Hw Hne Hnn)
      as (path' & Hrun & Hres).
    destruct Hres as [Hm|[_ Hno]]; [|by destruct (Hno path)].
    apply Hu in Hm. subst path'. exact Hrun.
Qed.

(** The locked block of a sanity check on a tracked child. *)
Lemma sample_counters_run child ref iv row e w :
  tracks (watcher w) child ref ->
  0 <= FLAGS_watchdog_level e ->
  sample_counters child iv row e w
  = let utilization := worker_limit (FLAGS_watchdog_level e) UTILIZATION_LIMIT in
    let result := update_counters utilization (read_row iv row)
                                  (read_state ref (watcher w)) in
    Done (s_parent (read_row iv row), result.1.2, result.2)
         (mkWorld (write_state ref result.1.1 (watcher w))
                  ((trace w ++ [EvLock]) ++ [EvUnlock]) (clock_reads w)
                  (env_OSQUERY_EXTENSIONS w)).
Proof.
  intros Htr Hlevel. unfold sample_counters, locked.
  unfold bind at 1. unfold emit at 1. unfold bind at 1.
  rewrite (getState_tracked child ref); [|exact Htr].
  unfold bind at 1. rewrite limit_run by done.
  unfold bind, gets, modify, ret, unlock_world. cbn [watcher trace clock_reads env_OSQUERY_EXTENSIONS].
  by rewrite read_touch, write_touch.
Qed.

(** [isChildSane] on a tracked child whose row was found. *)
Lemma isChildSane_run child ref row rows e w :
  tracks (watcher w) child ref ->
  0 <= FLAGS_watchdog_level e ->
  processes e (pid_of child) = row :: rows ->
  isChildSane child e w
  = let level := FLAGS_watchdog_level e in
    let iv := Z.max (worker_limit level INTERVAL) 1 in
    let result := update_counters (worker_limit level UTILIZATION_LIMIT)
                                  (read_row iv row)
                                  (read_state ref (watcher w)) in
    let w1 := sampled ref child result.1.1 w in
    if negb (s_parent (read_row iv row) =? current_pid e) then
      (let* _ := reset child in ret true) e w1
    else if (0 <? result.1.2)
            && (worker_limit level LATENCY_LIMIT <=? u64 (result.1.2 * iv))
    then Done false w1
    else if (0 <? result.2)
            && (u64 (worker_limit level MEMORY_LIMIT * 1024 * 1024) <? result.2)
    then Done false w1
    else if use_worker_ e then
      Done true (mkWorld (watcher w1) (trace w1 ++ [EvRelayStatusLogs])
                         (clock_reads w1) (env_OSQUERY_EXTENSIONS w1))
    else Done true w1.
Proof.
  intros Htr Hlevel Hrows. unfold isChildSane.
  unfold bind at 1. unfold emit at 1. unfold bind at 1. unfold ask at 1.
  cbn [watcher trace clock_reads env_OSQUERY_EXTENSIONS]. rewrite Hrows.
  unfold bind at 1. rewrite limit_run by done.
  unfold bind at 1.
  rewrite (sample_counters_run child ref); [|exact Htr|exact Hlevel].
  cbv zeta. cbn [fst snd]. unfold bind at 1. unfold ask at 1.
  unfold sampled. cbn [watcher trace clock_reads env_OSQUERY_EXTENSIONS].
  destruct (negb _); [reflexivity|].
  unfold bind at 1. rewrite limit_run by done.
  destruct (_ && _); [reflexivity|].
  unfold bind at 1. rewrite limit_run by done.
  destruct (_ && _); [reflexivity|].
  unfold bind, ask, when, emit, ret.
  destruct (use_worker_ e); reflexivity.
Qed.

(** ** C4: a sustained utilization trip *)

Lemma sanity_checks_tripping level child ref : forall envs w,
  0 <= level ->
  tracks (watcher w) child ref ->
  0 <= sustained_latency (read_state ref (watcher w)) ->
  sustained_latency (read_state ref (watcher w)) + Z.of_nat (length envs)
    < 2 ^ 60 ->
  utilization_trips level child (read_state ref (watcher w)) envs ->
  exists w',
    sanity_checks child envs w
    = Done (verdicts (worker_limit level LATENCY_LIMIT)
                     (Z.max (worker_limit level INTERVAL) 1)
                     (sustained_latency (read_state ref (watcher w)))
                     (length envs)) w'.
Proof.
  induction envs as [|e rest IH]; intros w Hlevel Htr Hj Hbound Htrips.
  - exists w. reflexivity.
  - destruct Htrips as (Hflag & row & rows & Hrows & Hcaught & Hparent
                        & Hover & Hmem & Hrest).
    assert (Hiv : 1 <= Z.max (worker_limit level INTERVAL) 1 <= 3).
    { destruct (worker_limit_values level Hlevel)
        as [(_ & -> & _)|[(_ & -> & _)|[(_ & -> & _)|(_ & -> & _)]]]; lia. }
    cbn [sanity_checks].
    rewrite (isChildSane_run child ref row rows); [|done|lia|done].
    rewrite Hflag. cbv zeta.
    set (iv := Z.max (worker_limit level INTERVAL) 1) in *.
    set (utilization := worker_limit level UTILIZATION_LIMIT) in *.
    set (smp := read_row iv row) in *.
    set (st := read_state ref (watcher w)) in *.
    assert (Hlat : (update_counters utilization smp st).1.2
                   = sustained_latency st + 1).
    { unfold update_counters. cbn [fst snd]. rewrite Hcaught.
      assert (Hor : (utilization <? u64 (s_user_time smp - user_time st))
                    || (utilization <? u64 (s_system_time smp - system_time st))
                    = true).
      { apply orb_true_iff. destruct Hover as [H|H]; [left|right];
          by apply Z.ltb_lt. }
      rewrite Hor. unfold u64. apply Z.mod_small.
      cbn [length] in Hbound. lia. }
    assert (Hlat' : sustained_latency (update_counters utilization smp st).1.1
                    = sustained_latency st + 1).
    { rewrite <- Hlat. reflexivity. }
    rewrite Hparent, Z.eqb_refl. cbn [negb].
    rewrite Hlat.
    assert (Hpos : (0 <? sustained_latency st + 1) = true)
      by (apply Z.ltb_lt; lia).
    rewrite Hpos. cbn [andb].
    assert (Hu : u64 ((sustained_latency st + 1) * iv)
                 = (sustained_latency st + 1) * iv).
    { unfold u64. apply Z.mod_small. cbn [length] in Hbound. nia. }
    rewrite Hu.
    assert (Hnomem : (0 <? (update_counters utilization smp st).2)
                     && (u64 (worker_limit level MEMORY_LIMIT * 1024 * 1024)
                         <? (update_counters utilization smp st).2) = false).
    { apply andb_false_iff.
      destruct (0 <? (update_counters utilization smp st).2) eqn:H0;
        [|by left]. right. apply Z.ltb_ge. apply Z.ltb_lt in H0.
      destruct (Z.lt_ge_cases
                  (u64 (worker_limit level MEMORY_LIMIT * 1024 * 1024))
                  (update_counters utilization smp st).2) as [Hlt|Hge];
        [|lia]. exfalso. apply Hmem. by split. }
    rewrite Hnomem.
    set (w1 := sampled ref child (update_counters utilization smp st).1.1 w).
    assert (Htr1 : tracks (watcher w1) child ref)
      by (apply tracks_write; exact Htr).
    assert (Hread1 : read_state ref (watcher w1)
                     = (update_counters utilization smp st).1.1)
      by (apply read_write).
    cbn [length verdicts].
    destruct (worker_limit level LATENCY_LIMIT
              <=? (sustained_latency st + 1) * iv) eqn:Hverdict; cbn [negb].
    + destruct (IH w1 Hlevel Htr1) as (w' & Hrun).
      * rewrite Hread1, Hlat'. lia.
      * rewrite Hread1, Hlat'. cbn [length] in Hbound. lia.
      * rewrite Hread1. exact Hrest.
      * rewrite Hrun, Hread1, Hlat'. eauto.
    + set (w2 := if use_worker_ e
                 then mkWorld (watcher w1) (trace w1 ++ [EvRelayStatusLogs])
                              (clock_reads w1) (env_OSQUERY_EXTENSIONS w1)
                 else w1).
      assert (Hw2 : watcher w2 = watcher w1)
        by (subst w2; destruct (use_worker_ e); reflexivity).
      destruct (IH w2 Hlevel) as (w' & Hrun).
      * rewrite Hw2. exact Htr1.
      * rewrite Hw2, Hread1, Hlat'. lia.
      * rewrite Hw2, Hread1, Hlat'. cbn [length] in Hbound. lia.
      * rewrite Hw2, Hread1. exact Hrest.
      * rewrite Hw2, Hread1, Hlat' in Hrun.
        subst w2. destruct (use_worker_ e); rewrite Hrun; eauto.
Qed.

Lemma checks_to_trip_values level :
  0 <= level ->
  (worker_limit level LATENCY_LIMIT = 12
   /\ Z.max (worker_limit level INTERVAL) 1 = 3 /\ checks_to_trip level = 4)
  \/ (worker_limit level LATENCY_LIMIT = 6
      /\ Z.max (worker_limit level INTERVAL) 1 = 3 /\ checks_to_trip level = 2)
  \/ (worker_limit level LATENCY_LIMIT = 3
      /\ Z.max (worker_limit level INTERVAL) 1 = 3 /\ checks_to_trip level = 1)
  \/ (worker_limit level LATENCY_LIMIT = 1
      /\ Z.max (worker_limit level INTERVAL) 1 = 1 /\ checks_to_trip level = 1).
Proof.
  intros H. unfold checks_to_trip.
  destruct (worker_limit_values level H)
    as [(_ & Hi & Hl & _)|[(_ & Hi & Hl & _)|[(_ & Hi & Hl & _)
        |(_ & Hi & Hl & _)]]]; rewrite Hi, Hl;
    [left | right; left | right; right; left | right; right; right];
    by repeat split.
Qed.

(** C4, refuted as stated: at level 1 the limit is reached by
    [n = 2] tripping checks.  When the [resident_size] column of the
    worker's row does not parse, the user delta (1000 ticks per second at
    both checks) exceeds [UTILIZATION_LIMIT = 80] at each of the two
    checks and the memory limit does not trip (the footprint stays 0),
    but the [catch] clause zeroes [sustained_latency] before each
    comparison: the counter is 1 after either check and the second check
    returns [true] like the first. *)
Lemma unparsed_column_restarts_the_count :
  exists w1 w2,
    checks_to_trip 1 = 2
    /\ worker_limit 1 UTILIZATION_LIMIT = 80
    /\ isChildSane (Process 200) (half_parsed_env 1 3000) fresh_worker
       = Done true w1
    /\ 80 < u64 (s_user_time (read_row 3 (half_parsed_row 3000))
                 - user_time (state_ (watcher fresh_worker)))
    /\ sustained_latency (state_ (watcher w1)) = 1
    /\ isChildSane (Process 200) (half_parsed_env 1 6000) w1 = Done true w2
    /\ 80 < u64 (s_user_time (read_row 3 (half_parsed_row 6000))
                 - user_time (state_ (watcher w1)))
    /\ sustained_latency (state_ (watcher w2)) = 1
    /\ s_footprint (read_row 3 (half_parsed_row 6000)) = 0
    /\ sanity_checks (Process 200)
         [half_parsed_env 1 3000; half_parsed_env 1 6000] fresh_worker
       = Done [true; true] w2.
Proof.
  eexists _, _. split; [reflexivity|]. split; [reflexivity|].
  split; [vm_compute; reflexivity|]. split; [reflexivity|].
  split; [reflexivity|]. split; [vm_compute; reflexivity|].
  split; [reflexivity|]. split; [reflexivity|]. split; [reflexivity|].
  vm_compute. reflexivity.
Qed.

(** C4, amended: at a watchdog level [>= 0], for a tracked child whose
    [PerformanceState] is zeroed, when at each of
    [n = ⌈limit(LATENCY_LIMIT) / iv⌉] consecutive sanity checks the row
    of the child is found, its four columns [parent], [user_time],
    [system_time] and [resident_size] parse, its parent is the
    supervisor, the unsigned user or system delta exceeds
    [UTILIZATION_LIMIT] and the memory limit does not trip, [isChildSane]
    returns [true] at the first [n - 1] checks and [false] at the
    [n]-th. *)
Theorem latency_trips_at_nth_check level child ref envs w :
  0 <= level ->
  tracks (watcher w) child ref ->
  read_state ref (watcher w) = zero_state ->
  Z.of_nat (length envs) = checks_to_trip level ->
  utilization_trips level child zero_state envs ->
  exists w',
    sanity_checks child envs w
    = Done (replicate (length envs - 1) true ++ [false]) w'.
Proof.
  intros Hlevel Htr Hzero Hlen Htrips.
  assert (Hn : (length envs <= 4)%nat).
  { destruct (checks_to_trip_values level Hlevel)
      as [(_ & _ & Hc)|[(_ & _ & Hc)|[(_ & _ & Hc)|(_ & _ & Hc)]]]; lia. }
  destruct (sanity_checks_tripping level child ref envs w Hlevel Htr)
    as (w' & Hrun).
  - rewrite Hzero. simpl. lia.
  - rewrite Hzero. simpl. lia.
  - rewrite Hzero. exact Htrips.
  - exists w'. rewrite Hrun, Hzero. f_equal. cbn [sustained_latency zero_state].
    destruct (checks_to_trip_values level Hlevel)
      as [(-> & -> & Hc)|[(-> & -> & Hc)|[(-> & -> & Hc)|(-> & -> & Hc)]]];
      [ replace (length envs) with 4%nat by lia
      | replace (length envs) with 2%nat by lia
      | replace (length envs) with 1%nat by lia
      | replace (length envs) with 1%nat by lia ];
      reflexivity.
Qed.

Lemma latency_trips_at_nth_check_witness :
  exists w',
    sanity_checks (Process 200) [busy_env 1 3000; busy_env 1 6000] fresh_worker
    = Done [true; false] w'.
Proof.
  apply (latency_trips_at_nth_check 1 (Process 200) WorkerState
           [busy_env 1 3000; busy_env 1 6000] fresh_worker).
  - lia.
  - left. split; reflexivity.
  - reflexivity.
  - reflexivity.
  - simpl. split; [reflexivity|]. eexists _, _.
    split; [reflexivity|]. split; [reflexivity|]. split; [reflexivity|].
    split; [left; vm_compute; reflexivity|].
    split; [vm_compute; intros [H _]; discriminate H|].
    split; [reflexivity|]. eexists _, _.
    split; [reflexivity|]. split; [reflexivity|]. split; [reflexivity|].
    split; [left; vm_compute; reflexivity|].
    split; [vm_compute; intros [H _]; discriminate H|]. exact I.
Defined.

(** ** C5: a child whose pid now belongs to another parent *)

Lemma lock_event_quiet ev : is_lock_event ev -> quiet ev.
Proof. by intros [->| ->]. Qed.

Lemma read_row_parent iv row p :
  r_parent row = Some p -> s_parent (read_row iv row) = to_pid_t p.
Proof.
  intros H. unfold read_row. rewrite H.
  by destruct (r_user_time row), (r_system_time row), (r_resident_size row).
Qed.

Lemma to_pid_t_small p : - 2 ^ 31 <= p < 2 ^ 31 -> to_pid_t p = p.
Proof. intros H. unfold to_pid_t. rewrite Z.mod_small; lia. Qed.

(** [Watcher::reset] on a tracked child. *)
Lemma reset_tracked child ref e w :
  tracks (watcher w) child ref ->
  exists w',
    reset child e w = Done tt w'
    /\ match ref with
       | WorkerState => worker_ (watcher w') = None
       | ExtensionState path =>
           extensions_ (watcher w') !! path = Some (Some NoProcess)
           /\ worker_ (watcher w') = worker_ (watcher w)
       end
    /\ read_state ref (watcher w')
       = reset_counters 0 (read_state ref (watcher w))
    /\ fates_bound_ (watcher w') = fates_bound_ (watcher w)
    /\ worker_status_ (watcher w') = worker_status_ (watcher w)
    /\ extends_by is_lock_event w w'.
Proof.
  intros [[Hw ->]|(wk & path & Hw & Hne & Hnn & Hp & Hu & ->)].
  - rewrite (reset_worker_run _ _ _ Hw). eexists. split; [reflexivity|].
    do 4 (split; [reflexivity|]).
    exists []. simpl. split; [by rewrite app_nil_r | constructor].
  - rewrite (reset_extension_run _ _ _ _ Hw Hne).
    destruct (reset_extensions_run child (extension_paths (watcher w)) e w Hnn)
      as (w' & Hrun & H1 & _ & (_ & Hwk & _ & Hst & Hfb) & Hext).
    exists w'. split; [exact Hrun|].
    destruct (H1 path) as [He Hs]; [apply elem_of_extension_paths; eauto|done|].
    split; [by split|]. split.
    + unfold read_state, state_at at 1. by rewrite Hs.
    + by repeat split.
Qed.

(** What [watch] does with a tracked, valid and running child whose row
    reports a parent pid other than the supervisor's: it returns [true],
    no process is signalled or launched, and the pass of [start] that
    made the call goes on without [createWorker] or [createExtension].
    The entry of an extension then holds an invalid handle; the pointer
    to the worker is null. *)
Lemma foreign_child_is_released child ref row rows p status e w :
  tracks (watcher w) child ref ->
  0 <= FLAGS_watchdog_level e ->
  fates_bound_ (watcher w) = false ->
  isValid child = true ->
  checkChildProcessStatus e child = (PROCESS_STILL_ALIVE, status) ->
  processes e (pid_of child) = row :: rows ->
  r_parent row = Some p ->
  - 2 ^ 31 <= p < 2 ^ 31 ->
  p <> current_pid e ->
  exists w',
    watch child e w = Done true w'
    /\ match ref with
       | WorkerState => worker_ (watcher w') = None
       | ExtensionState path =>
           extensions_ (watcher w') !! path = Some (Some NoProcess)
       end
    /\ extends_by quiet w w'
    /\ match ref with
       | WorkerState =>
           use_worker_ e = true -> watch_worker e w = Done false w'
       | ExtensionState path =>
           forall failing,
             watch_extensions [path] failing e w = Done failing w'
       end.
Proof.
  intros Htr Hlevel Hfates Hvalid Halive Hrows Hparent Hrange Hforeign.
  set (level := FLAGS_watchdog_level e).
  set (iv := Z.max (worker_limit level INTERVAL) 1).
  set (st' := (update_counters (worker_limit level UTILIZATION_LIMIT)
                 (read_row iv row) (read_state ref (watcher w))).1.1).
  set (w0 := mkWorld (watcher w)
                     (trace w ++ [EvCheckChildProcessStatus child])
                     (clock_reads w) (env_OSQUERY_EXTENSIONS w)).
  assert (Htr0 : tracks (watcher w0) child ref) by exact Htr.
  assert (Hsane : exists w',
             isChildSane child e w0 = Done true w'
             /\ match ref with
                | WorkerState => worker_ (watcher w') = None
                | ExtensionState path =>
                    extensions_ (watcher w') !! path = Some (Some NoProcess)
                end
             /\ extends_by quiet w w').
  { rewrite (isChildSane_run child ref row rows e w0 Htr0 Hlevel Hrows).
    cbv zeta. change (watcher w0) with (watcher w). fold level iv st'.
    rewrite (read_row_parent _ _ _ Hparent), (to_pid_t_small _ Hrange).
    assert (Hneq : (p =? current_pid e) = false) by (by apply Z.eqb_neq).
    rewrite Hneq. cbn [negb].
    set (w1 := sampled ref child st' w0).
    assert (Htr1 : tracks (watcher w1) child ref) by (by apply tracks_write).
    destruct (reset_tracked child ref e w1 Htr1)
      as (w' & Hrun & Hrel & _ & _ & _ & Hext).
    exists w'. unfold bind. rewrite Hrun. split; [reflexivity|]. split.
    - destruct ref; [exact Hrel | exact (proj1 Hrel)].
    - eapply extends_by_trans;
        [|eapply extends_by_weaken; [apply lock_event_quiet | exact Hext]].
      exists [EvCheckChildProcessStatus child;
              EvSelectProcesses (pid_of child); EvLock; EvUnlock].
      split; [subst w1 w0; simpl; by rewrite <- !app_assoc|].
      repeat (constructor; [exact I|]). constructor. }
  destruct Hsane as (w' & Hrun & Hrel & Hext).
  assert (Hwatch : watch child e w = Done true w').
  { unfold watch. unfold bind at 1. unfold emit at 1. fold w0.
    unfold bind at 1. unfold ask at 1. rewrite Halive.
    unfold bind at 1. unfold gets at 1.
    change (fates_bound_ (watcher w0)) with (fates_bound_ (watcher w)).
    rewrite Hfates, Hvalid. cbn [negb]. unfold bind at 1. by rewrite Hrun. }
  exists w'. split; [exact Hwatch|]. split; [exact Hrel|].
  split; [exact Hext|].
  destruct Htr as [[Hw ->]|(wk & path & Hw & Hne & Hnn & Hp & Hu & ->)].
  - intros Huse. unfold watch_worker, bind at 1, ask at 1. rewrite Huse.
    unfold bind at 1, getWorker, bind at 1, gets at 1. rewrite Hw.
    unfold deref, ret at 1. unfold bind at 1. by rewrite Hwatch.
  - intros failing. cbn [watch_extensions].
    unfold bind at 1, gets at 1. rewrite Hp.
    unfold bind at 1, deref, ret at 1. unfold bind at 1. by rewrite Hwatch.
Qed.

(** C5, at a worker whose row names pid 1 as parent: [watch] returns
    [true] without a kill or a launch and the worker part of the pass
    does not call [createWorker]; but [Watcher::reset] has assigned 0 to
    [worker_], so the registry holds a null pointer where the claim has
    an invalid handle, and the condition of the loop dereferences it in
    [ok] at the end of the same pass.  An extension in the same situation
    gets the invalid handle, and the loop goes round again. *)
Theorem foreign_worker_is_left_null :
  exists w1 w2 w3 w4,
    watch (Process 200) reparented_env fresh_worker = Done true w1
    /\ watch_worker reparented_env fresh_worker = Done false w1
    /\ trace w1 = [EvCheckChildProcessStatus (Process 200);
                   EvSelectProcesses 200; EvLock; EvUnlock]
    /\ worker_ (watcher w1) = None
    /\ ok reparented_env w1 = Crash NullDereference w1
    /\ start_pass reparented_env fresh_worker = Crash NullDereference w2
    /\ trace w2 = trace w1 ++ [EvPauseMilli 3000]
    /\ watch (Process 300) reparented_extension_env one_extension
       = Done true w3
    /\ extensions_ (watcher w3) !! "/opt/ext/a"%string = Some (Some NoProcess)
    /\ worker_ (watcher w3) = Some (Process 200)
    /\ Forall quiet (trace w3)
    /\ start_pass reparented_extension_env one_extension = Done true w4
    /\ extensions_ (watcher w4) !! "/opt/ext/a"%string
       = Some (Some NoProcess).
Proof.
  eexists _, _, _, _.
  split; [vm_compute; reflexivity|]. split; [vm_compute; reflexivity|].
  split; [reflexivity|]. split; [reflexivity|].
  split; [vm_compute; reflexivity|]. split; [vm_compute; reflexivity|].
  split; [reflexivity|]. split; [vm_compute; reflexivity|].
  split; [vm_compute; reflexivity|]. split; [reflexivity|].
  split; [repeat constructor|]. split; [vm_compute; reflexivity|].
  vm_compute. reflexivity.
Qed.

(** ** C6: the back-off before a quick respawn *)

Lemma backoff_delay_exact respawn_delay restarts :
  respawn_delay = 5 \/ respawn_delay = 1 ->
  0 <= restarts <= 46 ->
  backoff_delay respawn_delay restarts
  = Some (respawn_delay * 1000 + 2 ^ restarts * 1000).
Proof.
  intros Hd Hr.
  assert (Hall : backoff_exact_upto respawn_delay 47 = true)
    by (destruct Hd as [-> | ->]; vm_compute; reflexivity).
  unfold backoff_exact_upto in Hall.
  rewrite forallb_forall in Hall.
  specialize (Hall (Z.to_nat restarts)).
  rewrite Z2Nat.id in Hall by lia.
  destruct (backoff_delay respawn_delay restarts) as [delay|].
  - f_equal. apply Z.eqb_eq. apply Hall. apply in_seq. lia.
  - assert (false = true); [|discriminate]. apply Hall. apply in_seq. lia.
Qed.

Lemma respawn_delay_values level :
  0 <= level ->
  worker_limit level RESPAWN_DELAY = 5 \/ worker_limit level RESPAWN_DELAY = 1.
Proof.
  intros H. destruct (worker_limit_values level H)
    as [(_&_&_&_&_&_&->)|[(_&_&_&_&_&_&->)|[(_&_&_&_&_&_&->)|(_&_&_&_&_&_&->)]]];
    auto.
Qed.

(** The back-off block when the worker respawns too quickly. *)
Lemma respawn_backoff_run wk e w :
  worker_ (watcher w) = Some wk ->
  0 <= FLAGS_watchdog_level e ->
  worker_limit (FLAGS_watchdog_level e) RESPAWN_LIMIT
    <= getUnixTime e (clock_reads w) < 2 ^ 64 ->
  getUnixTime e (clock_reads w)
    - worker_limit (FLAGS_watchdog_level e) RESPAWN_LIMIT
    < last_respawn_time (state_ (watcher w)) ->
  0 <= worker_restarts_ (watcher w) < 46 ->
  respawn_backoff e w
  = Done tt
      (mkWorld (set_worker_restarts_ (worker_restarts_ (watcher w) + 1)
                                     (watcher w))
               (((trace w ++ [EvLock])
                   ++ [EvPauseMilli
                         (worker_limit (FLAGS_watchdog_level e) RESPAWN_DELAY
                            * 1000
                          + 2 ^ (worker_restarts_ (watcher w) + 1) * 1000)])
                  ++ [EvUnlock])
               (S (clock_reads w)) (env_OSQUERY_EXTENSIONS w)).
Proof.
  intros Hw Hlevel Hnow Hquick Hrestarts.
  unfold respawn_backoff, locked.
  unfold bind at 1. unfold emit at 1.
  unfold bind at 1. unfold getWorker, bind at 1, gets at 1.
  cbn [watcher trace clock_reads env_OSQUERY_EXTENSIONS].
  rewrite Hw. unfold deref, ret at 1.
  unfold bind at 1. rewrite getState_worker by exact Hw.
  unfold bind at 1. unfold respawning_too_quickly.
  unfold bind at 1, gets at 1. unfold bind at 1, unixTime at 1.
  unfold bind at 1. rewrite limit_run by exact Hlevel.
  unfold ret at 1.
  cbn [watcher trace clock_reads env_OSQUERY_EXTENSIONS read_state].
  assert (Hcmp : (u64 (getUnixTime e (clock_reads w)
                       - worker_limit (FLAGS_watchdog_level e) RESPAWN_LIMIT)
                  <? last_respawn_time (state_ (watcher w))) = true).
  { assert (0 <= worker_limit (FLAGS_watchdog_level e) RESPAWN_LIMIT).
    { destruct (worker_limit_values _ Hlevel)
        as [(_&_&_&_&_&->&_)|[(_&_&_&_&_&->&_)|[(_&_&_&_&_&->&_)
            |(_&_&_&_&_&->&_)]]]; lia. }
    apply Z.ltb_lt. unfold u64. rewrite Z.mod_small; lia. }
  rewrite Hcmp.
  unfold bind at 1, workerRestarted, modify at 1.
  unfold bind at 1. rewrite limit_run by exact Hlevel.
  unfold bind at 1, gets at 1.
  cbn [watcher trace clock_reads env_OSQUERY_EXTENSIONS set_worker_restarts_ worker_restarts_].
  assert (Hinc : u64 (worker_restarts_ (watcher w) + 1)
                 = worker_restarts_ (watcher w) + 1).
  { unfold u64. rewrite Z.mod_small; lia. }
  rewrite Hinc.
  rewrite backoff_delay_exact; [|by apply respawn_delay_values|lia].
  unfold pauseMilli, emit, unlock_world.
  reflexivity.
Qed.

(** Closes [Forall (fun ev => ~ is_pause ev) [ev]] for an event that is
    no [EvPauseMilli]. *)
Ltac not_a_pause := constructor; [by intros [ms H] | constructor].

(** The part of [createWorker] after the back-off returns, unless the
    launch fails and the shutdown call ends the process; it does not
    sleep and leaves the restart counter alone. *)
Lemma launch_worker_run e w :
  exists w',
    launch_worker e w
    = (if worker_launch_fails e then Crash (ProcessExit EXIT_FAILURE) w'
       else Done tt w')
    /\ worker_restarts_ (watcher w') = worker_restarts_ (watcher w)
    /\ extends_by (fun ev => ~ is_pause ev) w w'.
Proof.
  assert (Hstop : forall code w0,
            extends_by (fun ev => ~ is_pause ev) w w0 ->
            worker_restarts_ (watcher w0) = worker_restarts_ (watcher w) ->
            exists w',
              requestShutdown code e w0 = Done tt w'
              /\ worker_restarts_ (watcher w') = worker_restarts_ (watcher w)
              /\ extends_by (fun ev => ~ is_pause ev) w w').
  { intros code w0 Hext Hr0. eexists. split; [reflexivity|].
    split; [exact Hr0|].
    eapply extends_by_trans; [exact Hext|].
    exists [EvRequestShutdown code]. split; [reflexivity|].
    not_a_pause. }
  unfold launch_worker, worker_launch_fails.
  unfold bind at 1, ask at 1. unfold bind at 1, emit at 1.
  set (w0 := mkWorld _ _ _ _).
  assert (Hw0 : extends_by (fun ev => ~ is_pause ev) w w0).
  { exists [EvSelectProcesses (current_pid e)]. split; [reflexivity|].
    not_a_pause. }
  unfold bind at 1, ask at 1.
  destruct (processes e (current_pid e)) as [|row [|row' qd]];
    [by apply Hstop| |by apply Hstop].
  destruct (r_path row) as [path|]; [|by apply Hstop].
  destruct (String.length path =? 0)%nat; [by apply Hstop|].
  unfold bind at 1, hasManagedExtensions.
  set (managed := if 0 <? Z.of_nat (size (extensions_ (watcher w0)))
                  then true else env_OSQUERY_EXTENSIONS w0).
  assert (Hm : (if 0 <? Z.of_nat (size (extensions_ (watcher w0)))
                then Done true w0
                else Done (env_OSQUERY_EXTENSIONS w0) w0)
               = Done managed w0).
  { subst managed. by destruct (0 <? _). }
  rewrite Hm. clear Hm.
  unfold bind at 1. unfold when.
  set (w1 := if managed
             then mkWorld (watcher w0) (trace w0 ++ [EvSetEnvVar])
                          (clock_reads w0) true
             else w0).
  assert (Hrun1 : (if managed then setEnvVar_OSQUERY_EXTENSIONS else ret tt)
                    e w0 = Done tt w1).
  { subst w1. by destruct managed. }
  rewrite Hrun1. clear Hrun1.
  assert (Hw1 : extends_by (fun ev => ~ is_pause ev) w w1
                /\ worker_restarts_ (watcher w1) = worker_restarts_ (watcher w)).
  { subst w1. destruct managed; [|by split]. split; [|reflexivity].
    eapply extends_by_trans; [exact Hw0|].
    exists [EvSetEnvVar]. split; [reflexivity|].
    not_a_pause. }
  destruct Hw1 as [Hw1 Hr1].
  unfold bind at 1, ask at 1. unfold bind at 1, ask at 1.
  destruct (safePermissions e (system_complete e path)); cbn [negb andb].
  - unfold bind at 1, emit at 1. unfold bind at 1, ask at 1.
    set (w2 := mkWorld _ _ _ _).
    assert (Hw2 : extends_by (fun ev => ~ is_pause ev) w w2).
    { eapply extends_by_trans; [exact Hw1|].
      exists [EvLaunchWorker (system_complete e path)].
      split; [reflexivity|]. not_a_pause. }
    destruct (launchWorker e (system_complete e path)) as [p|].
    + eexists. split; [reflexivity|]. split; [exact Hr1|].
      destruct Hw2 as (tr & Htr & Hall). exists tr. by split.
    + eexists. split; [reflexivity|]. split; [exact Hr1|].
      eapply extends_by_trans; [exact Hw2|].
      exists [EvShutdown EXIT_FAILURE]. split; [reflexivity|].
      not_a_pause.
  - by apply Hstop.
Qed.

(** C6: when [createWorker] is entered with
    [last_respawn_time > now - limit(RESPAWN_LIMIT)], the restart counter
    goes up by one and the one sleep of the call lasts
    [limit(RESPAWN_DELAY) * 1000 + 2^restart_count * 1000] ms with the
    incremented count; the call then returns, unless the launch of the
    worker fails and it ends the process in the shutdown call.  The
    clock is past [limit(RESPAWN_LIMIT)] seconds, and the count stays
    below 47, the range in which the [double] that [pow] returns and the
    sum are exact. *)
Theorem backoff_sleep_uses_incremented_count wk e w :
  worker_ (watcher w) = Some wk ->
  0 <= FLAGS_watchdog_level e ->
  worker_limit (FLAGS_watchdog_level e) RESPAWN_LIMIT
    <= getUnixTime e (clock_reads w) < 2 ^ 64 ->
  getUnixTime e (clock_reads w)
    - worker_limit (FLAGS_watchdog_level e) RESPAWN_LIMIT
    < last_respawn_time (state_ (watcher w)) ->
  0 <= worker_restarts_ (watcher w) < 46 ->
  exists w' rest,
    createWorker e w
    = (if worker_launch_fails e then Crash (ProcessExit EXIT_FAILURE) w'
       else Done tt w')
    /\ worker_restarts_ (watcher w') = worker_restarts_ (watcher w) + 1
    /\ trace w'
       = trace w
         ++ [EvLock;
             EvPauseMilli
               (worker_limit (FLAGS_watchdog_level e) RESPAWN_DELAY * 1000
                + 2 ^ (worker_restarts_ (watcher w) + 1) * 1000);
             EvUnlock]
         ++ rest
    /\ Forall (fun ev => ~ is_pause ev) rest.
Proof.
  intros Hw Hlevel Hnow Hquick Hrestarts.
  unfold createWorker, bind.
  rewrite (respawn_backoff_run wk e w Hw Hlevel Hnow Hquick Hrestarts).
  set (w1 := mkWorld _ _ _ _).
  destruct (launch_worker_run e w1) as (w' & Hrun & Hr & rest & Htr & Hrest).
  exists w', rest. split; [exact Hrun|]. split; [exact Hr|].
  split; [|exact Hrest]. rewrite Htr. subst w1. simpl.
  by rewrite <- !app_assoc.
Qed.

Lemma backoff_sleep_uses_incremented_count_witness :
  exists w' rest,
    createWorker sample_env young_worker = Done tt w'
    /\ worker_restarts_ (watcher w') = 1
    /\ trace w' = [EvLock; EvPauseMilli 7000; EvUnlock] ++ rest
    /\ Forall (fun ev => ~ is_pause ev) rest.
Proof.
  apply (backoff_sleep_uses_incremented_count (Process 200)
           sample_env young_worker).
  - reflexivity.
  - simpl. lia.
  - vm_compute. split; [discriminate | reflexivity].
  - vm_compute. reflexivity.
  - simpl. lia.
Defined.

(** The bound on the count is sharp: with 47 restarts the sum has 54
    significant bits and the [double] addition rounds it to even, 8 ms
    below the formula. *)
Example backoff_rounds_at_47_restarts :
  backoff_delay 5 47 = Some 140737488355332992
  /\ 5 * 1000 + 2 ^ 47 * 1000 = 140737488355333000.
Proof. split; vm_compute; reflexivity. Qed.

(** ** C7: what runs while the registry mutex is held *)

(** C7, at a worker that is respawned five seconds after its start:
    [createWorker] calls [pauseMilli(7000)] between taking and releasing
    the registry mutex, so the run breaks the lock discipline; the rest
    of the call (the table query and the launch) runs with the mutex
    released. *)
Theorem backoff_sleeps_under_the_lock :
  exists w',
    createWorker sample_env young_worker = Done tt w'
    /\ trace w' = [EvLock; EvPauseMilli 7000; EvUnlock;
                   EvSelectProcesses 100; EvLaunchWorker "/usr/bin/osqueryd"]
    /\ lock_discipline false (trace w') = false
    /\ lock_discipline false
         [EvSelectProcesses 100; EvLaunchWorker "/usr/bin/osqueryd"] = true.
Proof.
  eexists. split; [vm_compute; reflexivity|].
  split; [reflexivity|]. split; reflexivity.
Qed.

(** ** C8: the exit code of any child lands in [worker_status_] *)

(** A pass of the loop of [start] that ends with [EXIT_SUCCESS] or
    [EXIT_CATASTROPHIC] in [worker_status_] is the last one. *)
Lemma start_pass_stops e w again w' :
  start_pass e w = Done again w' ->
  worker_status_ (watcher w') = EXIT_SUCCESS
  \/ worker_status_ (watcher w') = EXIT_CATASTROPHIC e ->
  again = false.
Proof.
  unfold start_pass, bind at 1. intros Hrun Hstatus.
  destruct (watch_worker e w) as [broke w1|r w1]; [|discriminate Hrun].
  destruct broke; [by inversion Hrun|].
  unfold bind at 1, gets at 1 in Hrun. unfold bind at 1 in Hrun.
  destruct (watch_extensions _ _ e w1) as [failing w2|r w2];
    [|discriminate Hrun].
  unfold bind at 1 in Hrun.
  destruct (remove_failing failing e w2) as [[] w3|r w3]; [|discriminate Hrun].
  unfold bind at 1 in Hrun.
  destruct (limit INTERVAL e w3) as [interval w4|r w4] eqn:Hlimit;
    [|discriminate Hrun].
  unfold bind at 1, pauseMilli, emit at 1 in Hrun.
  unfold bind at 1, ask at 1 in Hrun.
  destruct (interrupted e); [by inversion Hrun|].
  unfold ok, bind at 1, gets at 1 in Hrun.
  unfold bind at 1, ask at 1 in Hrun.
  cbn [watcher] in Hrun.
  destruct ((worker_status_ (watcher w4) =? EXIT_SUCCESS)
            || (worker_status_ (watcher w4) =? EXIT_CATASTROPHIC e)) eqn:Hstop.
  - by inversion Hrun.
  - exfalso. apply orb_false_iff in Hstop as [H0 H1].
    apply Z.eqb_neq in H0, H1.
    assert (Hw' : worker_status_ (watcher w') = worker_status_ (watcher w4)).
    { unfold bind in Hrun. unfold getWorker, bind, gets, deref in Hrun.
      cbn [watcher] in Hrun.
      destruct (worker_ (watcher w4)) as [wk|]; [|discriminate Hrun].
      unfold ret in Hrun. destruct (isValid wk).
      - by inversion Hrun.
      - unfold hasManagedExtensions in Hrun. cbn [watcher] in Hrun.
        destruct (0 <? _); by inversion Hrun. }
    rewrite Hw' in Hstatus. by destruct Hstatus.
Qed.








(** The loop of [start] ends after the pass in which the extension's exit
    code 0 is seen, with the worker running and still registered. *)
Example extension_exit_ends_the_loop :
  exists w',
    start [extension_exit_env; extension_exit_env] one_extension
    = Done LoopExited w'
    /\ trace w' = [EvCheckChildProcessStatus (Process 200);
                   EvSelectProcesses 200; EvLock; EvUnlock; EvRelayStatusLogs;
                   EvCheckChildProcessStatus (Process 300);
                   EvPauseMilli 3000]
    /\ worker_ (watcher w') = Some (Process 200)
    /\ worker_status_ (watcher w') = 0.
Proof.
  eexists. split; [vm_compute; reflexivity|]. by repeat split.
Qed.

(** ** C9: utilization deltas in unsigned arithmetic *)

(** C9, refuted as stated: at level 3 a check of a row whose [user_time]
    column reads -1 stores 2^64 - 1.  At the next check the stored
    counter exceeds the sample, the subtraction wraps to a delta that is
    not above the limit 1000, and [sustained_latency] is reset to 0
    instead of going from 1 to 2: with a column that does not parse the
    sample stays 0 and the delta is 1, with a sample of 5 it is 6. *)
Lemma wrapped_delta_below_limit :
  exists w1 w2 w3,
    isChildSane (Process 200) (debug_env (Some (-1))) fresh_worker
    = Done false w1
    /\ user_time (state_ (watcher w1)) = 2 ^ 64 - 1
    /\ sustained_latency (state_ (watcher w1)) = 1
    /\ isChildSane (Process 200) (debug_env None) w1 = Done true w2
    /\ s_user_time (read_row 1 (worker_row 100 None))
       < user_time (state_ (watcher w1))
    /\ u64 (s_user_time (read_row 1 (worker_row 100 None))
            - user_time (state_ (watcher w1))) = 1
    /\ sustained_latency (state_ (watcher w2)) = 0
    /\ isChildSane (Process 200) (debug_env (Some 5)) w1 = Done true w3
    /\ s_user_time (read_row 1 (worker_row 100 (Some 5)))
       < user_time (state_ (watcher w1))
    /\ u64 (s_user_time (read_row 1 (worker_row 100 (Some 5)))
            - user_time (state_ (watcher w1))) = 6
    /\ sustained_latency (state_ (watcher w3)) = 0
    /\ worker_limit 3 UTILIZATION_LIMIT = 1000.
Proof.
  eexists _, _, _. split; [vm_compute; reflexivity|].
  split; [reflexivity|]. split; [reflexivity|].
  split; [vm_compute; reflexivity|].
  split; [reflexivity|]. split; [reflexivity|]. split; [reflexivity|].
  split; [vm_compute; reflexivity|].
  split; [reflexivity|]. split; [reflexivity|]. split; reflexivity.
Qed.

Lemma read_row_times_nonneg iv row :
  0 < iv ->
  0 <= s_user_time (read_row iv row) /\ 0 <= s_system_time (read_row iv row).
Proof.
  intros Hiv.
  assert (Hdiv : forall z, 0 <= u64 z / iv).
  { intros z. apply Z.div_pos; [|exact Hiv]. unfold u64.
    apply Z.mod_pos_bound. lia. }
  unfold read_row.
  destruct (r_parent row); [|simpl; lia].
  destruct (r_user_time row); [|simpl; lia].
  destruct (r_system_time row); [|simpl; split; [apply Hdiv | lia]].
  destruct (r_resident_size row); simpl; split; apply Hdiv.
Qed.

Lemma wrapped_difference sample stored :
  0 <= sample < stored -> stored < 2 ^ 64 ->
  u64 (sample - stored) = 2 ^ 64 - (stored - sample).
Proof.
  intros Hs Hb. unfold u64.
  replace (sample - stored) with (2 ^ 64 - (stored - sample) + (-1) * 2 ^ 64)
    by lia.
  rewrite Z.mod_add by lia. apply Z.mod_small. lia.
Qed.

Lemma exceeds_sample_wraps limit sample stored :
  0 <= sample -> exceeds_sample limit sample stored ->
  wraps_above limit sample stored.
Proof.
  intros H0 [Hlt Hd]. unfold wraps_above.
  rewrite wrapped_difference by lia. split; lia.
Qed.

(** C9, amended: at a level [>= 0], in the sanity check of a tracked
    child whose row is found, when the stored user or system counter
    exceeds the new sample by less than [2^64 - limit(UTILIZATION_LIMIT)],
    the difference [sample - stored] wraps to [2^64 - (stored - sample)],
    which compares greater than the limit, and the check stores
    [(caught ? 0 : old) + 1] in [sustained_latency], where [caught] tells
    that a column of the row did not parse (the [catch] clause has zeroed
    the counter) and [old] is the counter before the check.  The value
    stays when the parent of the row is the supervisor; when it is not,
    which includes a [parent] column that does not parse, the check
    returns [true] and [Watcher::reset] leaves the counter at 0. *)
Theorem wrapped_delta_increments_latency child ref row rows e w :
  let level := FLAGS_watchdog_level e in
  let iv := Z.max (worker_limit level INTERVAL) 1 in
  let limit := worker_limit level UTILIZATION_LIMIT in
  let smp := read_row iv row in
  let state := read_state ref (watcher w) in
  tracks (watcher w) child ref ->
  0 <= level ->
  processes e (pid_of child) = row :: rows ->
  exceeds_sample limit (s_user_time smp) (user_time state)
  \/ exceeds_sample limit (s_system_time smp) (system_time state) ->
  exists sane w',
    isChildSane child e w = Done sane w'
    /\ (exceeds_sample limit (s_user_time smp) (user_time state) ->
        wraps_above limit (s_user_time smp) (user_time state))
    /\ (exceeds_sample limit (s_system_time smp) (system_time state) ->
        wraps_above limit (s_system_time smp) (system_time state))
    /\ (s_parent smp = current_pid e ->
        sustained_latency (read_state ref (watcher w'))
        = u64 ((if s_caught smp then 0 else sustained_latency state) + 1))
    /\ (s_parent smp <> current_pid e ->
        sane = true
        /\ sustained_latency (read_state ref (watcher w')) = 0).
Proof.
  intros level iv limit smp state Htr Hlevel Hrows Hwrap.
  assert (Hiv : 0 < iv) by (subst iv; lia).
  destruct (read_row_times_nonneg iv row Hiv) as [Hu Hs]. fold smp in Hu, Hs.
  assert (Hor : (limit <? u64 (s_user_time smp - user_time state))
                || (limit <? u64 (s_system_time smp - system_time state))
                = true).
  { apply orb_true_iff.
    destruct Hwrap as [H|H]; [left|right]; apply Z.ltb_lt;
      by apply exceeds_sample_wraps. }
  assert (Hlat : sustained_latency (update_counters limit smp state).1.1
                 = u64 ((if s_caught smp then 0 else sustained_latency state)
                        + 1)).
  { unfold update_counters. cbn [fst snd sustained_latency]. by rewrite Hor. }
  rewrite (isChildSane_run child ref row rows e w Htr Hlevel Hrows).
  cbv zeta. fold level iv limit smp state.
  set (w1 := sampled ref child (update_counters limit smp state).1.1 w).
  assert (Htr1 : tracks (watcher w1) child ref) by (by apply tracks_write).
  assert (Hread : read_state ref (watcher w1)
                  = (update_counters limit smp state).1.1)
    by apply read_write.
  destruct (Z.eq_dec (s_parent smp) (current_pid e)) as [Hours|Hforeign].
  - assert (Hgoal : forall sane w',
              watcher w' = watcher w1 ->
              exists (sane0 : bool) (w0 : World),
                Done sane w' = Done sane0 w0
                /\ (exceeds_sample limit (s_user_time smp) (user_time state) ->
                    wraps_above limit (s_user_time smp) (user_time state))
                /\ (exceeds_sample limit (s_system_time smp)
                      (system_time state) ->
                    wraps_above limit (s_system_time smp) (system_time state))
                /\ (s_parent smp = current_pid e ->
                    sustained_latency (read_state ref (watcher w0))
                    = u64 ((if s_caught smp then 0
                            else sustained_latency state) + 1))
                /\ (s_parent smp <> current_pid e ->
                    sane0 = true
                    /\ sustained_latency (read_state ref (watcher w0)) = 0)).
    { intros sane w' Hw'. exists sane, w'. split; [reflexivity|].
      split; [by apply exceeds_sample_wraps|].
      split; [by apply exceeds_sample_wraps|].
      split; [by rewrite Hw', Hread|done]. }
    assert (Heq : (s_parent smp =? current_pid e) = true)
      by (by apply Z.eqb_eq).
    rewrite Heq. cbn [negb].
    destruct (_ && _); [by apply Hgoal|].
    destruct (_ && _); [by apply Hgoal|].
    destruct (use_worker_ e); by apply Hgoal.
  - assert (Hneq : (s_parent smp =? current_pid e) = false)
      by (by apply Z.eqb_neq).
    rewrite Hneq. cbn [negb].
    destruct (reset_tracked child ref e w1 Htr1)
      as (w' & Hrun & _ & Hreset & _).
    exists true, w'. unfold bind. rewrite Hrun.
    split; [reflexivity|].
    split; [by apply exceeds_sample_wraps|].
    split; [by apply exceeds_sample_wraps|].
    split; [done|]. intros _. split; [reflexivity|]. by rewrite Hreset.
Qed.

Lemma wrapped_delta_increments_latency_witness :
  exists sane w',
    isChildSane (Process 200) unparsed_env lagging_worker = Done sane w'
    /\ (exceeds_sample 90 0 300 -> wraps_above 90 0 300)
    /\ (exceeds_sample 90 0 0 -> wraps_above 90 0 0)
    /\ (100 = 100 ->
        sustained_latency (read_state WorkerState (watcher w')) = 1)
    /\ (100 <> 100 ->
        sane = true
        /\ sustained_latency (read_state WorkerState (watcher w')) = 0).
Proof.
  apply (wrapped_delta_increments_latency (Process 200) WorkerState
           (worker_row 100 None) [] unparsed_env lagging_worker).
  - left. split; reflexivity.
  - simpl. lia.
  - reflexivity.
  - left. vm_compute. repeat split.
Defined.

(** The same check when the column that does not parse is [parent]: the
    sample and the local [parent] stay 0, the wrapped delta makes the
    counter 1, and the reset of a child that is taken for somebody
    else's leaves it at 0 with the worker released. *)
Example unparsed_parent_leaves_latency_zero :
  exists w',
    isChildSane (Process 200)
      (host 0 true [mkRow None (Some 0) (Some 0) (Some 4096) None]
            all_alive true false)
      lagging_worker
    = Done true w'
    /\ sustained_latency (state_ (watcher w')) = 0
    /\ worker_ (watcher w') = None.
Proof. eexists. split; [vm_compute; reflexivity|]. by split. Qed.

(** ** C10: a failed extension launch *)

(** The check at the head of [createExtension], in the scope of its
    [WatcherLocker]. *)
Lemma extension_respawn_check extension e w :
  0 <= FLAGS_watchdog_level e ->
  locked (let* ref := getState_path extension in
          respawning_too_quickly ref) e w
  = Done (u64 (getUnixTime e (clock_reads w)
               - worker_limit (FLAGS_watchdog_level e) RESPAWN_LIMIT)
          <? last_respawn_time (state_at extension (watcher w)))
         (mkWorld (touch_state extension (watcher w))
                  ((trace w ++ [EvLock]) ++ [EvUnlock])
                  (S (clock_reads w)) (env_OSQUERY_EXTENSIONS w)).
Proof.
  intros Hlevel. unfold locked.
  unfold bind at 1, emit at 1. unfold bind at 1.
  unfold getState_path, bind at 1, modify at 1. unfold ret at 1.
  unfold respawning_too_quickly.
  unfold bind at 1, gets at 1. unfold bind at 1, unixTime at 1.
  unfold bind at 1. rewrite limit_run by exact Hlevel.
  unfold ret, unlock_world.
  cbn [watcher trace clock_reads env_OSQUERY_EXTENSIONS read_state].
  do 3 f_equal. unfold state_at, touch_state, set_extension_states_.
  cbn [extension_states_]. by rewrite lookup_insert_eq.
Qed.

(** C10: when [launchExtension] returns a null pointer, [createExtension]
    ends in [Initializer::shutdown(EXIT_FAILURE)], which ends the
    process: the run takes the registry mutex once, for the respawn
    check, [extensions_] is what it was, so that [setExtension] has not
    run, and the outcome is not the dereference of a null pointer.  The
    call returns [false] instead when the extension respawns too quickly
    or its binary is unsafe, which is decided before the launch.
    [createWorker] does the same after a failed [launchWorker]: the
    process ends in the shutdown call with [worker_] as it was. *)
Theorem failed_extension_launch_ends_the_run extension e w :
  let exec_path := system_complete e extension in
  let refused :=
    (u64 (getUnixTime e (clock_reads w)
          - worker_limit (FLAGS_watchdog_level e) RESPAWN_LIMIT)
     <? last_respawn_time (state_at extension (watcher w)))
    || negb (safePermissions e exec_path) in
  0 <= FLAGS_watchdog_level e ->
  launchExtension e exec_path = None ->
  (exists w',
     createExtension extension e w
     = (if refused then Done false w'
        else Crash (ProcessExit EXIT_FAILURE) w')
     /\ extensions_ (watcher w') = extensions_ (watcher w)
     /\ trace w'
        = trace w ++ [EvLock; EvUnlock]
          ++ (if refused then []
              else [EvLaunchExtension exec_path; EvShutdown EXIT_FAILURE]))
  /\ (forall row path w0,
        processes e (current_pid e) = [row] ->
        r_path row = Some path ->
        String.length path <> 0%nat ->
        safePermissions e (system_complete e path) = true ->
        launchWorker e (system_complete e path) = None ->
        exists w',
          launch_worker e w0 = Crash (ProcessExit EXIT_FAILURE) w'
          /\ worker_ (watcher w') = worker_ (watcher w0)
          /\ last (trace w') = Some (EvShutdown EXIT_FAILURE)).
Proof.
  intros exec_path refused Hlevel Hnull. split.
  - unfold createExtension. unfold bind at 1.
    rewrite (extension_respawn_check extension e w Hlevel).
    subst refused.
    destruct (_ <? _); cbn [orb].
    { eexists. split; [reflexivity|]. split; [reflexivity|].
      cbn [trace]. by rewrite <- !app_assoc, app_nil_r. }
    unfold bind at 1, ask at 1. unfold bind at 1, ask at 1.
    fold exec_path.
    destruct (safePermissions e exec_path); cbn [negb].
    + unfold bind at 1, emit at 1. unfold bind at 1, ask at 1.
      rewrite Hnull. unfold bind at 1, shutdown, bind at 1, emit at 1.
      unfold throw.
      eexists. split; [reflexivity|]. split; [reflexivity|].
      cbn [trace]. by rewrite <- !app_assoc.
    + eexists. split; [reflexivity|]. split; [reflexivity|].
      cbn [trace]. by rewrite <- !app_assoc, app_nil_r.
  - intros row path w0 Hrows Hpath Hlen Hsafe Hlaunch.
    unfold launch_worker.
    unfold bind at 1, ask at 1. unfold bind at 1, emit at 1.
    unfold bind at 1, ask at 1. rewrite Hrows, Hpath.
    assert (Hne : Nat.eqb (String.length path) 0 = false)
      by (by apply Nat.eqb_neq).
    rewrite Hne.
    unfold bind at 1, hasManagedExtensions.
    cbn [watcher env_OSQUERY_EXTENSIONS].
    set (w1 := mkWorld _ _ _ _).
    assert (Hrest : forall w2,
              worker_ (watcher w2) = worker_ (watcher w0) ->
              exists w',
                (let* exec_path := ask (fun e => system_complete e path) in
                 let* safe := ask (fun e => safePermissions e exec_path) in
                 if negb safe then requestShutdown EXIT_FAILURE
                 else
                   let* _ := emit (EvLaunchWorker exec_path) in
                   let* worker := ask (fun e => launchWorker e exec_path) in
                   match worker with
                   | None => shutdown EXIT_FAILURE
                   | Some _ =>
                       let* _ := setWorker worker in
                       let* now := unixTime in
                       resetWorkerCounters now
                   end) e w2
                = Crash (ProcessExit EXIT_FAILURE) w'
                /\ worker_ (watcher w') = worker_ (watcher w0)
                /\ last (trace w') = Some (EvShutdown EXIT_FAILURE)).
    { intros w2 Hw2.
      unfold bind at 1, ask at 1. unfold bind at 1, ask at 1.
      rewrite Hsafe. cbn [negb].
      unfold bind at 1, emit at 1. unfold bind at 1, ask at 1.
      rewrite Hlaunch. unfold shutdown, bind, emit, throw.
      eexists. split; [reflexivity|]. split; [exact Hw2|].
      cbn [trace]. by rewrite last_snoc. }
    destruct (0 <? _); [|destruct (env_OSQUERY_EXTENSIONS w0)];
      unfold bind at 1, when;
      [unfold setEnvVar_OSQUERY_EXTENSIONS..|unfold ret at 1];
      by apply Hrest.
Qed.

Lemma failed_extension_launch_ends_the_run_witness :
  (exists w',
     createExtension "/opt/ext/a" (failed_launch_env true) unlaunched_extension
     = Crash (ProcessExit EXIT_FAILURE) w'
     /\ extensions_ (watcher w')
        = extensions_ (watcher unlaunched_extension)
     /\ trace w'
        = [EvLock; EvUnlock; EvLaunchExtension "/opt/ext/a";
           EvShutdown EXIT_FAILURE])
  /\ (exists w',
        launch_worker (failed_launch_env true) unlaunched_extension
        = Crash (ProcessExit EXIT_FAILURE) w'
        /\ worker_ (watcher w') = Some (Process 200)
        /\ last (trace w') = Some (EvShutdown EXIT_FAILURE)).
Proof.
  destruct (failed_extension_launch_ends_the_run "/opt/ext/a"
              (failed_launch_env true) unlaunched_extension)
    as [Hext Hworker]; [simpl; lia|reflexivity|].
  split; [exact Hext|].
  apply (Hworker supervisor_row "/usr/bin/osqueryd"%string);
    [reflexivity|reflexivity|discriminate|reflexivity|reflexivity].
Defined.

(** * Further properties of the watcher *)

(** ** The limit table at every level *)

Lemma limits_of_known name :
  exists a b c d, limits_of name kWatchdogLimits = Some [a; b; c; d]
                  /\ 0 < a <= 1000 /\ 0 < b <= 1000 /\ 0 < c <= 1000
                  /\ 0 < d <= 1000.
Proof. destruct name; do 4 eexists; (split; [reflexivity | lia]). Qed.

(** X1: every level from 3 upwards selects the last column of the table:
    [getWorkerLimit(name, level)] returns what it returns for level 3,
    and that value is positive. *)
Theorem getWorkerLimit_clamps_above_three flag name level :
  3 <= level ->
  getWorkerLimit flag name level = getWorkerLimit flag name 3
  /\ exists v, getWorkerLimit flag name level = Some v /\ 0 < v.
Proof.
  intros H.
  destruct (limits_of_known name) as (a & b & c & d & Hrow & _ & _ & _ & Hd).
  assert (Hne : (level =? -1) = false) by (apply Z.eqb_neq; lia).
  assert (Heq : getWorkerLimit flag name level = Some d).
  { unfold getWorkerLimit. rewrite Hrow, Hne.
    destruct (3 <? level) eqn:Hlt; [reflexivity|].
    apply Z.ltb_ge in Hlt. by replace level with 3 by lia. }
  split.
  - rewrite Heq. unfold getWorkerLimit. by rewrite Hrow.
  - exists d. split; [exact Heq | lia].
Qed.

Lemma getWorkerLimit_clamps_above_three_witness :
  getWorkerLimit 0 MEMORY_LIMIT 7 = getWorkerLimit 0 MEMORY_LIMIT 3
  /\ exists v, getWorkerLimit 0 MEMORY_LIMIT 7 = Some v /\ 0 < v.
Proof. apply (getWorkerLimit_clamps_above_three 0 MEMORY_LIMIT 7). lia. Defined.

(** X2: [getWorkerLimit] throws ([std::out_of_range] from [at]) exactly
    when the level it uses is negative, where the level it uses is the
    flag [FLAGS_watchdog_level] for the default argument -1 and the
    argument otherwise; in particular an explicit level below -1 throws
    whatever the flag is.  Every value it returns lies between 1 and
    1000, so the interval is never 0. *)
Theorem getWorkerLimit_throws_iff_level_negative flag name level :
  (getWorkerLimit flag name level = None
   <-> (if level =? -1 then flag else level) < 0)
  /\ (forall v, getWorkerLimit flag name level = Some v -> 0 < v <= 1000).
Proof.
  destruct (limits_of_known name)
    as (a & b & c & d & Hrow & Ha & Hb & Hc & Hd).
  unfold getWorkerLimit. rewrite Hrow.
  set (used := if level =? -1 then flag else level).
  destruct (3 <? used) eqn:Hlt.
  { apply Z.ltb_lt in Hlt. split; [split; [discriminate | lia]|].
    intros v Hv. injection Hv as <-. exact Hd. }
  apply Z.ltb_ge in Hlt. unfold vector_at.
  destruct (0 <=? used) eqn:Hge.
  - apply Z.leb_le in Hge.
    assert (Hcase : used = 0 \/ used = 1 \/ used = 2 \/ used = 3) by lia.
    destruct Hcase as [Hu|[Hu|[Hu|Hu]]]; rewrite Hu; cbn;
      (split; [split; [discriminate | lia]|]);
      intros v Hv; injection Hv as <-; assumption.
  - apply Z.leb_gt in Hge. cbn [andb]. split; [by split|]. discriminate.
Qed.

(** ** How [watch] and the sanity check end *)

Lemma watch_alive child status e w :
  fates_bound_ (watcher w) = false ->
  isValid child = true ->
  checkChildProcessStatus e child = (PROCESS_STILL_ALIVE, status) ->
  watch child e w
  = match isChildSane child e (status_checked child w) with
    | Done true w' => Done true w'
    | Done false w' => Done false (stopped child w')
    | Crash r w' => Crash r w'
    end.
Proof.
  intros Hfates Hvalid Halive. unfold watch.
  unfold bind at 1, emit at 1. unfold bind at 1, ask at 1. rewrite Halive.
  unfold bind at 1, gets at 1.
  cbn [watcher trace clock_reads env_OSQUERY_EXTENSIONS].
  rewrite Hfates, Hvalid. cbn [negb]. unfold bind at 1.
  fold (status_checked child w).
  destruct (isChildSane child e (status_checked child w)) as [[|] w'|r w'];
    reflexivity.
Qed.

Lemma memory_limit_bytes_values level :
  0 <= level ->
  0 < memory_limit_bytes level < 2 ^ 31
  /\ u64 (worker_limit level MEMORY_LIMIT * 1024 * 1024)
     = memory_limit_bytes level.
Proof.
  intros H. unfold memory_limit_bytes.
  destruct (worker_limit_values level H)
    as [(_ & _ & _ & _ & -> & _)|[(_ & _ & _ & _ & -> & _)
       |[(_ & _ & _ & _ & -> & _)|(_ & _ & _ & _ & -> & _)]]];
    (split; [lia | reflexivity]).
Qed.

(** The check of a tracked child whose row names the supervisor as its
    parent, in terms of the counters it leaves. *)
Lemma isChildSane_ours child ref row rows e w :
  tracks (watcher w) child ref ->
  0 <= FLAGS_watchdog_level e ->
  processes e (pid_of child) = row :: rows ->
  s_parent (sample_at (FLAGS_watchdog_level e) row) = current_pid e ->
  let level := FLAGS_watchdog_level e in
  let iv := Z.max (worker_limit level INTERVAL) 1 in
  let result := update_counters (worker_limit level UTILIZATION_LIMIT)
                                (sample_at level row)
                                (read_state ref (watcher w)) in
  let w1 := sampled ref child result.1.1 w in
  isChildSane child e w
  = if (0 <? result.1.2)
       && (worker_limit level LATENCY_LIMIT <=? u64 (result.1.2 * iv))
    then Done false w1
    else if (0 <? result.2) && (memory_limit_bytes level <? result.2)
    then Done false w1
    else if use_worker_ e then
      Done true (mkWorld (watcher w1) (trace w1 ++ [EvRelayStatusLogs])
                         (clock_reads w1) (env_OSQUERY_EXTENSIONS w1))
    else Done true w1.
Proof.
  intros Htr Hlevel Hrows Hparent. cbv zeta.
  rewrite (isChildSane_run child ref row rows e w Htr Hlevel Hrows).
  cbv zeta. unfold sample_at in *. rewrite Hparent, Z.eqb_refl. cbn [negb].
  by rewrite (proj2 (memory_limit_bytes_values _ Hlevel)).
Qed.

Lemma watch_gives_up child e w :
  fates_bound_ (watcher w) = true
  \/ isValid child = false
  \/ (checkChildProcessStatus e child).1 = PROCESS_ERROR ->
  watch child e w = Done false (status_checked child w).
Proof.
  intros H. unfold watch.
  unfold bind at 1, emit at 1. unfold bind at 1, ask at 1.
  destruct (checkChildProcessStatus e child) as [result status] eqn:Hst.
  unfold bind at 1, gets at 1.
  cbn [watcher trace clock_reads env_OSQUERY_EXTENSIONS].
  destruct (fates_bound_ (watcher w)); [reflexivity|].
  destruct (isValid child); cbn [negb]; [|reflexivity].
  destruct H as [H|[H|H]]; try discriminate H.
  simpl in H. subst result. reflexivity.
Qed.

(** ** Which events a routine can add *)

Lemma emits_ret {A} P (a : A) : emits P (ret a).
Proof. intros e w. apply extends_by_refl. Qed.

Lemma emits_throw {A} P r : emits P (@throw A r).
Proof. intros e w. apply extends_by_refl. Qed.

Lemma emits_ask {A} P (f : Env -> A) : emits P (ask f).
Proof. intros e w. apply extends_by_refl. Qed.

Lemma emits_gets {A} P (f : Watcher -> A) : emits P (gets f).
Proof. intros e w. apply extends_by_refl. Qed.

Lemma emits_modify P f : emits P (modify f).
Proof. intros e w. exists []. simpl. split; [by rewrite app_nil_r | constructor]. Qed.

Lemma emits_limit P name : emits P (limit name).
Proof.
  intros e w. unfold limit. destruct (getWorkerLimit _ _ _); apply extends_by_refl.
Qed.

Lemma emits_unixTime P : emits P unixTime.
Proof. intros e w. exists []. simpl. split; [by rewrite app_nil_r | constructor]. Qed.

Lemma emits_emit (P : event -> Prop) ev : P ev -> emits P (emit ev).
Proof.
  intros H e w. exists [ev]. split; [reflexivity|]. by constructor.
Qed.

Lemma emits_deref {A} P (p : option A) : emits P (deref p).
Proof. destruct p; [apply emits_ret | apply emits_throw]. Qed.

Lemma emits_bind {A B} P (c : M A) (k : A -> M B) :
  emits P c -> (forall a, emits P (k a)) -> emits P (bind c k).
Proof.
  intros Hc Hk e w. unfold bind. specialize (Hc e w).
  destruct (c e w) as [a w1|r w1]; [|exact Hc].
  eapply extends_by_trans; [exact Hc | apply Hk].
Qed.

Lemma emits_locked {A} (P : event -> Prop) (c : M A) :
  P EvLock -> P EvUnlock -> emits P c -> emits P (locked c).
Proof.
  intros Hl Hu Hc e w. unfold locked.
  assert (Hin : emits P (let* _ := emit EvLock in c)).
  { apply emits_bind; [by apply emits_emit | intros _; exact Hc]. }
  specialize (Hin e w).
  assert (Hun : forall w1, extends_by P w w1 -> extends_by P w (unlock_world w1)).
  { intros w1 H1. eapply extends_by_trans; [exact H1|].
    exists [EvUnlock]. split; [reflexivity | by constructor]. }
  destruct ((let* _ := emit EvLock in c) e w) as [a w1|[| | |code] w1];
    simpl in *; auto.
Qed.

Lemma emits_weaken {A} (P Q : event -> Prop) (c : M A) :
  (forall ev, P ev -> Q ev) -> emits P c -> emits Q c.
Proof. intros H Hc e w. eapply extends_by_weaken; [exact H | apply Hc]. Qed.

Ltac emits_step :=
  first
    [ apply emits_ret | apply emits_throw | apply emits_ask | apply emits_gets
    | apply emits_modify | apply emits_limit | apply emits_unixTime
    | apply emits_deref
    | apply emits_emit; solve [by left | by right | exact I | done]
    | apply emits_locked; [by left | by right |]
    | apply emits_bind; [|intros ?] ].

Lemma find_extension_emits P child paths : emits P (find_extension child paths).
Proof.
  induction paths as [|path rest IH]; simpl; [apply emits_ret|].
  apply emits_bind; [apply emits_gets|]. intros [ptr|]; [|exact IH].
  apply emits_bind; [apply emits_deref|]. intros p.
  destruct (decide (p = child)); [apply emits_ret | exact IH].
Qed.

Lemma getState_emits P child : emits P (getState child).
Proof.
  unfold getState, getWorker, getExtensionPath.
  repeat emits_step.
  destruct (decide _); repeat emits_step. apply find_extension_emits.
Qed.

Lemma reset_extensions_emits child paths :
  emits is_lock_event (reset_extensions child paths).
Proof.
  induction paths as [|path rest IH]; simpl; [apply emits_ret|].
  apply emits_bind; [apply emits_gets|]. intros h.
  apply emits_bind; [|intros _; exact IH].
  destruct h as [ptr|]; [|apply emits_ret].
  apply emits_bind; [apply emits_deref|]. intros p.
  destruct (decide (p = child)); [|apply emits_ret].
  unfold setExtension, resetExtensionCounters. repeat emits_step.
Qed.

Lemma reset_emits child : emits is_lock_event (reset child).
Proof.
  unfold reset, getWorker. repeat emits_step.
  destruct (decide _).
  - unfold resetWorkerCounters. repeat emits_step.
  - repeat emits_step. apply reset_extensions_emits.
Qed.

Lemma lock_event_sanity ev : is_lock_event ev -> sanity_event ev.
Proof. by intros [-> | ->]. Qed.

Lemma isChildSane_emits child : emits sanity_event (isChildSane child).
Proof.
  unfold isChildSane.
  apply emits_bind; [by apply emits_emit|]. intros _.
  apply emits_bind; [apply emits_ask|]. intros [|row rows]; [apply emits_ret|].
  apply emits_bind; [apply emits_limit|]. intros interval.
  apply emits_bind.
  { unfold sample_counters. apply emits_locked; [exact I | exact I |].
    apply emits_bind.
    { apply getState_emits. }
    intros ref. repeat emits_step. }
  intros checked. apply emits_bind; [apply emits_ask|]. intros self.
  destruct (negb _).
  { apply emits_bind; [|intros; apply emits_ret].
    eapply emits_weaken; [apply lock_event_sanity | apply reset_emits]. }
  apply emits_bind; [apply emits_limit|]. intros latency_limit.
  destruct (_ && _); [apply emits_ret|].
  apply emits_bind; [apply emits_limit|]. intros memory_limit.
  destruct (_ && _); [apply emits_ret|].
  apply emits_bind; [apply emits_ask|]. intros use_worker.
  apply emits_bind; [|intros; apply emits_ret].
  destruct use_worker; simpl; [by apply emits_emit | apply emits_ret].
Qed.

(** ** What [watch] does to a child *)

(** X3: a valid child that answers as alive but has no row in the
    [processes] table is killed and reaped: [watch] returns [false], the
    registry is untouched (no counter is read or written), and the run
    has made the status call, the table query, [kill] and
    [cleanupDefunctProcesses], in this order. *)
Theorem child_without_row_is_killed child status e w :
  fates_bound_ (watcher w) = false ->
  isValid child = true ->
  checkChildProcessStatus e child = (PROCESS_STILL_ALIVE, status) ->
  processes e (pid_of child) = [] ->
  exists w',
    watch child e w = Done false w'
    /\ watcher w' = watcher w
    /\ trace w' = trace w ++ [EvCheckChildProcessStatus child;
                              EvSelectProcesses (pid_of child);
                              EvKill child; EvCleanupDefunctProcesses].
Proof.
  intros Hfates Hvalid Halive Hrows.
  rewrite (watch_alive child status e w Hfates Hvalid Halive).
  unfold isChildSane. unfold bind at 1, emit at 1. unfold bind at 1, ask at 1.
  cbn [pid_of]. rewrite Hrows. unfold ret at 1.
  eexists. split; [reflexivity|]. split; [reflexivity|].
  simpl. by rewrite <- !app_assoc.
Qed.

Lemma child_without_row_is_killed_witness :
  exists w',
    watch (Process 200) vanished_env fresh_worker = Done false w'
    /\ watcher w' = watcher fresh_worker
    /\ trace w' = trace fresh_worker
                  ++ [EvCheckChildProcessStatus (Process 200);
                      EvSelectProcesses (pid_of (Process 200));
                      EvKill (Process 200); EvCleanupDefunctProcesses].
Proof.
  apply (child_without_row_is_killed (Process 200) 0 vanished_env fresh_worker);
    reflexivity.
Defined.

(** X4: whatever the environment answers and whatever the registry holds,
    [watch child] starts with the status call and goes on with events of
    a sanity check only (table query, mutex, relay of status logs); the
    one exception is a [kill] of [child] itself followed by
    [cleanupDefunctProcesses] as the last two events, which happens only
    when [child] is valid, the fates are not bound, the child answered as
    alive and its sanity check returned [false], and then [watch] returns
    [false].  [watch] never signals another process and never launches
    one. *)
Theorem watch_kills_only_insane_children child e w :
  exists tr,
    trace (world_of (watch child e w))
    = trace w ++ EvCheckChildProcessStatus child :: tr
    /\ (Forall sanity_event tr
        \/ exists tr0 w0 w',
             tr = tr0 ++ [EvKill child; EvCleanupDefunctProcesses]
             /\ Forall sanity_event tr0
             /\ watch child e w = Done false w'
             /\ isChildSane child e (status_checked child w) = Done false w0
             /\ isValid child = true
             /\ fates_bound_ (watcher w) = false
             /\ (checkChildProcessStatus e child).1 = PROCESS_STILL_ALIVE).
Proof.
  destruct (fates_bound_ (watcher w)) eqn:Hfates.
  { rewrite watch_gives_up; [|by left].
    exists []. split; [reflexivity | left; constructor]. }
  destruct (isValid child) eqn:Hvalid; cycle 1.
  { rewrite watch_gives_up; [|by right; left].
    exists []. split; [reflexivity | left; constructor]. }
  destruct (checkChildProcessStatus e child) as [result status] eqn:Hst.
  destruct result.
  - rewrite watch_gives_up; [|right; right; by rewrite Hst].
    exists []. split; [reflexivity | left; constructor].
  - rewrite (watch_alive child status e w Hfates Hvalid Hst).
    destruct (isChildSane_emits child e (status_checked child w))
      as (tr & Htr & Hall).
    destruct (isChildSane child e (status_checked child w))
      as [[|] w1|r w1] eqn:Hsane; simpl in Htr.
    + exists tr. split; [|by left]. simpl. rewrite Htr.
      by rewrite <- app_assoc.
    + exists (tr ++ [EvKill child; EvCleanupDefunctProcesses]). split.
      * simpl. rewrite Htr. by rewrite <- !app_assoc.
      * right. exists tr, w1. eexists. by repeat split.
    + exists tr. split; [|by left]. simpl. rewrite Htr.
      by rewrite <- app_assoc.
  - exists []. split; [|left; constructor].
    unfold watch. unfold bind at 1, emit at 1. unfold bind at 1, ask at 1.
    rewrite Hst. unfold bind at 1, gets at 1.
    cbn [watcher trace clock_reads env_OSQUERY_EXTENSIONS].
    rewrite Hfates, Hvalid. reflexivity.
Qed.

(** ** The limits in the sanity check *)

Lemma tracks_status_checked child ref w :
  tracks (watcher w) child ref -> tracks (watcher (status_checked child w)) child ref.
Proof. done. Qed.

Lemma sample_footprint_nonneg level row : 0 <= s_footprint (sample_at level row).
Proof.
  unfold sample_at, read_row.
  destruct (r_parent row), (r_user_time row), (r_system_time row),
    (r_resident_size row); simpl; try lia.
  unfold u64. apply Z.mod_pos_bound. lia.
Qed.

Lemma update_counters_initial u smp st :
  initial_footprint (update_counters u smp st).1.1
  = if initial_footprint st =? 0 then s_footprint smp else initial_footprint st.
Proof. reflexivity. Qed.

Lemma update_counters_footprint u smp st :
  (update_counters u smp st).2
  = if s_footprint smp <? initial_footprint (update_counters u smp st).1.1
    then 0
    else s_footprint smp - initial_footprint (update_counters u smp st).1.1.
Proof. reflexivity. Qed.

(** X5: the first check of a child records its resident size as the
    baseline and cannot trip the memory limit, whatever that size is: an
    unhealthy verdict then comes from the latency counter alone. *)
Theorem first_check_records_baseline child ref row rows e w :
  tracks (watcher w) child ref ->
  0 <= FLAGS_watchdog_level e ->
  processes e (pid_of child) = row :: rows ->
  s_parent (sample_at (FLAGS_watchdog_level e) row) = current_pid e ->
  initial_footprint (read_state ref (watcher w)) = 0 ->
  exists sane w',
    isChildSane child e w = Done sane w'
    /\ initial_footprint (read_state ref (watcher w'))
       = s_footprint (sample_at (FLAGS_watchdog_level e) row)
    /\ (sane = false ->
        0 < sustained_latency (read_state ref (watcher w'))
        /\ worker_limit (FLAGS_watchdog_level e) LATENCY_LIMIT
           <= u64 (sustained_latency (read_state ref (watcher w'))
                   * Z.max (worker_limit (FLAGS_watchdog_level e) INTERVAL) 1)).
Proof.
  intros Htr Hlevel Hrows Hparent Hzero.
  rewrite (isChildSane_ours child ref row rows e w Htr Hlevel Hrows Hparent).
  cbv zeta.
  set (level := FLAGS_watchdog_level e) in *.
  set (smp := sample_at level row) in *.
  set (st := read_state ref (watcher w)) in *.
  set (result := update_counters (worker_limit level UTILIZATION_LIMIT) smp st).
  assert (Hinit : initial_footprint result.1.1 = s_footprint smp).
  { subst result. by rewrite update_counters_initial, Hzero. }
  assert (Hfoot : result.2 = 0).
  { unfold result in *. rewrite update_counters_footprint, Hinit.
    by rewrite Z.ltb_irrefl, Z.sub_diag. }
  assert (Hlat : sustained_latency result.1.1 = result.1.2) by reflexivity.
  rewrite Hfoot. cbn [Z.ltb Z.compare andb].
  destruct ((0 <? result.1.2) && _) eqn:Htrip.
  - exists false. eexists. split; [reflexivity|].
    unfold sampled. cbn [watcher]. rewrite read_write. split; [exact Hinit|].
    intros _. rewrite Hlat. apply andb_true_iff in Htrip as [H1 H2].
    split; [by apply Z.ltb_lt | by apply Z.leb_le].
  - destruct (use_worker_ e); exists true; eexists;
      (split; [reflexivity|]); unfold sampled; cbn [watcher];
      rewrite read_write; (split; [exact Hinit | discriminate]).
Qed.

Lemma first_check_records_baseline_witness :
  exists sane w',
    isChildSane (Process 200) (busy_env 0 3000) fresh_worker = Done sane w'
    /\ initial_footprint (read_state WorkerState (watcher w'))
       = s_footprint (sample_at (FLAGS_watchdog_level (busy_env 0 3000))
                                (worker_row 100 (Some 3000)))
    /\ (sane = false ->
        0 < sustained_latency (read_state WorkerState (watcher w'))
        /\ worker_limit (FLAGS_watchdog_level (busy_env 0 3000)) LATENCY_LIMIT
           <= u64 (sustained_latency (read_state WorkerState (watcher w'))
                   * Z.max (worker_limit (FLAGS_watchdog_level (busy_env 0 3000))
                                         INTERVAL) 1)).
Proof.
  apply (first_check_records_baseline (Process 200) WorkerState
           (worker_row 100 (Some 3000)) [] (busy_env 0 3000) fresh_worker).
  - left. split; reflexivity.
  - simpl. lia.
  - reflexivity.
  - reflexivity.
  - reflexivity.
Defined.

(** X6: a running child of the supervisor whose resident size exceeds its
    recorded baseline by more than [MEMORY_LIMIT] megabytes is killed and
    reaped, and [watch] returns [false]; the baseline is left as it
    was. *)
Theorem memory_growth_over_limit_stops_child child ref row rows status e w :
  tracks (watcher w) child ref ->
  0 <= FLAGS_watchdog_level e ->
  fates_bound_ (watcher w) = false ->
  isValid child = true ->
  checkChildProcessStatus e child = (PROCESS_STILL_ALIVE, status) ->
  processes e (pid_of child) = row :: rows ->
  s_parent (sample_at (FLAGS_watchdog_level e) row) = current_pid e ->
  0 < initial_footprint (read_state ref (watcher w)) ->
  initial_footprint (read_state ref (watcher w))
    + memory_limit_bytes (FLAGS_watchdog_level e)
    < s_footprint (sample_at (FLAGS_watchdog_level e) row) ->
  exists w',
    watch child e w = Done false w'
    /\ trace w' = trace w ++ [EvCheckChildProcessStatus child;
                              EvSelectProcesses (pid_of child);
                              EvLock; EvUnlock;
                              EvKill child; EvCleanupDefunctProcesses]
    /\ initial_footprint (read_state ref (watcher w'))
       = initial_footprint (read_state ref (watcher w)).
Proof.
  intros Htr Hlevel Hfates Hvalid Halive Hrows Hparent Hbase Hgrow.
  rewrite (watch_alive child status e w Hfates Hvalid Halive).
  rewrite (isChildSane_ours child ref row rows e (status_checked child w)
             (tracks_status_checked _ _ _ Htr) Hlevel Hrows Hparent).
  cbv zeta. change (watcher (status_checked child w)) with (watcher w).
  set (level := FLAGS_watchdog_level e) in *.
  set (smp := sample_at level row) in *.
  set (st := read_state ref (watcher w)) in *.
  set (result := update_counters (worker_limit level UTILIZATION_LIMIT) smp st).
  destruct (memory_limit_bytes_values level Hlevel) as [Hmem _].
  assert (Hne : (initial_footprint st =? 0) = false) by (apply Z.eqb_neq; lia).
  assert (Hinit : initial_footprint result.1.1 = initial_footprint st).
  { subst result. by rewrite update_counters_initial, Hne. }
  assert (Hfoot : result.2 = s_footprint smp - initial_footprint st).
  { unfold result in *. rewrite update_counters_footprint, Hinit.
    assert (Hge : (s_footprint smp <? initial_footprint st) = false)
      by (apply Z.ltb_ge; lia).
    by rewrite Hge. }
  assert (Htrip : (0 <? result.2) && (memory_limit_bytes level <? result.2)
                  = true).
  { rewrite Hfoot. apply andb_true_iff. split; apply Z.ltb_lt; lia. }
  rewrite Htrip.
  assert (Hend : forall w1,
             w1 = sampled ref child result.1.1 (status_checked child w) ->
             exists w',
               Done false (stopped child w1) = Done false w'
               /\ trace w' = trace w ++ [EvCheckChildProcessStatus child;
                                         EvSelectProcesses (pid_of child);
                                         EvLock; EvUnlock;
                                         EvKill child; EvCleanupDefunctProcesses]
               /\ initial_footprint (read_state ref (watcher w'))
                  = initial_footprint st).
  { intros w1 ->. eexists. split; [reflexivity|]. split.
    - simpl. by rewrite <- !app_assoc.
    - unfold stopped, sampled. cbn [watcher]. by rewrite read_write. }
  clear Htrip.
  match goal with |- context [if ?b then _ else _] => destruct b end;
    by apply Hend.
Qed.

Lemma memory_growth_over_limit_stops_child_witness :
  exists w',
    watch (Process 200) (resident_env 0 100000000) measured_worker
    = Done false w'
    /\ trace w' = trace measured_worker
                  ++ [EvCheckChildProcessStatus (Process 200);
                      EvSelectProcesses (pid_of (Process 200));
                      EvLock; EvUnlock;
                      EvKill (Process 200); EvCleanupDefunctProcesses]
    /\ initial_footprint (read_state WorkerState (watcher w'))
       = initial_footprint (read_state WorkerState (watcher measured_worker)).
Proof.
  apply (memory_growth_over_limit_stops_child (Process 200) WorkerState
           (mkRow (Some 100) (Some 0) (Some 0) (Some 100000000)
                  (Some "/usr/bin/osqueryd"%string)) [] 0
           (resident_env 0 100000000) measured_worker).
  - left. split; reflexivity.
  - simpl. lia.
  - reflexivity.
  - reflexivity.
  - reflexivity.
  - reflexivity.
  - reflexivity.
  - simpl. lia.
  - vm_compute. reflexivity.
Defined.

Lemma update_counters_latency u smp st :
  sustained_latency (update_counters u smp st).1.1 = (update_counters u smp st).1.2
  /\ (update_counters u smp st).1.2
     = if (u <? u64 (s_user_time smp - user_time st))
          || (u <? u64 (s_system_time smp - system_time st))
       then u64 ((if s_caught smp then 0 else sustained_latency st) + 1)
       else 0.
Proof. split; reflexivity. Qed.

(** X7: a running child of the supervisor whose two CPU deltas are within
    [UTILIZATION_LIMIT] and whose resident size is within [MEMORY_LIMIT]
    megabytes of its baseline (or has no baseline yet) passes the check:
    [watch] returns [true], the latency counter is back at 0 and nothing
    is signalled or launched. *)
Theorem child_within_limits_is_sane child ref row rows status e w :
  tracks (watcher w) child ref ->
  0 <= FLAGS_watchdog_level e ->
  fates_bound_ (watcher w) = false ->
  isValid child = true ->
  checkChildProcessStatus e child = (PROCESS_STILL_ALIVE, status) ->
  processes e (pid_of child) = row :: rows ->
  s_parent (sample_at (FLAGS_watchdog_level e) row) = current_pid e ->
  u64 (s_user_time (sample_at (FLAGS_watchdog_level e) row)
       - user_time (read_state ref (watcher w)))
    <= worker_limit (FLAGS_watchdog_level e) UTILIZATION_LIMIT ->
  u64 (s_system_time (sample_at (FLAGS_watchdog_level e) row)
       - system_time (read_state ref (watcher w)))
    <= worker_limit (FLAGS_watchdog_level e) UTILIZATION_LIMIT ->
  initial_footprint (read_state ref (watcher w)) = 0
  \/ s_footprint (sample_at (FLAGS_watchdog_level e) row)
     - initial_footprint (read_state ref (watcher w))
     <= memory_limit_bytes (FLAGS_watchdog_level e) ->
  exists w',
    watch child e w = Done true w'
    /\ sustained_latency (read_state ref (watcher w')) = 0
    /\ trace w' = trace w
                  ++ [EvCheckChildProcessStatus child;
                      EvSelectProcesses (pid_of child); EvLock; EvUnlock]
                  ++ (if use_worker_ e then [EvRelayStatusLogs] else []).
Proof.
  intros Htr Hlevel Hfates Hvalid Halive Hrows Hparent Huser Hsys Hmemory.
  rewrite (watch_alive child status e w Hfates Hvalid Halive).
  rewrite (isChildSane_ours child ref row rows e (status_checked child w)
             (tracks_status_checked _ _ _ Htr) Hlevel Hrows Hparent).
  cbv zeta. change (watcher (status_checked child w)) with (watcher w).
  set (level := FLAGS_watchdog_level e) in *.
  set (smp := sample_at level row) in *.
  set (st := read_state ref (watcher w)) in *.
  set (u := worker_limit level UTILIZATION_LIMIT) in *.
  destruct (memory_limit_bytes_values level Hlevel) as [Hmem _].
  destruct (update_counters_latency u smp st) as [Hstored Hlat].
  assert (Hzero : (update_counters u smp st).1.2 = 0).
  { rewrite Hlat.
    assert (H1 : (u <? u64 (s_user_time smp - user_time st)) = false)
      by (apply Z.ltb_ge; lia).
    assert (H2 : (u <? u64 (s_system_time smp - system_time st)) = false)
      by (apply Z.ltb_ge; lia).
    by rewrite H1, H2. }
  assert (Hfoot : (update_counters u smp st).2 <= memory_limit_bytes level).
  { rewrite update_counters_footprint, update_counters_initial.
    destruct Hmemory as [Hnone|Hwithin].
    - rewrite Hnone. cbn [Z.eqb]. rewrite Z.ltb_irrefl. lia.
    - destruct (initial_footprint st =? 0) eqn:Hz.
      + rewrite Z.ltb_irrefl. lia.
      + destruct (s_footprint smp <? initial_footprint st); lia. }
  rewrite Hzero. cbn [Z.ltb Z.compare andb].
  assert (Hno : (0 <? (update_counters u smp st).2)
                && (memory_limit_bytes level <? (update_counters u smp st).2)
                = false).
  { apply andb_false_iff. right. apply Z.ltb_ge. exact Hfoot. }
  rewrite Hno.
  destruct (use_worker_ e); eexists; (split; [reflexivity|]);
    unfold sampled; cbn [watcher trace]; rewrite read_write;
    (split; [by rewrite Hstored|]); simpl; by rewrite <- !app_assoc.
Qed.

Lemma child_within_limits_is_sane_witness :
  exists w',
    watch (Process 200) (busy_env 0 30) fresh_worker = Done true w'
    /\ sustained_latency (read_state WorkerState (watcher w')) = 0
    /\ trace w' = trace fresh_worker
                  ++ [EvCheckChildProcessStatus (Process 200);
                      EvSelectProcesses (pid_of (Process 200));
                      EvLock; EvUnlock]
                  ++ (if use_worker_ (busy_env 0 30)
                      then [EvRelayStatusLogs] else []).
Proof.
  apply (child_within_limits_is_sane (Process 200) WorkerState
           (worker_row 100 (Some 30)) [] 0 (busy_env 0 30) fresh_worker).
  - left. split; reflexivity.
  - simpl. lia.
  - reflexivity.
  - reflexivity.
  - reflexivity.
  - reflexivity.
  - reflexivity.
  - vm_compute. discriminate.
  - vm_compute. discriminate.
  - left. reflexivity.
Defined.

(** X8: a sanity check of a child of the supervisor writes the counters of
    that child and nothing else in the registry; of those counters it
    leaves [last_respawn_time] alone, and [initial_footprint] too once it
    is non-zero, and stores the two sampled CPU times. *)
Theorem sanity_check_writes_one_state child ref row rows e w :
  tracks (watcher w) child ref ->
  0 <= FLAGS_watchdog_level e ->
  processes e (pid_of child) = row :: rows ->
  s_parent (sample_at (FLAGS_watchdog_level e) row) = current_pid e ->
  exists sane w' state',
    isChildSane child e w = Done sane w'
    /\ watcher w' = write_state ref state' (watcher w)
    /\ last_respawn_time state'
       = last_respawn_time (read_state ref (watcher w))
    /\ (initial_footprint (read_state ref (watcher w)) <> 0 ->
        initial_footprint state'
        = initial_footprint (read_state ref (watcher w)))
    /\ user_time state' = s_user_time (sample_at (FLAGS_watchdog_level e) row)
    /\ system_time state'
       = s_system_time (sample_at (FLAGS_watchdog_level e) row).
Proof.
  intros Htr Hlevel Hrows Hparent.
  rewrite (isChildSane_ours child ref row rows e w Htr Hlevel Hrows Hparent).
  cbv zeta.
  set (st := read_state ref (watcher w)).
  set (result := update_counters _ _ st).
  assert (Hkeep : initial_footprint st <> 0 ->
                  initial_footprint result.1.1 = initial_footprint st).
  { intros Hne. unfold result. rewrite update_counters_initial.
    apply Z.eqb_neq in Hne. by rewrite Hne. }
  repeat match goal with
         | |- context [if ?b then _ else _] => destruct b
         end;
    eexists _, _, result.1.1; (split; [reflexivity|]);
    (split; [reflexivity|]); (split; [reflexivity|]);
    (split; [exact Hkeep|]); split; reflexivity.
Qed.

Lemma sanity_check_writes_one_state_witness :
  exists sane w' state',
    isChildSane (Process 200) (busy_env 1 3000) measured_worker = Done sane w'
    /\ watcher w' = write_state WorkerState state' (watcher measured_worker)
    /\ last_respawn_time state'
       = last_respawn_time (read_state WorkerState (watcher measured_worker))
    /\ (initial_footprint (read_state WorkerState (watcher measured_worker))
        <> 0 ->
        initial_footprint state'
        = initial_footprint (read_state WorkerState (watcher measured_worker)))
    /\ user_time state'
       = s_user_time (sample_at (FLAGS_watchdog_level (busy_env 1 3000))
                                (worker_row 100 (Some 3000)))
    /\ system_time state'
       = s_system_time (sample_at (FLAGS_watchdog_level (busy_env 1 3000))
                                  (worker_row 100 (Some 3000))).
Proof.
  apply (sanity_check_writes_one_state (Process 200) WorkerState
           (worker_row 100 (Some 3000)) [] (busy_env 1 3000) measured_worker).
  - left. split; reflexivity.
  - simpl. lia.
  - reflexivity.
  - reflexivity.
Defined.

(** X9: when the [parent] column of the row of a running child is missing
    or does not parse, the local [parent] keeps its initial 0, which is
    not the supervisor's pid: the child is treated like one that belongs
    to another parent.  [watch] returns [true], the registry lets go of
    the handle, the latency counter is zeroed and no process is signalled
    or launched. *)
Theorem unparsable_parent_releases_child child ref row rows status e w :
  tracks (watcher w) child ref ->
  0 <= FLAGS_watchdog_level e ->
  fates_bound_ (watcher w) = false ->
  isValid child = true ->
  checkChildProcessStatus e child = (PROCESS_STILL_ALIVE, status) ->
  processes e (pid_of child) = row :: rows ->
  r_parent row = None ->
  current_pid e <> 0 ->
  exists w',
    watch child e w = Done true w'
    /\ match ref with
       | WorkerState => worker_ (watcher w') = None
       | ExtensionState path =>
           extensions_ (watcher w') !! path = Some (Some NoProcess)
       end
    /\ sustained_latency (read_state ref (watcher w')) = 0
    /\ extends_by quiet w w'.
Proof.
  intros Htr Hlevel Hfates Hvalid Halive Hrows Hparent Hself.
  rewrite (watch_alive child status e w Hfates Hvalid Halive).
  rewrite (isChildSane_run child ref row rows e (status_checked child w)
             (tracks_status_checked _ _ _ Htr) Hlevel Hrows).
  cbv zeta. change (watcher (status_checked child w)) with (watcher w).
  set (iv := Z.max _ 1).
  assert (Hzero : s_parent (read_row iv row) = 0)
    by (unfold read_row; by rewrite Hparent).
  rewrite Hzero.
  assert (Hneq : (0 =? current_pid e) = false) by (apply Z.eqb_neq; lia).
  rewrite Hneq. cbn [negb].
  set (w1 := sampled ref child _ (status_checked child w)).
  assert (Htr1 : tracks (watcher w1) child ref) by (by apply tracks_write).
  destruct (reset_tracked child ref e w1 Htr1)
    as (w' & Hrun & Hrel & Hstate & _ & _ & Hext).
  exists w'. unfold bind. rewrite Hrun. split; [reflexivity|]. split.
  { destruct ref; [exact Hrel | exact (proj1 Hrel)]. }
  split; [by rewrite Hstate|].
  eapply extends_by_trans;
    [|eapply extends_by_weaken; [apply lock_event_quiet | exact Hext]].
  exists [EvCheckChildProcessStatus child;
          EvSelectProcesses (pid_of child); EvLock; EvUnlock].
  split; [subst w1; simpl; by rewrite <- !app_assoc|].
  repeat (constructor; [exact I|]). constructor.
Qed.

Lemma unparsable_parent_releases_child_witness :
  exists w',
    watch (Process 200) orphan_row_env fresh_worker = Done true w'
    /\ worker_ (watcher w') = None
    /\ sustained_latency (read_state WorkerState (watcher w')) = 0
    /\ extends_by quiet fresh_worker w'.
Proof.
  apply (unparsable_parent_releases_child (Process 200) WorkerState
           (mkRow None (Some 0) (Some 0) (Some 4096)
                  (Some "/usr/bin/osqueryd"%string)) [] 0
           orphan_row_env fresh_worker).
  - left. split; reflexivity.
  - simpl. lia.
  - reflexivity.
  - reflexivity.
  - reflexivity.
  - reflexivity.
  - reflexivity.
  - simpl. lia.
Defined.

Lemma caught_sample_has_no_footprint iv row :
  s_caught (read_row iv row) = true -> s_footprint (read_row iv row) = 0.
Proof.
  unfold read_row.
  by destruct (r_parent row), (r_user_time row), (r_system_time row),
    (r_resident_size row).
Qed.

(** X10: at watchdog levels 0 and 1 a row with a column that is missing or
    does not parse never makes the check call the child unhealthy.  The
    [catch] clause zeroes the latency counter before the comparison, so
    the counter is at most 1 afterwards, below [LATENCY_LIMIT] / 3; the
    local [footprint] stays 0; and a row without a readable parent makes
    the child a foreign one.  [isChildSane] returns [true] in every
    case. *)
Theorem unparsable_row_is_not_fatal_at_loose_levels child ref row rows e w :
  tracks (watcher w) child ref ->
  FLAGS_watchdog_level e = 0 \/ FLAGS_watchdog_level e = 1 ->
  processes e (pid_of child) = row :: rows ->
  s_caught (sample_at (FLAGS_watchdog_level e) row) = true ->
  0 <= initial_footprint (read_state ref (watcher w)) ->
  exists w',
    isChildSane child e w = Done true w'
    /\ 0 <= sustained_latency (read_state ref (watcher w')) <= 1.
Proof.
  intros Htr Hloose Hrows Hcaught Hbase.
  assert (Hlevel : 0 <= FLAGS_watchdog_level e) by lia.
  rewrite (isChildSane_run child ref row rows e w Htr Hlevel Hrows).
  cbv zeta. unfold sample_at in Hcaught.
  set (level := FLAGS_watchdog_level e) in *.
  set (iv := Z.max (worker_limit level INTERVAL) 1) in *.
  set (smp := read_row iv row) in *.
  set (st := read_state ref (watcher w)) in *.
  set (u := worker_limit level UTILIZATION_LIMIT).
  destruct (update_counters_latency u smp st) as [Hstored Hlat].
  rewrite Hcaught in Hlat. change (u64 (0 + 1)) with 1 in Hlat.
  assert (Hrange : 0 <= (update_counters u smp st).1.2 <= 1)
    by (rewrite Hlat; destruct (_ || _); lia).
  destruct (negb (s_parent smp =? current_pid e)).
  { set (w1 := sampled ref child _ w).
    assert (Htr1 : tracks (watcher w1) child ref) by (by apply tracks_write).
    destruct (reset_tracked child ref e w1 Htr1)
      as (w' & Hrun & _ & Hstate & _).
    exists w'. unfold bind. rewrite Hrun. split; [reflexivity|].
    rewrite Hstate. cbn. lia. }
  assert (Hiv : iv = 3 /\ 6 <= worker_limit level LATENCY_LIMIT).
  { subst iv.
    destruct (worker_limit_values level Hlevel)
      as [(_ & -> & -> & _)|[(_ & -> & -> & _)|[(H2 & _)|(H3 & _)]]];
      [split; [reflexivity | lia] | split; [reflexivity | lia] | lia | lia]. }
  destruct Hiv as [Hiv Hlimit].
  assert (Hno : (0 <? (update_counters u smp st).1.2)
                && (worker_limit level LATENCY_LIMIT
                    <=? u64 ((update_counters u smp st).1.2 * iv)) = false).
  { apply andb_false_iff. right. apply Z.leb_gt.
    unfold u64. rewrite Z.mod_small by lia. lia. }
  rewrite Hno.
  assert (Hfoot : (update_counters u smp st).2 = 0).
  { rewrite update_counters_footprint, update_counters_initial.
    pose proof (caught_sample_has_no_footprint iv row Hcaught) as Hzero.
    fold smp in Hzero. rewrite Hzero.
    destruct (initial_footprint st =? 0) eqn:Hz; [reflexivity|].
    apply Z.eqb_neq in Hz.
    assert (Hlt : (0 <? initial_footprint st) = true) by (apply Z.ltb_lt; lia).
    by rewrite Hlt. }
  rewrite Hfoot. cbn [Z.ltb Z.compare andb].
  destruct (use_worker_ e); eexists; (split; [reflexivity|]);
    unfold sampled; cbn [watcher]; rewrite read_write, Hstored; exact Hrange.
Qed.

Lemma unparsable_row_is_not_fatal_at_loose_levels_witness :
  exists w',
    isChildSane (Process 200) unparsed_env sampled_worker = Done true w'
    /\ 0 <= sustained_latency (read_state WorkerState (watcher w')) <= 1.
Proof.
  apply (unparsable_row_is_not_fatal_at_loose_levels (Process 200) WorkerState
           (worker_row 100 None) [] unparsed_env sampled_worker).
  - left. split; reflexivity.
  - left. reflexivity.
  - reflexivity.
  - reflexivity.
  - simpl. lia.
Defined.

(** At level 2 the same row is fatal: one check with a wrapped delta
    reaches [LATENCY_LIMIT]. *)
Example unparsable_row_is_fatal_at_level_two :
  exists w',
    isChildSane (Process 200)
                (host 2 true [worker_row 100 None] all_alive true false)
                sampled_worker
    = Done false w'
    /\ sustained_latency (state_ (watcher w')) = 1.
Proof. vm_compute. eexists. split; reflexivity. Qed.

(** ** Launching a worker or an extension *)

Lemma worker_limit_bounds level name :
  0 <= level -> 0 < worker_limit level name <= 1000.
Proof.
  intros H.
  destruct (worker_limit_values level H)
    as [(_ & H1 & H2 & H3 & H4 & H5 & H6)|[(_ & H1 & H2 & H3 & H4 & H5 & H6)
       |[(_ & H1 & H2 & H3 & H4 & H5 & H6)|(_ & H1 & H2 & H3 & H4 & H5 & H6)]]];
    destruct name; lia.
Qed.

(** The comparison [last_respawn_time > getUnixTime() - limit] when the
    clock is past [limit] seconds, so that the subtraction does not
    wrap. *)
Lemma respawning_too_quickly_run ref e w :
  0 <= FLAGS_watchdog_level e ->
  worker_limit (FLAGS_watchdog_level e) RESPAWN_LIMIT
    <= getUnixTime e (clock_reads w) < 2 ^ 64 ->
  respawning_too_quickly ref e w
  = Done (getUnixTime e (clock_reads w)
          - worker_limit (FLAGS_watchdog_level e) RESPAWN_LIMIT
          <? last_respawn_time (read_state ref (watcher w)))
         (mkWorld (watcher w) (trace w) (S (clock_reads w))
                  (env_OSQUERY_EXTENSIONS w)).
Proof.
  intros Hlevel Hnow. unfold respawning_too_quickly.
  unfold bind at 1, gets at 1. unfold bind at 1, unixTime at 1.
  unfold bind at 1. rewrite limit_run by exact Hlevel. unfold ret.
  cbn [watcher]. destruct (worker_limit_bounds _ RESPAWN_LIMIT Hlevel).
  unfold u64. rewrite Z.mod_small by lia. reflexivity.
Qed.

Lemma respawn_backoff_slow wk e w :
  worker_ (watcher w) = Some wk ->
  0 <= FLAGS_watchdog_level e ->
  worker_limit (FLAGS_watchdog_level e) RESPAWN_LIMIT
    <= getUnixTime e (clock_reads w) < 2 ^ 64 ->
  last_respawn_time (state_ (watcher w))
    <= getUnixTime e (clock_reads w)
       - worker_limit (FLAGS_watchdog_level e) RESPAWN_LIMIT ->
  respawn_backoff e w
  = Done tt (mkWorld (watcher w) ((trace w ++ [EvLock]) ++ [EvUnlock])
                     (S (clock_reads w)) (env_OSQUERY_EXTENSIONS w)).
Proof.
  intros Hw Hlevel Hnow Hslow.
  unfold respawn_backoff, locked.
  unfold bind at 1. unfold emit at 1.
  unfold bind at 1. unfold getWorker, bind at 1, gets at 1.
  cbn [watcher trace clock_reads env_OSQUERY_EXTENSIONS].
  rewrite Hw. unfold deref, ret at 1.
  unfold bind at 1. rewrite getState_worker by exact Hw.
  unfold bind at 1. rewrite respawning_too_quickly_run by done.
  cbn [watcher trace clock_reads env_OSQUERY_EXTENSIONS read_state].
  assert (Hcmp : (getUnixTime e (clock_reads w)
                  - worker_limit (FLAGS_watchdog_level e) RESPAWN_LIMIT
                  <? last_respawn_time (state_ (watcher w))) = false)
    by (apply Z.ltb_ge; lia).
  rewrite Hcmp. reflexivity.
Qed.

Lemma hasManagedExtensions_run e w :
  hasManagedExtensions e w = Done (manages_extensions w) w.
Proof.
  unfold hasManagedExtensions, manages_extensions. by destruct (0 <? _).
Qed.

(** [createWorker] when nothing stands in the way of the launch. *)
Lemma createWorker_launch wk row path p e w :
  worker_ (watcher w) = Some wk ->
  0 <= FLAGS_watchdog_level e ->
  worker_limit (FLAGS_watchdog_level e) RESPAWN_LIMIT
    <= getUnixTime e (clock_reads w) < 2 ^ 64 ->
  last_respawn_time (state_ (watcher w))
    <= getUnixTime e (clock_reads w)
       - worker_limit (FLAGS_watchdog_level e) RESPAWN_LIMIT ->
  processes e (current_pid e) = [row] ->
  r_path row = Some path ->
  path <> ""%string ->
  safePermissions e (system_complete e path) = true ->
  launchWorker e (system_complete e path) = Some p ->
  createWorker e w
  = Done tt
      (mkWorld
         (set_state_
            (reset_counters (getUnixTime e (S (clock_reads w)))
                            (state_ (watcher w)))
            (set_worker_ (Some p) (watcher w)))
         (trace w ++ [EvLock; EvUnlock; EvSelectProcesses (current_pid e)]
                  ++ (if manages_extensions w then [EvSetEnvVar] else [])
                  ++ [EvLaunchWorker (system_complete e path)])
         (S (S (clock_reads w))) (manages_extensions w)).
Proof.
  intros Hw Hlevel Hnow Hslow Hrows Hpath Hnonempty Hsafe Hlaunch.
  unfold createWorker. unfold bind at 1.
  rewrite (respawn_backoff_slow wk e w Hw Hlevel Hnow Hslow).
  unfold launch_worker.
  unfold bind at 1, ask at 1. unfold bind at 1, emit at 1.
  unfold bind at 1, ask at 1. rewrite Hrows, Hpath.
  assert (Hlen : Nat.eqb (String.length path) 0 = false)
    by (by destruct path).
  rewrite Hlen.
  unfold bind at 1. rewrite hasManagedExtensions_run.
  unfold manages_extensions at 1.
  cbn [watcher trace clock_reads env_OSQUERY_EXTENSIONS].
  fold (manages_extensions w).
  unfold bind at 1, when.
  destruct (manages_extensions w) eqn:Hmanaged.
  - unfold setEnvVar_OSQUERY_EXTENSIONS at 1.
    unfold bind at 1, ask at 1. unfold bind at 1, ask at 1.
    rewrite Hsafe. cbn [negb].
    unfold bind at 1, emit at 1. unfold bind at 1, ask at 1.
    rewrite Hlaunch.
    unfold bind at 1, setWorker, modify at 1.
    unfold bind at 1, unixTime at 1. unfold resetWorkerCounters, modify.
    cbn [watcher trace clock_reads env_OSQUERY_EXTENSIONS].
    f_equal. f_equal. simpl. by rewrite <- !app_assoc.
  - unfold ret at 1.
    unfold bind at 1, ask at 1. unfold bind at 1, ask at 1.
    rewrite Hsafe. cbn [negb].
    unfold bind at 1, emit at 1. unfold bind at 1, ask at 1.
    rewrite Hlaunch.
    unfold bind at 1, setWorker, modify at 1.
    unfold bind at 1, unixTime at 1. unfold resetWorkerCounters, modify.
    cbn [watcher trace clock_reads env_OSQUERY_EXTENSIONS].
    unfold manages_extensions in Hmanaged.
    apply orb_false_iff in Hmanaged as [_ ->].
    f_equal. f_equal. simpl. by rewrite <- !app_assoc.
Qed.

(** X11: when the worker is not respawning too quickly, the supervisor
    finds its own row with a non-empty path, the binary has safe
    permissions and the launch succeeds, [createWorker] installs the new
    handle, resets the CPU counters and stamps [last_respawn_time] with
    the clock as read after the launch (the second reading of the call);
    the restart counter and the extensions are untouched, nothing sleeps,
    and [OSQUERY_EXTENSIONS] is set before the launch when extensions
    are managed. *)
Theorem createWorker_installs_worker wk row path p e w :
  worker_ (watcher w) = Some wk ->
  0 <= FLAGS_watchdog_level e ->
  worker_limit (FLAGS_watchdog_level e) RESPAWN_LIMIT
    <= getUnixTime e (clock_reads w) < 2 ^ 64 ->
  last_respawn_time (state_ (watcher w))
    <= getUnixTime e (clock_reads w)
       - worker_limit (FLAGS_watchdog_level e) RESPAWN_LIMIT ->
  processes e (current_pid e) = [row] ->
  r_path row = Some path ->
  path <> ""%string ->
  safePermissions e (system_complete e path) = true ->
  launchWorker e (system_complete e path) = Some p ->
  exists w',
    createWorker e w = Done tt w'
    /\ worker_ (watcher w') = Some p
    /\ state_ (watcher w')
       = reset_counters (getUnixTime e (S (clock_reads w))) (state_ (watcher w))
    /\ worker_restarts_ (watcher w') = worker_restarts_ (watcher w)
    /\ extensions_ (watcher w') = extensions_ (watcher w)
    /\ trace w'
       = trace w ++ [EvLock; EvUnlock; EvSelectProcesses (current_pid e)]
                 ++ (if manages_extensions w then [EvSetEnvVar] else [])
                 ++ [EvLaunchWorker (system_complete e path)]
    /\ env_OSQUERY_EXTENSIONS w' = manages_extensions w.
Proof.
  intros Hw Hlevel Hnow Hslow Hrows Hpath Hnonempty Hsafe Hlaunch.
  rewrite (createWorker_launch wk row path p e w) by done.
  eexists. split; [reflexivity|]. by repeat split.
Qed.

Lemma createWorker_installs_worker_witness :
  exists w',
    createWorker sample_env fresh_worker = Done tt w'
    /\ worker_ (watcher w') = Some (Process 201)
    /\ state_ (watcher w')
       = reset_counters (getUnixTime sample_env (S (clock_reads fresh_worker)))
                        (state_ (watcher fresh_worker))
    /\ worker_restarts_ (watcher w') = worker_restarts_ (watcher fresh_worker)
    /\ extensions_ (watcher w') = extensions_ (watcher fresh_worker)
    /\ trace w'
       = trace fresh_worker
         ++ [EvLock; EvUnlock; EvSelectProcesses (current_pid sample_env)]
         ++ (if manages_extensions fresh_worker then [EvSetEnvVar] else [])
         ++ [EvLaunchWorker
               (system_complete sample_env "/usr/bin/osqueryd"%string)]
    /\ env_OSQUERY_EXTENSIONS w' = manages_extensions fresh_worker.
Proof.
  apply (createWorker_installs_worker (Process 200) supervisor_row
           "/usr/bin/osqueryd"%string (Process 201) sample_env fresh_worker).
  - reflexivity.
  - simpl. lia.
  - vm_compute. split; [discriminate | reflexivity].
  - vm_compute. discriminate.
  - reflexivity.
  - reflexivity.
  - discriminate.
  - reflexivity.
  - reflexivity.
Defined.

(** X12: when the worker is not respawning too quickly and the supervisor
    has no usable binary (its pid does not select exactly one row, the
    row has no path or an empty one, or the completed path has unsafe
    permissions), [createWorker] launches nothing: it requests a shutdown
    with [EXIT_FAILURE] and returns with the registry as it was. *)
Theorem createWorker_without_binary_requests_shutdown wk e w :
  worker_ (watcher w) = Some wk ->
  0 <= FLAGS_watchdog_level e ->
  worker_limit (FLAGS_watchdog_level e) RESPAWN_LIMIT
    <= getUnixTime e (clock_reads w) < 2 ^ 64 ->
  last_respawn_time (state_ (watcher w))
    <= getUnixTime e (clock_reads w)
       - worker_limit (FLAGS_watchdog_level e) RESPAWN_LIMIT ->
  (forall row path,
      processes e (current_pid e) = [row] ->
      r_path row = Some path ->
      path <> ""%string ->
      safePermissions e (system_complete e path) = false) ->
  exists w' tr,
    createWorker e w = Done tt w'
    /\ watcher w' = watcher w
    /\ trace w'
       = trace w ++ [EvLock; EvUnlock; EvSelectProcesses (current_pid e)]
                 ++ tr ++ [EvRequestShutdown EXIT_FAILURE]
    /\ (tr = [] \/ tr = [EvSetEnvVar]).
Proof.
  intros Hw Hlevel Hnow Hslow Hunusable.
  unfold createWorker. unfold bind at 1.
  rewrite (respawn_backoff_slow wk e w Hw Hlevel Hnow Hslow).
  unfold launch_worker.
  unfold bind at 1, ask at 1. unfold bind at 1, emit at 1.
  unfold bind at 1, ask at 1.
  cbn [watcher trace clock_reads env_OSQUERY_EXTENSIONS].
  assert (Hstop : forall c x,
            exists w' tr,
              requestShutdown EXIT_FAILURE e
                (mkWorld (watcher w)
                   (((trace w ++ [EvLock]) ++ [EvUnlock])
                      ++ [EvSelectProcesses (current_pid e)]) c x)
              = Done tt w'
              /\ watcher w' = watcher w
              /\ trace w'
                 = trace w
                   ++ [EvLock; EvUnlock; EvSelectProcesses (current_pid e)]
                   ++ tr ++ [EvRequestShutdown EXIT_FAILURE]
              /\ (tr = [] \/ tr = [EvSetEnvVar])).
  { intros c x. eexists _, []. split; [reflexivity|]. split; [reflexivity|].
    split; [|by left]. simpl. by rewrite <- !app_assoc. }
  destruct (processes e (current_pid e)) as [|row [|row' qd]] eqn:Hrows;
    [by apply Hstop| |by apply Hstop].
  destruct (r_path row) as [path|] eqn:Hpath; [|by apply Hstop].
  destruct (Nat.eqb (String.length path) 0) eqn:Hlen; [by apply Hstop|].
  assert (Hnonempty : path <> ""%string) by (intros ->; discriminate Hlen).
  unfold bind at 1. rewrite hasManagedExtensions_run.
  unfold bind at 1, when.
  destruct (manages_extensions _).
  - unfold setEnvVar_OSQUERY_EXTENSIONS at 1.
    unfold bind at 1, ask at 1. unfold bind at 1, ask at 1.
    rewrite (Hunusable row path eq_refl Hpath Hnonempty). cbn [negb].
    eexists _, [EvSetEnvVar]. split; [reflexivity|]. split; [reflexivity|].
    split; [|by right]. simpl. by rewrite <- !app_assoc.
  - unfold ret at 1.
    unfold bind at 1, ask at 1. unfold bind at 1, ask at 1.
    rewrite (Hunusable row path eq_refl Hpath Hnonempty). cbn [negb].
    eexists _, []. split; [reflexivity|]. split; [reflexivity|].
    split; [|by left]. simpl. by rewrite <- !app_assoc.
Qed.

Lemma createWorker_without_binary_requests_shutdown_witness :
  exists w' tr,
    createWorker hidden_supervisor_env fresh_worker = Done tt w'
    /\ watcher w' = watcher fresh_worker
    /\ trace w'
       = trace fresh_worker
         ++ [EvLock; EvUnlock;
             EvSelectProcesses (current_pid hidden_supervisor_env)]
         ++ tr ++ [EvRequestShutdown EXIT_FAILURE]
    /\ (tr = [] \/ tr = [EvSetEnvVar]).
Proof.
  apply (createWorker_without_binary_requests_shutdown (Process 200)
           hidden_supervisor_env fresh_worker).
  - reflexivity.
  - simpl. lia.
  - vm_compute. split; [discriminate | reflexivity].
  - vm_compute. discriminate.
  - intros row path H. discriminate H.
Defined.

(** The first block of [createExtension]. *)
Lemma createExtension_check path e w :
  0 <= FLAGS_watchdog_level e ->
  worker_limit (FLAGS_watchdog_level e) RESPAWN_LIMIT
    <= getUnixTime e (clock_reads w) < 2 ^ 64 ->
  locked (let* ref := getState_path path in respawning_too_quickly ref) e w
  = Done (getUnixTime e (clock_reads w)
          - worker_limit (FLAGS_watchdog_level e) RESPAWN_LIMIT
          <? last_respawn_time (state_at path (watcher w)))
         (mkWorld (touch_state path (watcher w))
                  ((trace w ++ [EvLock]) ++ [EvUnlock])
                  (S (clock_reads w)) (env_OSQUERY_EXTENSIONS w)).
Proof.
  intros Hlevel Hnow. unfold locked.
  unfold bind at 1, emit at 1. unfold bind at 1, getState_path.
  unfold bind at 1, modify at 1. unfold ret at 1.
  rewrite respawning_too_quickly_run by done.
  cbn [watcher trace clock_reads env_OSQUERY_EXTENSIONS].
  change (read_state (ExtensionState path) (touch_state path (watcher w)))
    with (read_state (ExtensionState path)
            (touch (ExtensionState path) (watcher w))).
  rewrite read_touch. reflexivity.
Qed.

Lemma state_at_touch path r : state_at path (touch_state path r) = state_at path r.
Proof. exact (read_touch (ExtensionState path) r). Qed.

(** X13: [createExtension] gives up on an extension that was respawned
    less than [RESPAWN_LIMIT] seconds before, or whose binary has unsafe
    permissions: it returns [false] and launches nothing; the stored
    handle and the counters of the extension stay as they were, and the
    mutex is taken once and released. *)
Theorem createExtension_refuses_quick_or_unsafe path e w :
  0 <= FLAGS_watchdog_level e ->
  worker_limit (FLAGS_watchdog_level e) RESPAWN_LIMIT
    <= getUnixTime e (clock_reads w) < 2 ^ 64 ->
  getUnixTime e (clock_reads w)
    - worker_limit (FLAGS_watchdog_level e) RESPAWN_LIMIT
    < last_respawn_time (state_at path (watcher w))
  \/ safePermissions e (system_complete e path) = false ->
  exists w',
    createExtension path e w = Done false w'
    /\ extensions_ (watcher w') = extensions_ (watcher w)
    /\ state_at path (watcher w') = state_at path (watcher w)
    /\ trace w' = trace w ++ [EvLock; EvUnlock].
Proof.
  intros Hlevel Hnow Hwhy. unfold createExtension. unfold bind at 1.
  rewrite createExtension_check by done.
  destruct (_ <? last_respawn_time _) eqn:Hquick.
  - eexists. split; [reflexivity|]. split; [reflexivity|].
    split; [apply state_at_touch|]. simpl. by rewrite <- app_assoc.
  - destruct Hwhy as [Hq|Hunsafe]; [apply Z.ltb_ge in Hquick; lia|].
    unfold bind at 1, ask at 1. unfold bind at 1, ask at 1.
    rewrite Hunsafe. cbn [negb].
    eexists. split; [reflexivity|]. split; [reflexivity|].
    split; [apply state_at_touch|]. simpl. by rewrite <- app_assoc.
Qed.

Lemma createExtension_refuses_quick_or_unsafe_witness :
  exists w',
    createExtension "/opt/ext/a" sample_env young_extension = Done false w'
    /\ extensions_ (watcher w') = extensions_ (watcher young_extension)
    /\ state_at "/opt/ext/a" (watcher w')
       = state_at "/opt/ext/a" (watcher young_extension)
    /\ trace w' = trace young_extension ++ [EvLock; EvUnlock].
Proof.
  apply (createExtension_refuses_quick_or_unsafe "/opt/ext/a" sample_env
           young_extension).
  - simpl. lia.
  - vm_compute. split; [discriminate | reflexivity].
  - left. vm_compute. reflexivity.
Defined.

(** X14: when the extension is not respawning too quickly, its binary has
    safe permissions and the launch succeeds, [createExtension] returns
    [true], stores the new handle for the path, resets the CPU counters
    of the path and stamps [last_respawn_time] with the clock as read
    after the launch; no other entry of the two maps changes, and the
    launch is made with the mutex released. *)
Theorem createExtension_installs_handle path p e w :
  0 <= FLAGS_watchdog_level e ->
  worker_limit (FLAGS_watchdog_level e) RESPAWN_LIMIT
    <= getUnixTime e (clock_reads w) < 2 ^ 64 ->
  last_respawn_time (state_at path (watcher w))
    <= getUnixTime e (clock_reads w)
       - worker_limit (FLAGS_watchdog_level e) RESPAWN_LIMIT ->
  safePermissions e (system_complete e path) = true ->
  launchExtension e (system_complete e path) = Some p ->
  exists w',
    createExtension path e w = Done true w'
    /\ extensions_ (watcher w') = <[path := Some p]> (extensions_ (watcher w))
    /\ extension_states_ (watcher w')
       = <[path := reset_counters (getUnixTime e (S (clock_reads w)))
                                  (state_at path (watcher w))]>
           (extension_states_ (watcher w))
    /\ same_worker_part (watcher w) (watcher w')
    /\ trace w'
       = trace w ++ [EvLock; EvUnlock;
                     EvLaunchExtension (system_complete e path);
                     EvLock; EvUnlock; EvLock; EvUnlock]
    /\ lock_discipline false
         [EvLock; EvUnlock; EvLaunchExtension (system_complete e path);
          EvLock; EvUnlock; EvLock; EvUnlock] = true.
Proof.
  intros Hlevel Hnow Hslow Hsafe Hlaunch.
  unfold createExtension. unfold bind at 1.
  rewrite createExtension_check by done.
  assert (Hcmp : (getUnixTime e (clock_reads w)
                  - worker_limit (FLAGS_watchdog_level e) RESPAWN_LIMIT
                  <? last_respawn_time (state_at path (watcher w))) = false)
    by (apply Z.ltb_ge; lia).
  rewrite Hcmp.
  unfold bind at 1, ask at 1. unfold bind at 1, ask at 1.
  rewrite Hsafe. cbn [negb].
  unfold bind at 1, emit at 1. unfold bind at 1, ask at 1.
  rewrite Hlaunch. unfold bind at 1, ret at 1.
  unfold bind at 1. rewrite setExtension_run.
  unfold bind at 1, unixTime at 1.
  unfold bind at 1. rewrite resetExtensionCounters_run.
  unfold bind at 1, ask at 1.
  assert (Hlog : forall w0,
            (let* _ := (if verbose e
                        then let* _ := deref (Some p) in ret tt
                        else ret tt) in ret true) e w0 = Done true w0).
  { intros w0. unfold bind, deref, ret. by destruct (verbose e). }
  rewrite Hlog.
  eexists. split; [reflexivity|].
  cbn [watcher trace clock_reads env_OSQUERY_EXTENSIONS set_extensions_
       set_extension_states_ extensions_ extension_states_ touch_state].
  split; [reflexivity|]. split.
  { change (state_at path (set_extensions_ _ (touch_state path (watcher w))))
      with (state_at path (touch_state path (watcher w))).
    by rewrite state_at_touch, insert_insert_eq. }
  split; [by repeat split|]. split; [|reflexivity].
  by rewrite <- !app_assoc.
Qed.

Lemma createExtension_installs_handle_witness :
  exists w',
    createExtension "/opt/ext/a" sample_env unlaunched_extension = Done true w'
    /\ extensions_ (watcher w')
       = <["/opt/ext/a"%string := Some (Process 301)]>
           (extensions_ (watcher unlaunched_extension))
    /\ extension_states_ (watcher w')
       = <["/opt/ext/a"%string :=
             reset_counters
               (getUnixTime sample_env (S (clock_reads unlaunched_extension)))
               (state_at "/opt/ext/a" (watcher unlaunched_extension))]>
           (extension_states_ (watcher unlaunched_extension))
    /\ same_worker_part (watcher unlaunched_extension) (watcher w')
    /\ trace w'
       = trace unlaunched_extension
         ++ [EvLock; EvUnlock;
             EvLaunchExtension (system_complete sample_env "/opt/ext/a");
             EvLock; EvUnlock; EvLock; EvUnlock]
    /\ lock_discipline false
         [EvLock; EvUnlock;
          EvLaunchExtension (system_complete sample_env "/opt/ext/a");
          EvLock; EvUnlock; EvLock; EvUnlock] = true.
Proof.
  apply (createExtension_installs_handle "/opt/ext/a" (Process 301) sample_env
           unlaunched_extension).
  - simpl. lia.
  - vm_compute. split; [discriminate | reflexivity].
  - vm_compute. discriminate.
  - reflexivity.
  - reflexivity.
Defined.

Lemma createExtension_quick path e w :
  0 <= FLAGS_watchdog_level e ->
  worker_limit (FLAGS_watchdog_level e) RESPAWN_LIMIT
    <= getUnixTime e (clock_reads w) < 2 ^ 64 ->
  getUnixTime e (clock_reads w)
    - worker_limit (FLAGS_watchdog_level e) RESPAWN_LIMIT
    < last_respawn_time (state_at path (watcher w)) ->
  createExtension path e w
  = Done false (mkWorld (touch_state path (watcher w))
                        ((trace w ++ [EvLock]) ++ [EvUnlock])
                        (S (clock_reads w)) (env_OSQUERY_EXTENSIONS w)).
Proof.
  intros Hlevel Hnow Hquick. unfold createExtension. unfold bind at 1.
  rewrite createExtension_check by done.
  apply Z.ltb_lt in Hquick. by rewrite Hquick.
Qed.

(** ** A pass of the loop over a single extension *)

Lemma extension_paths_singleton r path h :
  extensions_ r = {[ path := h ]} -> extension_paths r = [path].
Proof.
  intros H. unfold extension_paths. by rewrite H, map_to_list_singleton.
Qed.

Lemma extension_paths_empty r : extensions_ r = ∅ -> extension_paths r = [].
Proof. intros H. unfold extension_paths. by rewrite H, map_to_list_empty. Qed.

Lemma interval_pause level :
  0 <= level ->
  u64 (worker_limit level INTERVAL * 1000) = worker_limit level INTERVAL * 1000.
Proof.
  intros H. destruct (worker_limit_bounds level INTERVAL H).
  unfold u64. rewrite Z.mod_small; lia.
Qed.

(** X15: in a runner without a worker ([use_worker_] false) whose only
    extension cannot be watched (fates bound, handle invalid, or status
    error) and was respawned less than [RESPAWN_LIMIT] seconds before,
    one pass of [start] launches nothing and unregisters the extension:
    both maps lose the path.  With no valid worker and
    [OSQUERY_EXTENSIONS] unset, the loop condition is then false. *)
Theorem quickly_failing_extension_is_unregistered path child wk e w :
  use_worker_ e = false ->
  extensions_ (watcher w) = {[ path := Some child ]} ->
  worker_ (watcher w) = Some wk ->
  fates_bound_ (watcher w) = true
  \/ isValid child = false
  \/ (checkChildProcessStatus e child).1 = PROCESS_ERROR ->
  0 <= FLAGS_watchdog_level e ->
  worker_limit (FLAGS_watchdog_level e) RESPAWN_LIMIT
    <= getUnixTime e (clock_reads w) < 2 ^ 64 ->
  getUnixTime e (clock_reads w)
    - worker_limit (FLAGS_watchdog_level e) RESPAWN_LIMIT
    < last_respawn_time (state_at path (watcher w)) ->
  exists again w',
    start_pass e w = Done again w'
    /\ extensions_ (watcher w') = ∅
    /\ extension_states_ (watcher w') !! path = None
    /\ trace w'
       = trace w ++ [EvCheckChildProcessStatus child; EvLock; EvUnlock;
                     EvLock; EvUnlock;
                     EvPauseMilli
                       (worker_limit (FLAGS_watchdog_level e) INTERVAL * 1000)]
    /\ (isValid wk = false -> env_OSQUERY_EXTENSIONS w = false ->
        again = false).
Proof.
  intros Huse Hext Hw Hgone Hlevel Hnow Hquick.
  unfold start_pass. unfold bind at 1, watch_worker.
  unfold bind at 1, ask at 1. rewrite Huse. unfold ret at 1.
  unfold bind at 1, gets at 1.
  rewrite (extension_paths_singleton _ _ _ Hext).
  unfold bind at 1. cbn [watch_extensions].
  unfold bind at 1, gets at 1. rewrite Hext, lookup_singleton_eq.
  unfold bind at 1, deref, ret at 1.
  unfold bind at 1. rewrite (watch_gives_up child e w Hgone).
  unfold bind at 1.
  rewrite createExtension_quick by done.
  unfold ret at 1. cbn [app].
  unfold bind at 1. cbn [remove_failing].
  unfold bind at 1, removeExtensionPath, locked.
  unfold bind at 1, emit at 1, modify at 1, ret at 1.
  unfold bind at 1. rewrite limit_run by exact Hlevel.
  unfold bind at 1, pauseMilli, emit at 1.
  rewrite (interval_pause _ Hlevel).
  cbn [watcher trace clock_reads env_OSQUERY_EXTENSIONS unlock_world
       status_checked touch_state set_extension_states_ set_extensions_
       extensions_ extension_states_ state_ worker_ worker_restarts_
       worker_status_ fates_bound_].
  set (w' := mkWorld _ _ _ _).
  assert (Hempty : extensions_ (watcher w') = ∅)
    by (subst w'; cbn; by rewrite Hext, delete_singleton_eq).
  assert (Hstate : extension_states_ (watcher w') !! path = None)
    by (subst w'; cbn; by rewrite lookup_delete_eq).
  assert (Htrace :
            trace w'
            = trace w ++ [EvCheckChildProcessStatus child; EvLock; EvUnlock;
                          EvLock; EvUnlock;
                          EvPauseMilli
                            (worker_limit (FLAGS_watchdog_level e) INTERVAL
                             * 1000)])
    by (subst w'; cbn; by rewrite <- !app_assoc).
  assert (Hwk : worker_ (watcher w') = Some wk) by exact Hw.
  assert (Henv : env_OSQUERY_EXTENSIONS w' = env_OSQUERY_EXTENSIONS w)
    by reflexivity.
  clearbody w'.
  unfold bind at 1, ask at 1.
  destruct (interrupted e).
  { exists false, w'. by repeat split. }
  unfold ok. unfold bind at 1, gets at 1. unfold bind at 1, ask at 1.
  destruct (_ || _).
  { exists false, w'. by repeat split. }
  unfold bind at 1, getWorker, bind at 1, gets at 1. rewrite Hwk.
  unfold deref, ret at 1.
  destruct (isValid wk) eqn:Hvalid.
  { exists true, w'. split; [reflexivity|]. repeat split; try done. }
  rewrite hasManagedExtensions_run. unfold manages_extensions.
  rewrite Hempty, map_size_empty, Henv. cbn [Z.of_nat Z.ltb Z.compare orb].
  exists (env_OSQUERY_EXTENSIONS w), w'. by repeat split.
Qed.

Lemma quickly_failing_extension_is_unregistered_witness :
  exists again w',
    start_pass (signalled_env false) young_extension = Done again w'
    /\ extensions_ (watcher w') = ∅
    /\ extension_states_ (watcher w') !! "/opt/ext/a"%string = None
    /\ trace w'
       = trace young_extension
         ++ [EvCheckChildProcessStatus (Process 300); EvLock; EvUnlock;
             EvLock; EvUnlock;
             EvPauseMilli
               (worker_limit (FLAGS_watchdog_level (signalled_env false))
                             INTERVAL * 1000)]
    /\ (isValid NoProcess = false ->
        env_OSQUERY_EXTENSIONS young_extension = false ->
        again = false).
Proof.
  apply (quickly_failing_extension_is_unregistered "/opt/ext/a" (Process 300)
           NoProcess (signalled_env false) young_extension).
  - reflexivity.
  - reflexivity.
  - reflexivity.
  - right. right. reflexivity.
  - simpl. lia.
  - vm_compute. split; [discriminate | reflexivity].
  - vm_compute. reflexivity.
Defined.

(** ** The first pass of a supervisor without a worker *)

(** X16: [start] resets the worker's counters before the first pass, so a
    supervisor that starts without a worker launches one in that pass
    without any back-off, whatever [last_respawn_time] held before: the
    run makes the status call on the invalid handle, takes and releases
    the mutex, queries its own row, launches the binary and sleeps one
    interval; the new handle is installed with [last_respawn_time] set
    to the clock as read after the launch, and the loop goes on. *)
Theorem first_pass_launches_worker_without_backoff wk row path p e w :
  use_worker_ e = true ->
  worker_ (watcher w) = Some wk ->
  isValid wk = false ->
  fates_bound_ (watcher w) = false ->
  extensions_ (watcher w) = ∅ ->
  0 <= FLAGS_watchdog_level e ->
  worker_limit (FLAGS_watchdog_level e) RESPAWN_LIMIT
    <= getUnixTime e (clock_reads w) < 2 ^ 64 ->
  processes e (current_pid e) = [row] ->
  r_path row = Some path ->
  path <> ""%string ->
  safePermissions e (system_complete e path) = true ->
  launchWorker e (system_complete e path) = Some p ->
  isValid p = true ->
  interrupted e = false ->
  worker_status_ (watcher w) <> EXIT_SUCCESS ->
  worker_status_ (watcher w) <> EXIT_CATASTROPHIC e ->
  exists w',
    start [e] w = Done LoopRunning w'
    /\ worker_ (watcher w') = Some p
    /\ state_ (watcher w')
       = mkState 0 0 0 (getUnixTime e (S (clock_reads w)))
                 (initial_footprint (state_ (watcher w)))
    /\ worker_restarts_ (watcher w') = worker_restarts_ (watcher w)
    /\ trace w'
       = trace w ++ [EvCheckChildProcessStatus wk; EvLock; EvUnlock;
                     EvSelectProcesses (current_pid e)]
                 ++ (if env_OSQUERY_EXTENSIONS w then [EvSetEnvVar] else [])
                 ++ [EvLaunchWorker (system_complete e path);
                     EvPauseMilli
                       (worker_limit (FLAGS_watchdog_level e) INTERVAL * 1000)].
Proof.
  intros Huse Hw Hinvalid Hfates Hext Hlevel Hnow Hrows Hpath Hnonempty Hsafe
    Hlaunch Hvalid Hrunning Hsuccess Hcatastrophic.
  unfold start, resetWorkerCounters, modify. cbn [start_loop].
  set (w0 := mkWorld _ _ _ _).
  unfold start_pass. unfold bind at 1, watch_worker.
  unfold bind at 1, ask at 1. rewrite Huse.
  unfold bind at 1, getWorker, bind at 1, gets at 1.
  change (worker_ (watcher w0)) with (worker_ (watcher w)). rewrite Hw.
  unfold deref, ret at 1. unfold bind at 1.
  rewrite (watch_gives_up wk e w0) by (right; by left).
  unfold bind at 1, gets at 1.
  change (fates_bound_ (watcher (status_checked wk w0)))
    with (fates_bound_ (watcher w)).
  rewrite Hfates. unfold bind at 1.
  destruct (worker_limit_bounds _ RESPAWN_LIMIT Hlevel) as [Hpos _].
  assert (H1 : worker_ (watcher (status_checked wk w0)) = Some wk) by exact Hw.
  assert (H2 : worker_limit (FLAGS_watchdog_level e) RESPAWN_LIMIT
               <= getUnixTime e (clock_reads (status_checked wk w0)) < 2 ^ 64)
    by exact Hnow.
  assert (H3 : last_respawn_time (state_ (watcher (status_checked wk w0)))
               <= getUnixTime e (clock_reads (status_checked wk w0))
                  - worker_limit (FLAGS_watchdog_level e) RESPAWN_LIMIT).
  { change (0 <= getUnixTime e (clock_reads w)
                 - worker_limit (FLAGS_watchdog_level e) RESPAWN_LIMIT). lia. }
  rewrite (createWorker_launch wk row path p e _ H1 Hlevel H2 H3 Hrows Hpath
             Hnonempty Hsafe Hlaunch).
  unfold ret at 1. unfold ret at 1.
  unfold bind at 1, gets at 1.
  rewrite extension_paths_empty by exact Hext.
  unfold bind at 1. cbn [watch_extensions]. unfold ret at 1.
  unfold bind at 1. cbn [remove_failing]. unfold ret at 1.
  unfold bind at 1. rewrite limit_run by exact Hlevel.
  unfold bind at 1, pauseMilli, emit at 1.
  rewrite (interval_pause _ Hlevel).
  unfold bind at 1, ask at 1. rewrite Hrunning.
  unfold ok. unfold bind at 1, gets at 1. unfold bind at 1, ask at 1.
  cbn [watcher trace clock_reads env_OSQUERY_EXTENSIONS status_checked
       set_state_ set_worker_ worker_status_ worker_].
  assert (Hcode : (worker_status_ (watcher w) =? EXIT_SUCCESS)
                  || (worker_status_ (watcher w) =? EXIT_CATASTROPHIC e)
                  = false).
  { apply orb_false_iff. split; by apply Z.eqb_neq. }
  change (worker_status_ (watcher w0)) with (worker_status_ (watcher w)).
  rewrite Hcode.
  unfold bind at 1, getWorker, bind at 1, gets at 1.
  cbn [watcher worker_ set_state_ set_worker_]. unfold deref, ret at 1.
  rewrite Hvalid. unfold ret at 1.
  assert (Hmanaged : manages_extensions (status_checked wk w0)
                     = env_OSQUERY_EXTENSIONS w).
  { unfold manages_extensions.
    change (extensions_ (watcher (status_checked wk w0)))
      with (extensions_ (watcher w)).
    by rewrite Hext, map_size_empty. }
  eexists. split; [reflexivity|]. split; [reflexivity|].
  split; [reflexivity|]. split; [reflexivity|].
  cbn [trace]. rewrite Hmanaged. subst w0. cbn [trace].
  by rewrite <- !app_assoc.
Qed.

Lemma first_pass_launches_worker_without_backoff_witness :
  exists w',
    start [sample_env] idle_supervisor = Done LoopRunning w'
    /\ worker_ (watcher w') = Some (Process 201)
    /\ state_ (watcher w')
       = mkState 0 0 0 (getUnixTime sample_env (S (clock_reads idle_supervisor)))
                 (initial_footprint (state_ (watcher idle_supervisor)))
    /\ worker_restarts_ (watcher w') = worker_restarts_ (watcher idle_supervisor)
    /\ trace w'
       = trace idle_supervisor
         ++ [EvCheckChildProcessStatus NoProcess; EvLock; EvUnlock;
             EvSelectProcesses (current_pid sample_env)]
         ++ (if env_OSQUERY_EXTENSIONS idle_supervisor
             then [EvSetEnvVar] else [])
         ++ [EvLaunchWorker
               (system_complete sample_env "/usr/bin/osqueryd"%string);
             EvPauseMilli
               (worker_limit (FLAGS_watchdog_level sample_env) INTERVAL
                * 1000)].
Proof.
  apply (first_pass_launches_worker_without_backoff NoProcess supervisor_row
           "/usr/bin/osqueryd"%string (Process 201) sample_env
           idle_supervisor).
  - reflexivity.
  - reflexivity.
  - reflexivity.
  - reflexivity.
  - reflexivity.
  - simpl. lia.
  - vm_compute. split; [discriminate | reflexivity].
  - reflexivity.
  - reflexivity.
  - discriminate.
  - reflexivity.
  - reflexivity.
  - reflexivity.
  - reflexivity.
  - discriminate.
  - discriminate.
Defined.

(** ** Registering, finding and forgetting an extension *)

Lemma watcher_eta r :
  mkWatcher (state_ r) (extension_states_ r) (worker_ r) (worker_restarts_ r)
            (extensions_ r) (worker_status_ r) (fates_bound_ r) = r.
Proof. by destruct r. Qed.

(** X17: registering a path that neither map knows stores an invalid
    handle and an all-zero state for it, and removing the path again
    gives back the registry as it was before the two calls. *)
Theorem add_then_remove_restores_registry path e w :
  extensions_ (watcher w) !! path = None ->
  extension_states_ (watcher w) !! path = None ->
  exists w1 w2,
    addExtensionPath path e w = Done tt w1
    /\ extensions_ (watcher w1) !! path = Some (Some NoProcess)
    /\ extension_states_ (watcher w1) !! path = Some zero_state
    /\ removeExtensionPath path e w1 = Done tt w2
    /\ watcher w2 = watcher w.
Proof.
  intros Hext Hstate.
  unfold addExtensionPath. unfold bind at 1. rewrite setExtension_run.
  rewrite resetExtensionCounters_run.
  eexists _, _. split; [reflexivity|].
  cbn [watcher extensions_ extension_states_ set_extensions_
       set_extension_states_].
  split; [by rewrite lookup_insert_eq|]. split.
  { rewrite lookup_insert_eq. unfold state_at.
    cbn [extension_states_ set_extensions_]. by rewrite Hstate. }
  split; [reflexivity|].
  unfold set_extensions_, set_extension_states_.
  cbn [watcher extensions_ extension_states_ state_ worker_ worker_restarts_
       worker_status_ fates_bound_].
  rewrite !delete_insert_id by done. apply watcher_eta.
Qed.

Lemma add_then_remove_restores_registry_witness :
  exists w1 w2,
    addExtensionPath "/opt/ext/b" sample_env one_extension = Done tt w1
    /\ extensions_ (watcher w1) !! "/opt/ext/b"%string = Some (Some NoProcess)
    /\ extension_states_ (watcher w1) !! "/opt/ext/b"%string = Some zero_state
    /\ removeExtensionPath "/opt/ext/b" sample_env w1 = Done tt w2
    /\ watcher w2 = watcher one_extension.
Proof.
  apply (add_then_remove_restores_registry "/opt/ext/b" sample_env
           one_extension); reflexivity.
Defined.

(** X18: when no entry of [extensions_] is a null pointer,
    [getExtensionPath(child)] returns and changes nothing; the path it
    returns is one whose stored handle equals [child], and it is the
    empty string only when the empty string is such a path or no stored
    handle equals [child]. *)
Theorem getExtensionPath_finds_a_holder child e w :
  no_null_handle (extensions_ (watcher w)) ->
  exists path,
    getExtensionPath child e w = Done path w
    /\ (extensions_ (watcher w) !! path = Some (Some child)
        \/ (path = ""%string
            /\ forall p, extensions_ (watcher w) !! p <> Some (Some child))).
Proof.
  intros Hnn. unfold getExtensionPath. unfold bind at 1, gets at 1.
  destruct (find_extension_run child (extension_paths (watcher w)) e w Hnn)
    as (path & Hrun & [[_ Hheld]|[-> Hnone]]).
  - exists path. split; [exact Hrun | by left].
  - exists ""%string. split; [exact Hrun|]. right. split; [reflexivity|].
    intros p Hp. apply (Hnone p); [|exact Hp].
    apply elem_of_extension_paths. by rewrite Hp.
Qed.

Lemma one_extension_no_null : no_null_handle (extensions_ (watcher one_extension)).
Proof.
  intros path. cbn. rewrite lookup_singleton.
  destruct (decide _); discriminate.
Qed.

Lemma getExtensionPath_finds_a_holder_witness :
  exists path,
    getExtensionPath (Process 300) sample_env one_extension
    = Done path one_extension
    /\ (extensions_ (watcher one_extension) !! path = Some (Some (Process 300))
        \/ (path = ""%string
            /\ forall p, extensions_ (watcher one_extension) !! p
                         <> Some (Some (Process 300)))).
Proof.
  apply (getExtensionPath_finds_a_holder (Process 300) sample_env one_extension).
  apply one_extension_no_null.
Defined.

Lemma find_extension_null child path e w : forall paths,
  path ∈ paths ->
  extensions_ (watcher w) !! path = Some None ->
  (forall p, extensions_ (watcher w) !! p <> Some (Some child)) ->
  find_extension child paths e w = Crash NullDereference w.
Proof.
  induction paths as [|p0 rest IH]; intros Hin Hnull Hnone.
  - inversion Hin.
  - cbn [find_extension]. unfold bind at 1, gets at 1.
    destruct (extensions_ (watcher w) !! p0) as [[q|]|] eqn:Hp0.
    + unfold bind at 1, deref, ret at 1.
      destruct (decide (q = child)) as [->|Hne].
      * exfalso. by apply (Hnone p0).
      * apply IH; [|done|done].
        apply elem_of_cons in Hin as [->|Hin]; [congruence | done].
    + reflexivity.
    + apply IH; [|done|done].
      apply elem_of_cons in Hin as [->|Hin]; [congruence | done].
Qed.

(** X19: [getExtensionPath] dereferences the stored pointers one after the
    other until one equals [child]: when some entry of [extensions_] is
    a null pointer and no entry holds [child], the lookup dereferences
    the null pointer instead of returning the empty string. *)
Theorem null_handle_poisons_lookup child path e w :
  extensions_ (watcher w) !! path = Some None ->
  (forall p, extensions_ (watcher w) !! p <> Some (Some child)) ->
  getExtensionPath child e w = Crash NullDereference w.
Proof.
  intros Hnull Hnone. unfold getExtensionPath. unfold bind at 1, gets at 1.
  apply (find_extension_null child path); [|done|done].
  apply elem_of_extension_paths. by rewrite Hnull.
Qed.

Lemma null_handle_poisons_lookup_witness :
  getExtensionPath (Process 300) sample_env null_extension
  = Crash NullDereference null_extension.
Proof.
  apply (null_handle_poisons_lookup (Process 300) "/opt/ext/a" sample_env
           null_extension).
  - reflexivity.
  - intros p. cbn. rewrite lookup_singleton. destruct (decide _); discriminate.
Defined.

Lemma reset_extensions_unmatched child e w : forall paths,
  no_null_handle (extensions_ (watcher w)) ->
  (forall p, extensions_ (watcher w) !! p <> Some (Some child)) ->
  reset_extensions child paths e w = Done tt w.
Proof.
  induction paths as [|p0 rest IH]; intros Hnn Hnone; [reflexivity|].
  cbn [reset_extensions]. unfold bind at 1, gets at 1.
  destruct (extensions_ (watcher w) !! p0) as [[q|]|] eqn:Hp0.
  - unfold bind at 1. unfold bind at 1, deref, ret at 1.
    destruct (decide (q = child)) as [->|Hne].
    + exfalso. by apply (Hnone p0).
    + unfold ret at 1. by apply IH.
  - exfalso. by apply (Hnn p0).
  - unfold bind at 1, ret at 1. by apply IH.
Qed.

(** X20: [Watcher::reset] of a handle that is neither the worker's nor
    stored for any extension changes nothing: no counter is reset, no
    entry is created and the mutex is not taken. *)
Theorem reset_of_unknown_handle_is_noop child wk e w :
  worker_ (watcher w) = Some wk ->
  child <> wk ->
  no_null_handle (extensions_ (watcher w)) ->
  (forall p, extensions_ (watcher w) !! p <> Some (Some child)) ->
  reset child e w = Done tt w.
Proof.
  intros Hw Hne Hnn Hnone.
  rewrite (reset_extension_run child wk e w Hw Hne).
  by apply reset_extensions_unmatched.
Qed.

Lemma reset_of_unknown_handle_is_noop_witness :
  reset (Process 999) sample_env one_extension = Done tt one_extension.
Proof.
  apply (reset_of_unknown_handle_is_noop (Process 999) (Process 200)
           sample_env one_extension).
  - reflexivity.
  - discriminate.
  - apply one_extension_no_null.
  - intros p. cbn. rewrite lookup_singleton. destruct (decide _); discriminate.
Defined.

(** ** The worker pointer after a release *)

(** X21: the pass of [start] that releases a worker whose pid now belongs
    to another parent does not get to its end.  [Watcher::reset] leaves
    the worker pointer null, the pass goes on without [createWorker]
    (no extension is registered, the interval sleep is made), and the
    loop condition then calls [ok()], whose [getWorker()] dereferences
    the null pointer, unless the runnable was interrupted or a stop code
    is stored. *)
Theorem released_worker_is_dereferenced child row rows p status e w :
  use_worker_ e = true ->
  worker_ (watcher w) = Some child ->
  extensions_ (watcher w) = ∅ ->
  0 <= FLAGS_watchdog_level e ->
  fates_bound_ (watcher w) = false ->
  isValid child = true ->
  checkChildProcessStatus e child = (PROCESS_STILL_ALIVE, status) ->
  processes e (pid_of child) = row :: rows ->
  r_parent row = Some p ->
  - 2 ^ 31 <= p < 2 ^ 31 ->
  p <> current_pid e ->
  interrupted e = false ->
  worker_status_ (watcher w) <> EXIT_SUCCESS ->
  worker_status_ (watcher w) <> EXIT_CATASTROPHIC e ->
  exists w',
    start_pass e w = Crash NullDereference w'
    /\ worker_ (watcher w') = None
    /\ trace w'
       = trace w ++ [EvCheckChildProcessStatus child;
                     EvSelectProcesses (pid_of child); EvLock; EvUnlock;
                     EvPauseMilli
                       (worker_limit (FLAGS_watchdog_level e) INTERVAL * 1000)].
Proof.
  intros Huse Hw Hext Hlevel Hfates Hvalid Halive Hrows Hparent Hrange
    Hforeign Hrunning Hsuccess Hcatastrophic.
  assert (Htr : tracks (watcher (status_checked child w)) child WorkerState)
    by (left; by split).
  unfold start_pass. unfold bind at 1, watch_worker.
  unfold bind at 1, ask at 1. rewrite Huse.
  unfold bind at 1, getWorker, bind at 1, gets at 1. rewrite Hw.
  unfold deref, ret at 1. unfold bind at 1.
  rewrite (watch_alive child status e w Hfates Hvalid Halive).
  rewrite (isChildSane_run child WorkerState row rows e _ Htr Hlevel Hrows).
  cbv zeta.
  rewrite (read_row_parent _ _ _ Hparent), (to_pid_t_small _ Hrange).
  assert (Hneq : (p =? current_pid e) = false) by (by apply Z.eqb_neq).
  rewrite Hneq. cbn [negb].
  unfold bind at 1. rewrite reset_worker_run by exact Hw.
  unfold ret at 1. unfold ret at 1.
  unfold bind at 1, gets at 1.
  rewrite extension_paths_empty by exact Hext.
  unfold bind at 1. cbn [watch_extensions]. unfold ret at 1.
  unfold bind at 1. cbn [remove_failing]. unfold ret at 1.
  unfold bind at 1. rewrite limit_run by exact Hlevel.
  unfold bind at 1, pauseMilli, emit at 1.
  rewrite (interval_pause _ Hlevel).
  unfold bind at 1, ask at 1. rewrite Hrunning.
  unfold ok. unfold bind at 1, gets at 1. unfold bind at 1, ask at 1.
  cbn [watcher trace clock_reads env_OSQUERY_EXTENSIONS sampled status_checked
       write_state set_state_ set_worker_ worker_status_ worker_].
  assert (Hcode : (worker_status_ (watcher w) =? EXIT_SUCCESS)
                  || (worker_status_ (watcher w) =? EXIT_CATASTROPHIC e)
                  = false).
  { apply orb_false_iff. split; by apply Z.eqb_neq. }
  rewrite Hcode.
  eexists. split; [reflexivity|]. split; [reflexivity|].
  cbn [trace]. by rewrite <- !app_assoc.
Qed.

Lemma released_worker_is_dereferenced_witness :
  exists w',
    start_pass reparented_env fresh_worker = Crash NullDereference w'
    /\ worker_ (watcher w') = None
    /\ trace w'
       = trace fresh_worker
         ++ [EvCheckChildProcessStatus (Process 200);
             EvSelectProcesses (pid_of (Process 200)); EvLock; EvUnlock;
             EvPauseMilli
               (worker_limit (FLAGS_watchdog_level reparented_env) INTERVAL
                * 1000)].
Proof.
  apply (released_worker_is_dereferenced (Process 200)
           (worker_row 1 (Some 3000)) [] 1 0 reparented_env fresh_worker).
  - reflexivity.
  - reflexivity.
  - reflexivity.
  - simpl. lia.
  - reflexivity.
  - reflexivity.
  - reflexivity.
  - reflexivity.
  - reflexivity.
  - lia.
  - simpl. lia.
  - reflexivity.
  - discriminate.
  - discriminate.
Defined.

(** ** The worker's memory baseline *)

Section Keeps.
Context (J : Watcher -> Prop).

Lemma keeps_ret {A} (a : A) : keeps J (ret a).
Proof. by intros e w H. Qed.

Lemma keeps_throw {A} r : keeps J (@throw A r).
Proof. by intros e w H. Qed.

Lemma keeps_ask {A} (f : Env -> A) : keeps J (ask f).
Proof. by intros e w H. Qed.

Lemma keeps_gets {A} (f : Watcher -> A) : keeps J (gets f).
Proof. by intros e w H. Qed.

Lemma keeps_emit ev : keeps J (emit ev).
Proof. by intros e w H. Qed.

Lemma keeps_unixTime : keeps J unixTime.
Proof. by intros e w H. Qed.

Lemma keeps_setEnvVar : keeps J setEnvVar_OSQUERY_EXTENSIONS.
Proof. by intros e w H. Qed.

Lemma keeps_limit name : keeps J (limit name).
Proof. intros e w H. unfold limit. by destruct (getWorkerLimit _ _ _). Qed.

Lemma keeps_deref {A} (p : option A) : keeps J (deref p).
Proof. destruct p; [apply keeps_ret | apply keeps_throw]. Qed.

Lemma keeps_hasManagedExtensions : keeps J hasManagedExtensions.
Proof. intros e w H. unfold hasManagedExtensions. by destruct (0 <? _). Qed.

Lemma keeps_modify f : (forall r, J r -> J (f r)) -> keeps J (modify f).
Proof. intros Hf e w H. by apply Hf. Qed.

Lemma keeps_bind {A B} (c : M A) (k : A -> M B) :
  keeps J c -> (forall a, keeps J (k a)) -> keeps J (bind c k).
Proof.
  intros Hc Hk e w H. unfold bind. specialize (Hc e w H).
  destruct (c e w) as [a w1|r w1]; [|exact Hc]. by apply Hk.
Qed.

Lemma keeps_locked {A} (c : M A) : keeps J c -> keeps J (locked c).
Proof.
  intros Hc e w H. unfold locked.
  assert (Hin : keeps J (let* _ := emit EvLock in c))
    by (apply keeps_bind; [apply keeps_emit | intros _; exact Hc]).
  specialize (Hin e w H).
  by destruct ((let* _ := emit EvLock in c) e w) as [a w1|[| | |code] w1].
Qed.

Lemma keeps_when b c : keeps J c -> keeps J (when b c).
Proof. intros Hc. destruct b; [exact Hc | apply keeps_ret]. Qed.
End Keeps.

Ltac keeps_step :=
  first
    [ apply keeps_ret | apply keeps_throw | apply keeps_ask | apply keeps_gets
    | apply keeps_emit | apply keeps_unixTime | apply keeps_setEnvVar
    | apply keeps_limit | apply keeps_deref | apply keeps_hasManagedExtensions
    | apply keeps_locked | apply keeps_when
    | apply keeps_modify; solve [by intros []]
    | apply keeps_bind; [|intros ?] ].

Section Baseline.
Context (b : Z) (Hb : b <> 0).

Lemma keeps_find_extension child paths :
  keeps (worker_baseline b) (find_extension child paths).
Proof.
  induction paths as [|path rest IH]; cbn [find_extension]; [apply keeps_ret|].
  apply keeps_bind; [apply keeps_gets|]. intros [ptr|]; [|exact IH].
  apply keeps_bind; [apply keeps_deref|]. intros p.
  destruct (decide (p = child)); [apply keeps_ret | exact IH].
Qed.

Lemma keeps_getState child : keeps (worker_baseline b) (getState child).
Proof.
  unfold getState, getWorker, getExtensionPath.
  apply keeps_bind; [repeat keeps_step|]. intros wk.
  destruct (decide _); [apply keeps_ret|].
  apply keeps_bind.
  { apply keeps_bind; [apply keeps_gets|]. intros paths.
    apply keeps_find_extension. }
  intros path. repeat keeps_step.
Qed.

Lemma keeps_resetWorkerCounters t :
  keeps (worker_baseline b) (resetWorkerCounters t).
Proof. unfold resetWorkerCounters. apply keeps_modify. by intros []. Qed.

Lemma keeps_setExtension path h :
  keeps (worker_baseline b) (setExtension path h).
Proof. unfold setExtension. repeat keeps_step. Qed.

Lemma keeps_resetExtensionCounters path t :
  keeps (worker_baseline b) (resetExtensionCounters path t).
Proof. unfold resetExtensionCounters. repeat keeps_step. Qed.

Lemma keeps_removeExtensionPath path :
  keeps (worker_baseline b) (removeExtensionPath path).
Proof. unfold removeExtensionPath. repeat keeps_step. Qed.

Lemma keeps_reset_extensions child paths :
  keeps (worker_baseline b) (reset_extensions child paths).
Proof.
  induction paths as [|path rest IH]; cbn [reset_extensions];
    [apply keeps_ret|].
  apply keeps_bind; [apply keeps_gets|]. intros h.
  apply keeps_bind; [|intros _; exact IH].
  destruct h as [ptr|]; [|apply keeps_ret].
  apply keeps_bind; [apply keeps_deref|]. intros p.
  destruct (decide (p = child)); [|apply keeps_ret].
  apply keeps_bind; [apply keeps_setExtension|]. intros _.
  apply keeps_resetExtensionCounters.
Qed.

Lemma keeps_reset child : keeps (worker_baseline b) (reset child).
Proof.
  unfold reset, getWorker.
  apply keeps_bind; [repeat keeps_step|]. intros wk.
  destruct (decide _).
  - apply keeps_bind; [by apply keeps_modify; intros []|]. intros _.
    apply keeps_resetWorkerCounters.
  - apply keeps_bind; [apply keeps_gets|]. intros paths.
    apply keeps_reset_extensions.
Qed.

(** The write of the sampled counters: a non-zero baseline is the one
    field of the worker's state that the check copies over. *)
Lemma keeps_sample_counters child iv row :
  keeps (worker_baseline b) (sample_counters child iv row).
Proof.
  unfold sample_counters. apply keeps_locked.
  apply keeps_bind; [apply keeps_getState|]. intros ref. cbv zeta.
  apply keeps_bind; [apply keeps_limit|]. intros utilization.
  intros e w H. unfold bind, gets, modify, ret. cbn [world_of watcher].
  destruct ref as [|path]; [|exact H].
  unfold worker_baseline in *. cbn [write_state read_state set_state_ state_].
  change (initial_footprint
            (update_counters utilization (read_row iv row)
                             (state_ (watcher w))).1.1 = b).
  unfold update_counters. cbn [fst initial_footprint].
  rewrite H. apply Z.eqb_neq in Hb. by rewrite Hb.
Qed.

Lemma keeps_isChildSane child : keeps (worker_baseline b) (isChildSane child).
Proof.
  unfold isChildSane.
  apply keeps_bind; [apply keeps_emit|]. intros _.
  apply keeps_bind; [apply keeps_ask|]. intros [|row rows]; [apply keeps_ret|].
  apply keeps_bind; [apply keeps_limit|]. intros interval. cbv zeta.
  apply keeps_bind; [apply keeps_sample_counters|]. intros checked.
  apply keeps_bind; [apply keeps_ask|]. intros self.
  destruct (negb _).
  { apply keeps_bind; [apply keeps_reset | intros; apply keeps_ret]. }
  apply keeps_bind; [apply keeps_limit|]. intros latency_limit.
  destruct (_ && _); [apply keeps_ret|].
  apply keeps_bind; [apply keeps_limit|]. intros memory_limit.
  destruct (_ && _); [apply keeps_ret|].
  repeat keeps_step.
Qed.

Lemma keeps_watch child : keeps (worker_baseline b) (watch child).
Proof.
  unfold watch.
  apply keeps_bind; [apply keeps_emit|]. intros _.
  apply keeps_bind; [apply keeps_ask|]. intros [result status].
  apply keeps_bind; [apply keeps_gets|]. intros [|]; [apply keeps_ret|].
  destruct (negb _); [apply keeps_ret|].
  destruct result; [apply keeps_ret| |].
  - apply keeps_bind; [apply keeps_isChildSane|]. intros [|];
      [apply keeps_ret|].
    unfold stopChild. repeat keeps_step.
  - apply keeps_bind; [by apply keeps_modify; intros []|]. intros _.
    apply keeps_ret.
Qed.

Lemma keeps_respawning_too_quickly ref :
  keeps (worker_baseline b) (respawning_too_quickly ref).
Proof. unfold respawning_too_quickly. repeat keeps_step. Qed.

Lemma keeps_createWorker : keeps (worker_baseline b) createWorker.
Proof.
  unfold createWorker. apply keeps_bind.
  { unfold respawn_backoff, getWorker. apply keeps_locked.
    apply keeps_bind; [repeat keeps_step|]. intros wk.
    apply keeps_bind; [apply keeps_getState|]. intros ref.
    apply keeps_bind; [apply keeps_respawning_too_quickly|].
    intros [|]; [|apply keeps_ret].
    apply keeps_bind;
      [unfold workerRestarted; by apply keeps_modify; intros []|].
    intros _. apply keeps_bind; [apply keeps_limit|]. intros respawn_delay.
    apply keeps_bind; [apply keeps_gets|]. intros restarts.
    destruct (backoff_delay _ _);
      [unfold pauseMilli; apply keeps_emit | apply keeps_throw]. }
  intros _. unfold launch_worker, requestShutdown, shutdown.
  apply keeps_bind; [apply keeps_ask|]. intros self.
  apply keeps_bind; [apply keeps_emit|]. intros _.
  apply keeps_bind; [apply keeps_ask|].
  intros [|row [|row' qd]]; try apply keeps_emit.
  destruct (r_path row) as [path|]; [|apply keeps_emit].
  destruct (Nat.eqb _ _); [apply keeps_emit|].
  apply keeps_bind; [apply keeps_hasManagedExtensions|]. intros managed.
  apply keeps_bind; [apply keeps_when, keeps_setEnvVar|]. intros _.
  apply keeps_bind; [apply keeps_ask|]. intros exec_path.
  apply keeps_bind; [apply keeps_ask|]. intros safe.
  destruct (negb safe); [apply keeps_emit|].
  apply keeps_bind; [apply keeps_emit|]. intros _.
  apply keeps_bind; [apply keeps_ask|]. intros [p|]; [|apply keeps_emit].
  apply keeps_bind;
    [unfold setWorker; by apply keeps_modify; intros []|].
  intros _. apply keeps_bind; [apply keeps_unixTime|]. intros now.
  apply keeps_resetWorkerCounters.
Qed.

Lemma keeps_createExtension path :
  keeps (worker_baseline b) (createExtension path).
Proof.
  unfold createExtension, shutdown.
  apply keeps_bind.
  { apply keeps_locked. unfold getState_path.
    apply keeps_bind; [repeat keeps_step|]. intros ref.
    apply keeps_respawning_too_quickly. }
  intros [|]; [apply keeps_ret|].
  apply keeps_bind; [apply keeps_ask|]. intros exec_path.
  apply keeps_bind; [apply keeps_ask|]. intros safe.
  destruct (negb safe); [apply keeps_ret|].
  apply keeps_bind; [apply keeps_emit|]. intros _.
  apply keeps_bind; [apply keeps_ask|]. intros ext_process.
  apply keeps_bind; [destruct ext_process; [apply keeps_ret | apply keeps_emit]|].
  intros _. apply keeps_bind; [apply keeps_setExtension|]. intros _.
  apply keeps_bind; [apply keeps_unixTime|]. intros now.
  apply keeps_bind; [apply keeps_resetExtensionCounters|]. intros _.
  apply keeps_bind; [apply keeps_ask|]. intros [|]; repeat keeps_step.
Qed.

Lemma keeps_watch_extensions paths : forall failing,
  keeps (worker_baseline b) (watch_extensions paths failing).
Proof.
  induction paths as [|path rest IH]; intros failing;
    cbn [watch_extensions]; [apply keeps_ret|].
  apply keeps_bind; [apply keeps_gets|]. intros [ptr|]; [|apply IH].
  apply keeps_bind; [apply keeps_deref|]. intros child.
  apply keeps_bind; [apply keeps_watch|]. intros [|]; [apply IH|].
  apply keeps_bind; [apply keeps_createExtension|]. intros created.
  apply IH.
Qed.

Lemma keeps_remove_failing failing :
  keeps (worker_baseline b) (remove_failing failing).
Proof.
  induction failing as [|path rest IH]; cbn [remove_failing];
    [apply keeps_ret|].
  apply keeps_bind; [apply keeps_removeExtensionPath | intros _; exact IH].
Qed.

Lemma keeps_start_pass : keeps (worker_baseline b) start_pass.
Proof.
  unfold start_pass.
  apply keeps_bind.
  { unfold watch_worker, getWorker.
    apply keeps_bind; [apply keeps_ask|]. intros [|]; [|apply keeps_ret].
    apply keeps_bind; [repeat keeps_step|]. intros wk.
    apply keeps_bind; [apply keeps_watch|]. intros [|]; [apply keeps_ret|].
    apply keeps_bind; [apply keeps_gets|]. intros [|]; [apply keeps_ret|].
    apply keeps_bind; [apply keeps_createWorker | intros; apply keeps_ret]. }
  intros [|]; [apply keeps_ret|].
  apply keeps_bind; [apply keeps_gets|]. intros paths.
  apply keeps_bind; [apply keeps_watch_extensions|]. intros failing.
  apply keeps_bind; [apply keeps_remove_failing|]. intros _.
  apply keeps_bind; [apply keeps_limit|]. intros interval.
  apply keeps_bind; [unfold pauseMilli; apply keeps_emit|]. intros _.
  apply keeps_bind; [apply keeps_ask|]. intros [|]; [apply keeps_ret|].
  unfold ok, getWorker.
  apply keeps_bind; [apply keeps_gets|]. intros status.
  apply keeps_bind; [apply keeps_ask|]. intros catastrophic.
  destruct (_ || _); [apply keeps_ret|].
  apply keeps_bind; [repeat keeps_step|]. intros wk.
  destruct (isValid wk); [apply keeps_ret | apply keeps_hasManagedExtensions].
Qed.

Lemma start_loop_keeps_baseline passes : forall w,
  worker_baseline b (watcher w) ->
  worker_baseline b (watcher (world_of (start_loop passes w))).
Proof.
  induction passes as [|e rest IH]; intros w H; [exact H|].
  cbn [start_loop]. pose proof (keeps_start_pass e w H) as Hpass.
  destruct (start_pass e w) as [[|] w1|r w1]; [by apply IH | done | done].
Qed.
End Baseline.

(** X22: once the worker's [initial_footprint] is non-zero, no run of
    [start] changes it, however many passes the loop makes and whatever
    the collaborators answer: sanity checks keep a non-zero baseline, the
    counter resets do not touch it, and [createWorker] installs a new
    worker over the state of the old one.  A respawned worker is
    therefore measured against the resident size recorded for the first
    worker. *)
Theorem worker_baseline_survives_the_loop b passes w :
  b <> 0 ->
  initial_footprint (state_ (watcher w)) = b ->
  initial_footprint (state_ (watcher (world_of (start passes w)))) = b.
Proof.
  intros Hb H. unfold start. destruct passes as [|e rest]; [exact H|].
  pose proof (keeps_resetWorkerCounters b 0 e w H) as H0.
  destruct (resetWorkerCounters 0 e w) as [[] w0|r w0]; [|exact H0].
  by apply (start_loop_keeps_baseline b Hb).
Qed.

Lemma worker_baseline_survives_the_loop_witness :
  initial_footprint
    (state_ (watcher (world_of (start [vanished_env; sample_env]
                                      measured_worker)))) = 4096.
Proof.
  apply (worker_baseline_survives_the_loop 4096 [vanished_env; sample_env]
           measured_worker).
  - discriminate.
  - reflexivity.
Defined.

(** ** The key sets of the two extension maps during the loop *)

Lemma keeps_bind_run {A B} (J : Watcher -> Prop) (c : M A) (k : A -> M B) e w :
  J (watcher (world_of (c e w))) ->
  (forall a w1, c e w = Done a w1 -> J (watcher (world_of (k a e w1)))) ->
  J (watcher (world_of (bind c k e w))).
Proof.
  intros Hc Hk. unfold bind. destruct (c e w) as [a w1|r w1]; [|exact Hc].
  by apply Hk.
Qed.

Lemma locked_watcher {A} (c : M A) e w :
  watcher (world_of (locked c e w))
  = watcher (world_of (c e (mkWorld (watcher w) (trace w ++ [EvLock])
                                    (clock_reads w)
                                    (env_OSQUERY_EXTENSIONS w)))).
Proof.
  unfold locked, bind at 1, emit at 1.
  by destruct (c e _) as [a w1|[| | |code] w1].
Qed.

Lemma dom_insert_known {V} (m : gmap string V) path v :
  path ∈ dom m -> dom (<[path := v]> m) = dom m.
Proof.
  intros H. rewrite dom_insert_L. apply subseteq_union_1_L.
  by apply singleton_subseteq_l.
Qed.

Section Keys.
Context (D : gset string).

Lemma same_keys_set_state s r : same_keys D r -> same_keys D (set_state_ s r).
Proof. done. Qed.

Lemma same_keys_insert_state path s r :
  path ∈ D -> same_keys D r ->
  same_keys D (set_extension_states_ (<[path := s]> (extension_states_ r)) r).
Proof.
  intros Hin [He Hs]. split; [exact He|]. cbn.
  rewrite dom_insert_known; [exact Hs | by rewrite Hs].
Qed.

Lemma same_keys_insert_handle path h r :
  path ∈ D -> same_keys D r ->
  same_keys D (set_extensions_ (<[path := h]> (extensions_ r)) r).
Proof.
  intros Hin [He Hs]. split; [|exact Hs]. cbn.
  rewrite dom_insert_known; [exact He | by rewrite He].
Qed.

Lemma same_keys_write ref s r :
  match ref with WorkerState => True | ExtensionState path => path ∈ D end ->
  same_keys D r -> same_keys D (write_state ref s r).
Proof.
  destruct ref as [|path]; intros Hin H; [exact H|].
  by apply same_keys_insert_state.
Qed.

Lemma held_in_keys r path h :
  same_keys D r -> extensions_ r !! path = Some h -> path ∈ D.
Proof. intros [He _] H. rewrite <- He. apply elem_of_dom. eauto. Qed.

Lemma keeps_setExtension_known path h :
  path ∈ D -> keeps (same_keys D) (setExtension path h).
Proof.
  intros Hin. unfold setExtension. apply keeps_locked, keeps_modify.
  intros r. by apply same_keys_insert_handle.
Qed.

Lemma keeps_resetExtensionCounters_known path t :
  path ∈ D -> keeps (same_keys D) (resetExtensionCounters path t).
Proof.
  intros Hin. unfold resetExtensionCounters. apply keeps_locked, keeps_modify.
  intros r. by apply same_keys_insert_state.
Qed.

Lemma keeps_touch_known path :
  path ∈ D -> keeps (same_keys D) (modify (touch_state path)).
Proof.
  intros Hin. apply keeps_modify. intros r. by apply same_keys_insert_state.
Qed.

Lemma find_extension_world child paths e w :
  world_of (find_extension child paths e w) = w.
Proof.
  induction paths as [|path rest IH]; [reflexivity|].
  cbn [find_extension]. unfold bind at 1, gets at 1.
  destruct (extensions_ (watcher w) !! path) as [[q|]|]; [|reflexivity|exact IH].
  unfold bind at 1, deref, ret at 1.
  destruct (decide (q = child)); [reflexivity | exact IH].
Qed.

Lemma find_extension_held child e w p w' : forall paths,
  find_extension child paths e w = Done p w' ->
  (exists q, q ∈ paths /\ extensions_ (watcher w) !! q = Some (Some child)) ->
  extensions_ (watcher w) !! p = Some (Some child).
Proof.
  induction paths as [|path rest IH]; intros Hrun (q & Hin & Hq).
  { inversion Hin. }
  cbn [find_extension] in Hrun. unfold bind at 1, gets at 1 in Hrun.
  assert (Hrest : extensions_ (watcher w) !! path <> Some (Some child) ->
                  exists q, q ∈ rest
                            /\ extensions_ (watcher w) !! q = Some (Some child)).
  { intros Hne. exists q. split; [|exact Hq].
    apply elem_of_cons in Hin as [->|Hin]; [congruence | exact Hin]. }
  destruct (extensions_ (watcher w) !! path) as [[q0|]|] eqn:Hpath.
  - unfold bind at 1, deref, ret at 1 in Hrun.
    destruct (decide (q0 = child)) as [->|Hne].
    + unfold ret in Hrun. injection Hrun as <- <-. exact Hpath.
    + apply IH; [exact Hrun|]. apply Hrest. congruence.
  - discriminate Hrun.
  - apply IH; [exact Hrun|]. by apply Hrest.
Qed.

(** [getState] of a handle the registry holds creates no entry. *)
Lemma getState_keys child e w :
  same_keys D (watcher w) -> holds (watcher w) child ->
  same_keys D (watcher (world_of (getState child e w)))
  /\ forall ref w', getState child e w = Done ref w' ->
       match ref with
       | WorkerState => True
       | ExtensionState path => path ∈ D
       end.
Proof.
  intros HD Hheld.
  destruct (worker_ (watcher w)) as [wk|] eqn:Hw; cycle 1.
  { assert (Hrun : getState child e w = Crash NullDereference w)
      by (unfold getState, getWorker, bind, gets; by rewrite Hw).
    rewrite Hrun. split; [exact HD | done]. }
  destruct (decide (child = wk)) as [->|Hne].
  { rewrite getState_worker by exact Hw. split; [exact HD|].
    intros ref w' Hrun. by injection Hrun as <- <-. }
  destruct Hheld as [Hworker|[q Hq]]; [congruence|].
  assert (Hrun : getState child e w
                 = match find_extension child (extension_paths (watcher w)) e w
                   with
                   | Done path w1 =>
                       Done (ExtensionState path)
                            (mkWorld (touch_state path (watcher w1)) (trace w1)
                                     (clock_reads w1)
                                     (env_OSQUERY_EXTENSIONS w1))
                   | Crash r w1 => Crash r w1
                   end).
  { unfold getState, getWorker, getExtensionPath, bind, gets. rewrite Hw.
    cbn [deref ret]. rewrite decide_False by exact Hne.
    by destruct (find_extension _ _ _ _). }
  rewrite Hrun. clear Hrun.
  pose proof (find_extension_world child (extension_paths (watcher w)) e w)
    as Hworld.
  destruct (find_extension child (extension_paths (watcher w)) e w)
    as [p w1|r w1] eqn:Hrun; cbn [world_of] in Hworld; subst w1.
  - assert (Hp : extensions_ (watcher w) !! p = Some (Some child)).
    { eapply find_extension_held; [exact Hrun|]. exists q. split; [|exact Hq].
      apply elem_of_extension_paths. by rewrite Hq. }
    assert (Hin : p ∈ D) by (eapply held_in_keys; eauto).
    cbn [world_of watcher]. split.
    + by apply same_keys_insert_state.
    + intros ref w' Hdone. by injection Hdone as <- <-.
  - split; [exact HD | done].
Qed.

Lemma sample_counters_keys child iv row e w :
  same_keys D (watcher w) -> holds (watcher w) child ->
  same_keys D (watcher (world_of (sample_counters child iv row e w))).
Proof.
  intros HD Hheld. unfold sample_counters. rewrite locked_watcher.
  set (w0 := mkWorld _ _ _ _).
  destruct (getState_keys child e w0 HD Hheld) as [Hkept Href].
  apply keeps_bind_run; [exact Hkept|]. intros ref w1 Hrun.
  specialize (Href ref w1 Hrun). rewrite Hrun in Hkept.
  cbn [world_of] in Hkept. cbv zeta.
  apply keeps_bind; [apply keeps_limit| |exact Hkept]. intros utilization.
  apply keeps_bind; [apply keeps_gets|]. intros state.
  apply keeps_bind; [|intros _; apply keeps_ret].
  apply keeps_modify. intros r. by apply same_keys_write.
Qed.

Lemma reset_extensions_keys child paths : forall e w,
  same_keys D (watcher w) ->
  same_keys D (watcher (world_of (reset_extensions child paths e w))).
Proof.
  induction paths as [|path rest IH]; intros e w HD; [exact HD|].
  cbn [reset_extensions]. unfold bind at 1, gets at 1.
  destruct (extensions_ (watcher w) !! path) as [ptr|] eqn:Hpath; cycle 1.
  { unfold bind at 1, ret at 1. by apply IH. }
  assert (Hin : path ∈ D) by (eapply held_in_keys; eauto).
  apply keeps_bind_run.
  - apply keeps_bind; [apply keeps_deref| |exact HD]. intros p.
    destruct (decide (p = child)); [|apply keeps_ret].
    apply keeps_bind; [by apply keeps_setExtension_known|]. intros _.
    by apply keeps_resetExtensionCounters_known.
  - intros [] w1 Hrun. apply IH.
    assert (Hkept : keeps (same_keys D)
              (let* p := deref ptr in
               if decide (p = child)
               then let* _ := setExtension path (Some NoProcess) in
                    resetExtensionCounters path 0
               else ret tt)).
    { apply keeps_bind; [apply keeps_deref|]. intros p.
      destruct (decide (p = child)); [|apply keeps_ret].
      apply keeps_bind; [by apply keeps_setExtension_known|]. intros _.
      by apply keeps_resetExtensionCounters_known. }
    specialize (Hkept e w HD). by rewrite Hrun in Hkept.
Qed.

Lemma keeps_reset_keys child : keeps (same_keys D) (reset child).
Proof.
  unfold reset, getWorker.
  apply keeps_bind; [repeat keeps_step|]. intros wk.
  destruct (decide _).
  - apply keeps_bind; [by apply keeps_modify|]. intros _.
    unfold resetWorkerCounters. by apply keeps_modify.
  - apply keeps_bind; [apply keeps_gets|]. intros paths e w.
    apply reset_extensions_keys.
Qed.

Lemma isChildSane_keys child e w :
  same_keys D (watcher w) -> holds (watcher w) child ->
  same_keys D (watcher (world_of (isChildSane child e w))).
Proof.
  intros HD Hheld. unfold isChildSane.
  unfold bind at 1, emit at 1. unfold bind at 1, ask at 1.
  destruct (processes e (pid_of child)) as [|row rows]; [exact HD|].
  unfold bind at 1, limit at 1.
  destruct (getWorkerLimit _ INTERVAL _) as [interval|]; [|exact HD].
  cbv zeta. set (w0 := mkWorld _ _ _ _).
  assert (H1 : same_keys D
                 (watcher (world_of (sample_counters child (Z.max interval 1)
                                                     row e w0))))
    by (by apply sample_counters_keys).
  apply keeps_bind_run; [exact H1|].
  intros checked w1 Hrun.
  rewrite Hrun in H1. cbn [world_of] in H1. clear Hrun. revert w1 H1.
  match goal with
  | |- forall w1, _ -> same_keys D (watcher (world_of (?k e w1))) =>
      cut (keeps (same_keys D) k); [intros Hk w1; apply Hk|]
  end.
  apply keeps_bind; [apply keeps_ask|]. intros self.
  destruct (negb _).
  { apply keeps_bind; [apply keeps_reset_keys | intros; apply keeps_ret]. }
  apply keeps_bind; [apply keeps_limit|]. intros latency_limit.
  destruct (_ && _); [apply keeps_ret|].
  apply keeps_bind; [apply keeps_limit|]. intros memory_limit.
  destruct (_ && _); [apply keeps_ret|].
  repeat keeps_step.
Qed.

Lemma getWorker_done e w wk w1 :
  getWorker e w = Done wk w1 -> w1 = w /\ worker_ (watcher w) = Some wk.
Proof.
  unfold getWorker, bind, gets. destruct (worker_ (watcher w)) as [p|];
    [|discriminate].
  cbn [deref ret]. intros H. by injection H as <- <-.
Qed.

Lemma getWorker_world e w : world_of (getWorker e w) = w.
Proof.
  unfold getWorker, bind, gets. by destruct (worker_ (watcher w)).
Qed.

Lemma watch_keys child e w :
  same_keys D (watcher w) -> holds (watcher w) child ->
  same_keys D (watcher (world_of (watch child e w))).
Proof.
  intros HD Hheld. unfold watch.
  unfold bind at 1, emit at 1. unfold bind at 1, ask at 1.
  destruct (checkChildProcessStatus e child) as [result status].
  unfold bind at 1, gets at 1.
  cbn [watcher trace clock_reads env_OSQUERY_EXTENSIONS].
  destruct (fates_bound_ (watcher w)); [exact HD|].
  destruct (negb _); [exact HD|].
  destruct result; [exact HD| |exact HD].
  set (w0 := mkWorld _ _ _ _).
  assert (H1 : same_keys D (watcher (world_of (isChildSane child e w0))))
    by (by apply isChildSane_keys).
  apply keeps_bind_run; [exact H1|]. intros sane w1 Hrun.
  rewrite Hrun in H1. destruct sane; exact H1.
Qed.

Lemma respawn_backoff_keys e w :
  same_keys D (watcher w) ->
  same_keys D (watcher (world_of (respawn_backoff e w))).
Proof.
  intros HD. unfold respawn_backoff. rewrite locked_watcher.
  set (w0 := mkWorld _ _ _ _).
  apply keeps_bind_run; [by rewrite getWorker_world|].
  intros wk w1 Hwk. apply getWorker_done in Hwk as [-> Hwk].
  assert (Hheld : holds (watcher w0) wk) by (by left).
  destruct (getState_keys wk e w0 HD Hheld) as [H1 _].
  apply keeps_bind_run; [exact H1|]. intros ref w1 Hrun.
  rewrite Hrun in H1. cbn [world_of] in H1. clear Hrun. revert w1 H1.
  match goal with
  | |- forall w1, _ -> same_keys D (watcher (world_of (?k e w1))) =>
      cut (keeps (same_keys D) k); [intros Hk w1; apply Hk|]
  end.
  apply keeps_bind; [unfold respawning_too_quickly; repeat keeps_step|].
  intros [|]; [|apply keeps_ret].
  apply keeps_bind; [unfold workerRestarted; by apply keeps_modify|].
  intros _. apply keeps_bind; [apply keeps_limit|]. intros respawn_delay.
  apply keeps_bind; [apply keeps_gets|]. intros restarts.
  destruct (backoff_delay _ _);
    [unfold pauseMilli; apply keeps_emit | apply keeps_throw].
Qed.

Lemma keeps_launch_worker_keys : keeps (same_keys D) launch_worker.
Proof.
  unfold launch_worker, requestShutdown, shutdown.
  apply keeps_bind; [apply keeps_ask|]. intros self.
  apply keeps_bind; [apply keeps_emit|]. intros _.
  apply keeps_bind; [apply keeps_ask|].
  intros [|row [|row' qd]]; try apply keeps_emit.
  destruct (r_path row) as [path|]; [|apply keeps_emit].
  destruct (Nat.eqb _ _); [apply keeps_emit|].
  apply keeps_bind; [apply keeps_hasManagedExtensions|]. intros managed.
  apply keeps_bind; [apply keeps_when, keeps_setEnvVar|]. intros _.
  apply keeps_bind; [apply keeps_ask|]. intros exec_path.
  apply keeps_bind; [apply keeps_ask|]. intros safe.
  destruct (negb safe); [apply keeps_emit|].
  apply keeps_bind; [apply keeps_emit|]. intros _.
  apply keeps_bind; [apply keeps_ask|]. intros [p|]; [|apply keeps_emit].
  apply keeps_bind; [unfold setWorker; by apply keeps_modify|].
  intros _. apply keeps_bind; [apply keeps_unixTime|]. intros now.
  unfold resetWorkerCounters. by apply keeps_modify.
Qed.

Lemma createWorker_keys e w :
  same_keys D (watcher w) ->
  same_keys D (watcher (world_of (createWorker e w))).
Proof.
  intros HD. unfold createWorker.
  pose proof (respawn_backoff_keys e w HD) as H1.
  apply keeps_bind_run; [exact H1|]. intros [] w1 Hrun.
  rewrite Hrun in H1. by apply keeps_launch_worker_keys.
Qed.

Lemma keeps_createExtension_known path :
  path ∈ D -> keeps (same_keys D) (createExtension path).
Proof.
  intros Hin. unfold createExtension, shutdown.
  apply keeps_bind.
  { apply keeps_locked. unfold getState_path.
    apply keeps_bind.
    { apply keeps_bind; [by apply keeps_touch_known|]. intros _.
      apply keeps_ret. }
    intros ref. unfold respawning_too_quickly. repeat keeps_step. }
  intros [|]; [apply keeps_ret|].
  apply keeps_bind; [apply keeps_ask|]. intros exec_path.
  apply keeps_bind; [apply keeps_ask|]. intros safe.
  destruct (negb safe); [apply keeps_ret|].
  apply keeps_bind; [apply keeps_emit|]. intros _.
  apply keeps_bind; [apply keeps_ask|]. intros ext_process.
  apply keeps_bind;
    [destruct ext_process; [apply keeps_ret | apply keeps_emit]|].
  intros _. apply keeps_bind; [by apply keeps_setExtension_known|]. intros _.
  apply keeps_bind; [apply keeps_unixTime|]. intros now.
  apply keeps_bind; [by apply keeps_resetExtensionCounters_known|].
  intros _. apply keeps_bind; [apply keeps_ask|].
  intros [|]; repeat keeps_step.
Qed.

Lemma watch_worker_keys e w :
  same_keys D (watcher w) ->
  same_keys D (watcher (world_of (watch_worker e w))).
Proof.
  intros HD. unfold watch_worker. unfold bind at 1, ask at 1.
  destruct (use_worker_ e); [|exact HD].
  apply keeps_bind_run; [by rewrite getWorker_world|].
  intros wk w1 Hwk. apply getWorker_done in Hwk as [-> Hwk].
  assert (H1 : same_keys D (watcher (world_of (watch wk e w))))
    by (apply watch_keys; [exact HD | by left]).
  apply keeps_bind_run; [exact H1|]. intros alive w1 Hrun.
  rewrite Hrun in H1. cbn [world_of] in H1.
  destruct alive; [exact H1|].
  unfold bind at 1, gets at 1.
  destruct (fates_bound_ (watcher w1)); [exact H1|].
  pose proof (createWorker_keys e w1 H1) as H2.
  apply keeps_bind_run; [exact H2|]. intros [] w2 Hrun2.
  by rewrite Hrun2 in H2.
Qed.

Lemma watch_extensions_keys paths : forall failing e w,
  same_keys D (watcher w) ->
  same_keys D (watcher (world_of (watch_extensions paths failing e w))).
Proof.
  induction paths as [|path rest IH]; intros failing e w HD; [exact HD|].
  cbn [watch_extensions]. unfold bind at 1, gets at 1.
  destruct (extensions_ (watcher w) !! path) as [ptr|] eqn:Hpath;
    [|by apply IH].
  assert (Hin : path ∈ D) by (eapply held_in_keys; eauto).
  destruct ptr as [child|]; [|exact HD].
  unfold bind at 1, deref, ret at 1.
  assert (H1 : same_keys D (watcher (world_of (watch child e w))))
    by (apply watch_keys; [exact HD | right; eauto]).
  apply keeps_bind_run; [exact H1|]. intros alive w1 Hrun.
  rewrite Hrun in H1. cbn [world_of] in H1.
  destruct alive; [by apply IH|].
  pose proof (keeps_createExtension_known path Hin e w1 H1) as H2.
  apply keeps_bind_run; [exact H2|]. intros created w2 Hrun2.
  rewrite Hrun2 in H2. by apply IH.
Qed.
End Keys.

Lemma keeps_remove_failing_keys failing :
  keeps keys_agree (remove_failing failing).
Proof.
  induction failing as [|path rest IH]; cbn [remove_failing];
    [apply keeps_ret|].
  apply keeps_bind; [|intros _; exact IH].
  unfold removeExtensionPath. apply keeps_locked, keeps_modify.
  intros r H. unfold keys_agree in *. cbn. by rewrite !dom_delete_L, H.
Qed.

Lemma start_pass_keys e w :
  keys_agree (watcher w) -> keys_agree (watcher (world_of (start_pass e w))).
Proof.
  intros Hkeys.
  set (D := dom (extensions_ (watcher w))).
  assert (HD : same_keys D (watcher w)) by (split; [done | by symmetry]).
  assert (Hback : forall r, same_keys D r -> keys_agree r).
  { intros r [He Hs]. unfold keys_agree. by rewrite He, Hs. }
  unfold start_pass.
  pose proof (watch_worker_keys D e w HD) as H1.
  apply keeps_bind_run; [by apply Hback|]. intros broke w1 Hrun.
  rewrite Hrun in H1. cbn [world_of] in H1.
  destruct broke; [by apply Hback|].
  unfold bind at 1, gets at 1.
  pose proof (watch_extensions_keys D (extension_paths (watcher w1)) [] e w1 H1)
    as H2.
  apply keeps_bind_run; [by apply Hback|]. intros failing w2 Hrun2.
  rewrite Hrun2 in H2. cbn [world_of] in H2. apply Hback in H2.
  clear Hrun Hrun2. revert w2 H2.
  match goal with
  | |- forall w2, _ -> keys_agree (watcher (world_of (?k e w2))) =>
      cut (keeps keys_agree k); [intros Hk w2; apply Hk|]
  end.
  apply keeps_bind; [apply keeps_remove_failing_keys|]. intros _.
  apply keeps_bind; [apply keeps_limit|]. intros interval.
  apply keeps_bind; [unfold pauseMilli; apply keeps_emit|]. intros _.
  apply keeps_bind; [apply keeps_ask|]. intros [|]; [apply keeps_ret|].
  unfold ok, getWorker.
  apply keeps_bind; [apply keeps_gets|]. intros status.
  apply keeps_bind; [apply keeps_ask|]. intros catastrophic.
  destruct (_ || _); [apply keeps_ret|].
  apply keeps_bind; [repeat keeps_step|]. intros wk.
  destruct (isValid wk); [apply keeps_ret | apply keeps_hasManagedExtensions].
Qed.

(** X23: the supervisor loop keeps the key sets of [extensions_] and
    [extension_states_] equal: when they are equal before [start], they
    are equal in whatever state the run is left, after any number of
    passes and also when the run ends in a crash.  The handles the loop
    passes to [watch] are the worker's or stored ones, so the lookup
    that would create an entry for the empty path is never made for a
    handle the registry does not hold. *)
Theorem supervisor_loop_keeps_key_sets passes w :
  keys_agree (watcher w) ->
  keys_agree (watcher (world_of (start passes w))).
Proof.
  intros Hkeys. unfold start. destruct passes as [|e rest]; [exact Hkeys|].
  unfold resetWorkerCounters, modify.
  set (w0 := mkWorld _ _ _ _).
  assert (H0 : keys_agree (watcher w0)) by exact Hkeys.
  clearbody w0. clear Hkeys. revert w0 H0.
  generalize (e :: rest) as l. clear e rest.
  induction l as [|e rest IH]; intros w0 H0; [exact H0|].
  cbn [start_loop]. pose proof (start_pass_keys e w0 H0) as H1.
  destruct (start_pass e w0) as [[|] w1|r w1]; [by apply IH | done | done].
Qed.

Lemma supervisor_loop_keeps_key_sets_witness :
  keys_agree
    (watcher (world_of (start [extension_exit_env; signalled_env false]
                              one_extension))).
Proof.
  apply (supervisor_loop_keeps_key_sets
           [extension_exit_env; signalled_env false] one_extension).
  unfold keys_agree. cbn. by rewrite !dom_singleton_L.
Defined.

(** ** Why the loop of [start] ends *)

Lemma bind_done {A B} (c : M A) (k : A -> M B) e w b w' :
  bind c k e w = Done b w' ->
  exists a w1, c e w = Done a w1 /\ k a e w1 = Done b w'.
Proof.
  unfold bind. destruct (c e w) as [a w1|r w1]; [eauto | discriminate].
Qed.

Lemma watch_worker_breaks e w w' :
  watch_worker e w = Done true w' -> fates_bound_ (watcher w') = true.
Proof.
  unfold watch_worker. intros H.
  apply bind_done in H as (use_worker & w0 & Hask & H).
  injection Hask as <- <-.
  destruct (use_worker_ e); [|discriminate H].
  apply bind_done in H as (wk & w1 & _ & H).
  apply bind_done in H as (alive & w2 & _ & H).
  destruct alive; [discriminate H|].
  apply bind_done in H as (bound & w3 & Hgets & H).
  injection Hgets as <- <-.
  destruct (fates_bound_ (watcher w2)) eqn:Hbound.
  - by injection H as <-.
  - apply bind_done in H as (? & w4 & _ & H). discriminate H.
Qed.

Lemma ok_stops e w w' :
  ok e w = Done false w' ->
  w' = w
  /\ (worker_status_ (watcher w) = EXIT_SUCCESS
      \/ worker_status_ (watcher w) = EXIT_CATASTROPHIC e
      \/ exists wk, worker_ (watcher w) = Some wk /\ isValid wk = false
                    /\ extensions_ (watcher w) = ∅
                    /\ env_OSQUERY_EXTENSIONS w = false).
Proof.
  unfold ok. intros H.
  apply bind_done in H as (status & w0 & Hgets & H). injection Hgets as <- <-.
  apply bind_done in H as (catastrophic & w0 & Hask & H).
  injection Hask as <- <-.
  destruct (worker_status_ (watcher w) =? EXIT_SUCCESS) eqn:Hs.
  { injection H as <-. split; [reflexivity|]. left. by apply Z.eqb_eq. }
  destruct (worker_status_ (watcher w) =? EXIT_CATASTROPHIC e) eqn:Hc.
  { injection H as <-. split; [reflexivity|]. right; left. by apply Z.eqb_eq. }
  cbn [orb] in H.
  apply bind_done in H as (wk & w0 & Hwk & H).
  apply getWorker_done in Hwk as [-> Hwk].
  destruct (isValid wk) eqn:Hvalid; [discriminate H|].
  unfold hasManagedExtensions in H.
  destruct (0 <? Z.of_nat (size (extensions_ (watcher w)))) eqn:Hsize;
    [discriminate H|].
  injection H as Henv <-. split; [reflexivity|]. right; right.
  exists wk. split; [exact Hwk|]. split; [exact Hvalid|]. split; [|exact Henv].
  apply map_size_empty_iff. apply Z.ltb_ge in Hsize. lia.
Qed.

(** X24: a pass of [start] after which the loop is left has one of four
    reasons, read in the state the pass ends in: the fates are bound
    (the [break] after a failed watch of the worker), the runnable is
    interrupted, the stored exit status is [EXIT_SUCCESS] or
    [EXIT_CATASTROPHIC], or there is nothing left to supervise (the
    worker handle is invalid, no extension is registered and
    [OSQUERY_EXTENSIONS] is not set). *)
Theorem loop_ends_for_a_reason e w w' :
  start_pass e w = Done false w' ->
  fates_bound_ (watcher w') = true
  \/ interrupted e = true
  \/ worker_status_ (watcher w') = EXIT_SUCCESS
  \/ worker_status_ (watcher w') = EXIT_CATASTROPHIC e
  \/ exists wk, worker_ (watcher w') = Some wk /\ isValid wk = false
                /\ extensions_ (watcher w') = ∅
                /\ env_OSQUERY_EXTENSIONS w' = false.
Proof.
  unfold start_pass. intros H.
  apply bind_done in H as (broke & w1 & Hworker & H).
  destruct broke.
  { injection H as <-. left. by apply (watch_worker_breaks e w). }
  apply bind_done in H as (paths & w2 & _ & H).
  apply bind_done in H as (failing & w3 & _ & H).
  apply bind_done in H as (? & w4 & _ & H).
  apply bind_done in H as (interval & w5 & _ & H).
  apply bind_done in H as (? & w6 & _ & H).
  apply bind_done in H as (stop & w7 & Hask & H).
  injection Hask as <- <-.
  destruct (interrupted e); [by right; left|].
  apply ok_stops in H as [-> Hwhy]. right; right. exact Hwhy.
Qed.

Lemma loop_ends_for_a_reason_witness :
  fates_bound_ (watcher (status_checked NoProcess bound_fates)) = true
  \/ interrupted (signalled_env true) = true
  \/ worker_status_ (watcher (status_checked NoProcess bound_fates))
     = EXIT_SUCCESS
  \/ worker_status_ (watcher (status_checked NoProcess bound_fates))
     = EXIT_CATASTROPHIC (signalled_env true)
  \/ exists wk,
       worker_ (watcher (status_checked NoProcess bound_fates)) = Some wk
       /\ isValid wk = false
       /\ extensions_ (watcher (status_checked NoProcess bound_fates)) = ∅
       /\ env_OSQUERY_EXTENSIONS (status_checked NoProcess bound_fates) = false.
Proof.
  apply (loop_ends_for_a_reason (signalled_env true) bound_fates
           (status_checked NoProcess bound_fates)).
  reflexivity.
Defined.

(** ** What runs while the registry mutex is held *)

Lemma lock_discipline_no_call tr : forall held,
  lock_discipline held tr = no_call_under_lock blocking held tr.
Proof.
  induction tr as [|ev rest IH]; intros held; [reflexivity|].
  destruct ev; cbn [lock_discipline no_call_under_lock]; by rewrite IH.
Qed.

Section Discipline.
Context (blocks : event -> bool) (e : Env).

Lemma no_call_app tr1 : forall held tr2,
  no_call_under_lock blocks held (tr1 ++ tr2)
  = no_call_under_lock blocks held tr1
    && no_call_under_lock blocks (held_after held tr1) tr2.
Proof.
  induction tr1 as [|ev rest IH]; intros held tr2; [reflexivity|].
  destruct ev; cbn [app no_call_under_lock held_after];
    rewrite IH; by rewrite ?andb_assoc.
Qed.

Lemma held_after_app tr1 : forall held tr2,
  held_after held (tr1 ++ tr2) = held_after (held_after held tr1) tr2.
Proof.
  induction tr1 as [|ev rest IH]; intros held tr2; [reflexivity|].
  destruct ev; cbn [app held_after]; by rewrite IH.
Qed.

Lemma calm_under_lock tr :
  Forall (calm blocks) tr ->
  no_call_under_lock blocks true tr = true /\ held_after true tr = true.
Proof.
  induction 1 as [|ev rest (Hb & Hl & Hu) _ [IH1 IH2]]; [done|].
  destruct ev; try done; cbn [no_call_under_lock held_after];
    rewrite Hb, IH1, IH2; done.
Qed.

(** A routine that adds no event at all. *)
Lemma disciplined_silent {A} (c : M A) :
  emits (fun _ => False) c -> disciplined blocks e c.
Proof.
  intros Hc w. destruct (Hc e w) as (tr & Htr & Hall).
  destruct tr as [|ev rest]; [|by inversion Hall].
  exists []. by repeat split.
Qed.

Lemma disciplined_ret {A} (a : A) : disciplined blocks e (ret a).
Proof. apply disciplined_silent, emits_ret. Qed.

Lemma disciplined_throw {A} r : disciplined blocks e (@throw A r).
Proof. apply disciplined_silent, emits_throw. Qed.

Lemma disciplined_ask {A} (f : Env -> A) : disciplined blocks e (ask f).
Proof. apply disciplined_silent, emits_ask. Qed.

Lemma disciplined_gets {A} (f : Watcher -> A) : disciplined blocks e (gets f).
Proof. apply disciplined_silent, emits_gets. Qed.

Lemma disciplined_modify f : disciplined blocks e (modify f).
Proof. apply disciplined_silent, emits_modify. Qed.

Lemma disciplined_limit name : disciplined blocks e (limit name).
Proof. apply disciplined_silent, emits_limit. Qed.

Lemma disciplined_unixTime : disciplined blocks e unixTime.
Proof. apply disciplined_silent, emits_unixTime. Qed.

Lemma disciplined_deref {A} (p : option A) : disciplined blocks e (deref p).
Proof. apply disciplined_silent, emits_deref. Qed.

Lemma disciplined_hasManagedExtensions :
  disciplined blocks e hasManagedExtensions.
Proof.
  intros w. exists []. unfold hasManagedExtensions.
  destruct (0 <? _); cbn; by rewrite app_nil_r.
Qed.

(** A call made with the mutex released. *)
Lemma disciplined_emit ev :
  ev <> EvLock -> ev <> EvUnlock -> disciplined blocks e (emit ev).
Proof.
  intros Hl Hu w. exists [ev]. split; [reflexivity|].
  destruct ev; done.
Qed.

Lemma disciplined_setEnvVar : disciplined blocks e setEnvVar_OSQUERY_EXTENSIONS.
Proof. intros w. exists [EvSetEnvVar]. by repeat split. Qed.

Lemma disciplined_bind {A B} (c : M A) (k : A -> M B) :
  disciplined blocks e c -> (forall a, disciplined blocks e (k a)) ->
  disciplined blocks e (bind c k).
Proof.
  intros Hc Hk w. unfold bind.
  destruct (Hc w) as (tr1 & Htr1 & Hok1 & Hfree1).
  destruct (c e w) as [a w1|r w1] eqn:Hrun.
  - destruct (Hk a w1) as (tr2 & Htr2 & Hok2 & Hfree2).
    exists (tr1 ++ tr2). cbn [world_of] in Htr1.
    specialize (Hfree1 a w1 eq_refl).
    split; [by rewrite Htr2, Htr1, app_assoc|]. split.
    + by rewrite no_call_app, Hok1, Hfree1, Hok2.
    + intros b w' Hdone. rewrite held_after_app, Hfree1.
      by apply (Hfree2 b w').
  - exists tr1. split; [exact Htr1|]. split; [exact Hok1 | done].
Qed.

(** The scope of a [WatcherLocker] around calm events. *)
Lemma disciplined_locked {A} (c : M A) :
  emits (calm blocks) c -> disciplined blocks e (locked c).
Proof.
  intros Hc w.
  set (w0 := mkWorld (watcher w) (trace w ++ [EvLock]) (clock_reads w)
                     (env_OSQUERY_EXTENSIONS w)).
  assert (Hrun : locked c e w
                 = match c e w0 with
                   | Done a w' => Done a (unlock_world w')
                   | Crash OutOfRange w' => Crash OutOfRange (unlock_world w')
                   | Crash r w' => Crash r w'
                   end) by reflexivity.
  rewrite Hrun. clear Hrun.
  destruct (Hc e w0) as (tr & Htr & Hall).
  destruct (calm_under_lock tr Hall) as [Hno Hheld].
  assert (Hshort : trace (world_of (c e w0)) = trace w ++ EvLock :: tr)
    by (rewrite Htr; subst w0; cbn; by rewrite <- app_assoc).
  assert (Hlong : trace (unlock_world (world_of (c e w0)))
                  = trace w ++ EvLock :: tr ++ [EvUnlock]).
  { unfold unlock_world. cbn [trace]. rewrite Hshort.
    by rewrite <- app_assoc. }
  assert (Hok : no_call_under_lock blocks false (EvLock :: tr ++ [EvUnlock])
                = true
                /\ held_after false (EvLock :: tr ++ [EvUnlock]) = false).
  { cbn [no_call_under_lock held_after].
    by rewrite no_call_app, held_after_app, Hno, Hheld. }
  destruct (c e w0) as [a w1|[| | |code] w1]; cbn [world_of] in *.
  - exists (EvLock :: tr ++ [EvUnlock]). split; [exact Hlong|].
    split; [apply Hok | intros; apply Hok].
  - exists (EvLock :: tr ++ [EvUnlock]). split; [exact Hlong|].
    split; [apply Hok | done].
  - exists (EvLock :: tr). split; [exact Hshort|].
    split; [exact Hno | done].
  - exists (EvLock :: tr). split; [exact Hshort|].
    split; [exact Hno | done].
  - exists (EvLock :: tr). split; [exact Hshort|].
    split; [exact Hno | done].
Qed.

Lemma disciplined_setExtension path h :
  disciplined blocks e (setExtension path h).
Proof. apply disciplined_locked, emits_modify. Qed.

Lemma disciplined_resetExtensionCounters path t :
  disciplined blocks e (resetExtensionCounters path t).
Proof. apply disciplined_locked, emits_modify. Qed.

Lemma disciplined_removeExtensionPath path :
  disciplined blocks e (removeExtensionPath path).
Proof. apply disciplined_locked, emits_modify. Qed.

Lemma disciplined_reset_extensions child paths :
  disciplined blocks e (reset_extensions child paths).
Proof.
  induction paths as [|path rest IH]; cbn [reset_extensions];
    [apply disciplined_ret|].
  apply disciplined_bind; [apply disciplined_gets|]. intros h.
  apply disciplined_bind; [|intros _; exact IH].
  destruct h as [ptr|]; [|apply disciplined_ret].
  apply disciplined_bind; [apply disciplined_deref|]. intros p.
  destruct (decide (p = child)); [|apply disciplined_ret].
  apply disciplined_bind; [apply disciplined_setExtension|]. intros _.
  apply disciplined_resetExtensionCounters.
Qed.

Lemma disciplined_getWorker : disciplined blocks e getWorker.
Proof.
  unfold getWorker. apply disciplined_bind; [apply disciplined_gets|].
  intros ptr. apply disciplined_deref.
Qed.

Lemma disciplined_reset child : disciplined blocks e (reset child).
Proof.
  unfold reset.
  apply disciplined_bind; [apply disciplined_getWorker|]. intros wk.
  destruct (decide _).
  - apply disciplined_bind; [apply disciplined_modify|]. intros _.
    apply disciplined_modify.
  - apply disciplined_bind; [apply disciplined_gets|]. intros paths.
    apply disciplined_reset_extensions.
Qed.

Lemma respawning_too_quickly_emits P ref :
  emits P (respawning_too_quickly ref).
Proof. unfold respawning_too_quickly. repeat emits_step. Qed.

Lemma disciplined_isChildSane child : disciplined blocks e (isChildSane child).
Proof.
  unfold isChildSane.
  apply disciplined_bind; [by apply disciplined_emit|]. intros _.
  apply disciplined_bind; [apply disciplined_ask|].
  intros [|row rows]; [apply disciplined_ret|].
  apply disciplined_bind; [apply disciplined_limit|]. intros interval.
  cbv zeta. apply disciplined_bind.
  { unfold sample_counters. apply disciplined_locked.
    apply emits_bind; [apply getState_emits|]. intros ref.
    repeat emits_step. }
  intros checked.
  apply disciplined_bind; [apply disciplined_ask|]. intros self.
  destruct (negb _).
  { apply disciplined_bind; [apply disciplined_reset|]. intros _.
    apply disciplined_ret. }
  apply disciplined_bind; [apply disciplined_limit|]. intros latency_limit.
  destruct (_ && _); [apply disciplined_ret|].
  apply disciplined_bind; [apply disciplined_limit|]. intros memory_limit.
  destruct (_ && _); [apply disciplined_ret|].
  apply disciplined_bind; [apply disciplined_ask|]. intros use_worker.
  apply disciplined_bind; [|intros _; apply disciplined_ret].
  destruct use_worker; [by apply disciplined_emit | apply disciplined_ret].
Qed.

Lemma disciplined_watch child : disciplined blocks e (watch child).
Proof.
  unfold watch.
  apply disciplined_bind; [by apply disciplined_emit|]. intros _.
  apply disciplined_bind; [apply disciplined_ask|]. intros [result status].
  apply disciplined_bind; [apply disciplined_gets|].
  intros [|]; [apply disciplined_ret|].
  destruct (negb _); [apply disciplined_ret|].
  destruct result; [apply disciplined_ret| |].
  - apply disciplined_bind; [apply disciplined_isChildSane|].
    intros [|]; [apply disciplined_ret|].
    apply disciplined_bind; [|intros _; apply disciplined_ret].
    unfold stopChild.
    apply disciplined_bind; [by apply disciplined_emit|]. intros _.
    by apply disciplined_emit.
  - apply disciplined_bind; [apply disciplined_modify|]. intros _.
    apply disciplined_ret.
Qed.

Lemma disciplined_shutdown code : disciplined blocks e (shutdown code).
Proof.
  unfold shutdown.
  apply disciplined_bind; [by apply disciplined_emit|]. intros _.
  apply disciplined_throw.
Qed.

Lemma disciplined_createExtension path :
  disciplined blocks e (createExtension path).
Proof.
  unfold createExtension.
  apply disciplined_bind.
  { apply disciplined_locked. unfold getState_path.
    apply emits_bind; [repeat emits_step|]. intros ref.
    apply respawning_too_quickly_emits. }
  intros [|]; [apply disciplined_ret|].
  apply disciplined_bind; [apply disciplined_ask|]. intros exec_path.
  apply disciplined_bind; [apply disciplined_ask|]. intros safe.
  destruct (negb safe); [apply disciplined_ret|].
  apply disciplined_bind; [by apply disciplined_emit|]. intros _.
  apply disciplined_bind; [apply disciplined_ask|]. intros ext_process.
  apply disciplined_bind.
  { destruct ext_process; [apply disciplined_ret | apply disciplined_shutdown]. }
  intros _.
  apply disciplined_bind; [apply disciplined_setExtension|]. intros _.
  apply disciplined_bind; [apply disciplined_unixTime|]. intros now.
  apply disciplined_bind; [apply disciplined_resetExtensionCounters|].
  intros _.
  apply disciplined_bind; [apply disciplined_ask|]. intros is_verbose.
  apply disciplined_bind; [|intros _; apply disciplined_ret].
  destruct is_verbose; [|apply disciplined_ret].
  apply disciplined_bind; [apply disciplined_deref|]. intros _.
  apply disciplined_ret.
Qed.

Lemma disciplined_launch_worker : disciplined blocks e launch_worker.
Proof.
  unfold launch_worker, requestShutdown.
  apply disciplined_bind; [apply disciplined_ask|]. intros self.
  apply disciplined_bind; [by apply disciplined_emit|]. intros _.
  apply disciplined_bind; [apply disciplined_ask|].
  intros [|row [|row' qd]]; try by apply disciplined_emit.
  destruct (r_path row) as [path|]; [|by apply disciplined_emit].
  destruct (Nat.eqb _ _); [by apply disciplined_emit|].
  apply disciplined_bind; [apply disciplined_hasManagedExtensions|].
  intros managed.
  apply disciplined_bind.
  { destruct managed; [apply disciplined_setEnvVar | apply disciplined_ret]. }
  intros _.
  apply disciplined_bind; [apply disciplined_ask|]. intros exec_path.
  apply disciplined_bind; [apply disciplined_ask|]. intros safe.
  destruct (negb safe); [by apply disciplined_emit|].
  apply disciplined_bind; [by apply disciplined_emit|]. intros _.
  apply disciplined_bind; [apply disciplined_ask|].
  intros [p|]; [|apply disciplined_shutdown].
  apply disciplined_bind; [apply disciplined_modify|]. intros _.
  apply disciplined_bind; [apply disciplined_unixTime|]. intros now.
  apply disciplined_modify.
Qed.

(** The back-off of [createWorker]: the sleep is the one event inside
    the scope of a locker. *)
Lemma disciplined_createWorker :
  (forall ms, blocks (EvPauseMilli ms) = false) ->
  disciplined blocks e createWorker.
Proof.
  intros Hsleep. unfold createWorker.
  apply disciplined_bind; [|intros _; apply disciplined_launch_worker].
  unfold respawn_backoff, getWorker. apply disciplined_locked.
  apply emits_bind; [repeat emits_step|]. intros wk.
  apply emits_bind; [apply getState_emits|]. intros ref.
  apply emits_bind; [apply respawning_too_quickly_emits|].
  intros [|]; [|apply emits_ret].
  apply emits_bind; [apply emits_modify|]. intros _.
  apply emits_bind; [apply emits_limit|]. intros respawn_delay.
  apply emits_bind; [apply emits_gets|]. intros restarts.
  destruct (backoff_delay _ _) as [delay|]; [|apply emits_throw].
  apply emits_emit. by repeat split.
Qed.

Lemma disciplined_watch_extensions paths : forall failing,
  disciplined blocks e (watch_extensions paths failing).
Proof.
  induction paths as [|path rest IH]; intros failing;
    cbn [watch_extensions]; [apply disciplined_ret|].
  apply disciplined_bind; [apply disciplined_gets|].
  intros [ptr|]; [|apply IH].
  apply disciplined_bind; [apply disciplined_deref|]. intros child.
  apply disciplined_bind; [apply disciplined_watch|].
  intros [|]; [apply IH|].
  apply disciplined_bind; [apply disciplined_createExtension|].
  intros created. apply IH.
Qed.

Lemma disciplined_remove_failing failing :
  disciplined blocks e (remove_failing failing).
Proof.
  induction failing as [|path rest IH]; cbn [remove_failing];
    [apply disciplined_ret|].
  apply disciplined_bind;
    [apply disciplined_removeExtensionPath | intros _; exact IH].
Qed.

Lemma disciplined_ok : disciplined blocks e ok.
Proof.
  unfold ok.
  apply disciplined_bind; [apply disciplined_gets|]. intros status.
  apply disciplined_bind; [apply disciplined_ask|]. intros catastrophic.
  destruct (_ || _); [apply disciplined_ret|].
  apply disciplined_bind; [apply disciplined_getWorker|]. intros wk.
  destruct (isValid wk);
    [apply disciplined_ret | apply disciplined_hasManagedExtensions].
Qed.

(** A pass of [start] is as disciplined as its worker part. *)
Lemma disciplined_start_pass :
  disciplined blocks e watch_worker -> disciplined blocks e start_pass.
Proof.
  intros Hworker. unfold start_pass.
  apply disciplined_bind; [exact Hworker|].
  intros [|]; [apply disciplined_ret|].
  apply disciplined_bind; [apply disciplined_gets|]. intros paths.
  apply disciplined_bind; [apply disciplined_watch_extensions|].
  intros failing.
  apply disciplined_bind; [apply disciplined_remove_failing|]. intros _.
  apply disciplined_bind; [apply disciplined_limit|]. intros interval.
  apply disciplined_bind; [by apply disciplined_emit|]. intros _.
  apply disciplined_bind; [apply disciplined_ask|].
  intros [|]; [apply disciplined_ret | apply disciplined_ok].
Qed.

Lemma disciplined_bind_ask {A B} (f : Env -> A) (k : A -> M B) :
  disciplined blocks e (k (f e)) -> disciplined blocks e (bind (ask f) k).
Proof. intros Hk w. exact (Hk w). Qed.

Lemma disciplined_watch_worker :
  use_worker_ e = false
  \/ (forall ms, blocks (EvPauseMilli ms) = false) ->
  disciplined blocks e watch_worker.
Proof.
  intros Hwhy. unfold watch_worker. apply disciplined_bind_ask.
  destruct Hwhy as [Hnone|Hsleep]; [rewrite Hnone; apply disciplined_ret|].
  destruct (use_worker_ e); [|apply disciplined_ret].
  apply disciplined_bind; [apply disciplined_getWorker|]. intros wk.
  apply disciplined_bind; [apply disciplined_watch|].
  intros [|]; [apply disciplined_ret|].
  apply disciplined_bind; [apply disciplined_gets|].
  intros [|]; [apply disciplined_ret|].
  apply disciplined_bind; [|intros _; apply disciplined_ret].
  by apply disciplined_createWorker.
Qed.
End Discipline.

Lemma start_disciplined blocks passes :
  Forall (fun e => disciplined blocks e start_pass) passes ->
  forall w, exists tr,
    trace (world_of (start passes w)) = trace w ++ tr
    /\ no_call_under_lock blocks false tr = true.
Proof.
  intros Hall.
  assert (Hloop : forall w, exists tr,
             trace (world_of (start_loop passes w)) = trace w ++ tr
             /\ no_call_under_lock blocks false tr = true).
  { induction Hall as [|e rest He _ IH]; intros w.
    - exists []. split; [by rewrite app_nil_r | reflexivity].
    - cbn [start_loop]. destruct (He w) as (tr1 & Htr1 & Hok1 & Hfree1).
      destruct (start_pass e w) as [[|] w1|r w1]; cbn [world_of] in *;
        try (exists tr1; by split).
      destruct (IH w1) as (tr2 & Htr2 & Hok2).
      exists (tr1 ++ tr2). split; [by rewrite Htr2, Htr1, app_assoc|].
      by rewrite no_call_app, Hok1, (Hfree1 true w1 eq_refl), Hok2. }
  intros w. unfold start. destruct passes as [|e rest].
  - exists []. split; [by rewrite app_nil_r | reflexivity].
  - exact (Hloop _).
Qed.

(** X25: in every run of [start], whatever the collaborators answer, the
    only blocking call made while the registry mutex is held is a
    [pauseMilli] (the back-off sleep of [createWorker]): no status call,
    table query, [kill], reaping or launch happens between a lock and
    the next unlock. *)
Theorem only_the_backoff_sleeps_under_the_lock passes w :
  exists tr,
    trace (world_of (start passes w)) = trace w ++ tr
    /\ no_call_under_lock blocking_but_sleep false tr = true.
Proof.
  apply start_disciplined. apply Forall_forall. intros e _.
  apply disciplined_start_pass, disciplined_watch_worker. by right.
Qed.

(** X26: a runner that has no worker to watch ([use_worker_] false, the
    watchdog disabled and only extensions managed) never makes a
    blocking call while it holds the registry mutex. *)
Theorem extension_runner_keeps_lock_discipline passes w :
  Forall (fun e => use_worker_ e = false) passes ->
  exists tr,
    trace (world_of (start passes w)) = trace w ++ tr
    /\ lock_discipline false tr = true.
Proof.
  intros Hnone.
  destruct (start_disciplined blocking passes) with (w := w)
    as (tr & Htr & Hok).
  { eapply Forall_impl; [exact Hnone|]. intros e He.
    apply disciplined_start_pass, disciplined_watch_worker. by left. }
  exists tr. split; [exact Htr|]. by rewrite lock_discipline_no_call.
Qed.

Lemma extension_runner_keeps_lock_discipline_witness :
  exists tr,
    trace (world_of (start [signalled_env false; signalled_env false]
                           young_extension))
    = trace young_extension ++ tr
    /\ lock_discipline false tr = true.
Proof.
  apply (extension_runner_keeps_lock_discipline
           [signalled_env false; signalled_env false] young_extension).
  repeat constructor.
Defined.

(** ** The worker's watcher *)

(** X27: the worker's watcher sleeps one interval for every tick at which
    the supervisor is alive, and leaves its loop at the first tick at
    which the thread is interrupted or the supervisor is dead.  It asks
    for a shutdown exactly once, as its last action, when it leaves
    because the supervisor is dead, and not at all when it was
    interrupted; it never touches the registry. *)
Theorem dead_launcher_requests_one_shutdown code alive e dead rest w :
  Forall supervised alive ->
  interrupted e = true \/ dead = true ->
  WatcherWatcherRunner.start code (alive ++ (e, dead) :: rest) w
  = Done LoopExited
      (after_events
         (map tick_sleep alive
          ++ (if interrupted e then [] else [EvRequestShutdown code])) w).
Proof.
  intros Halive Hend. revert w.
  induction Halive as [|[e0 d0] ticks (Hi & Hd & Hlevel) _ IH]; intros w.
  - cbn [app map WatcherWatcherRunner.start].
    destruct (interrupted e) eqn:Hint.
    + unfold after_events. rewrite app_nil_r. by destruct w.
    + destruct Hend as [Hend| ->]; [discriminate|]. reflexivity.
  - cbn [app map WatcherWatcherRunner.start]. cbn [fst snd] in Hi, Hd, Hlevel.
    rewrite Hi. subst d0.
    unfold WatcherWatcherRunner.sleep_interval. unfold bind at 1.
    rewrite limit_run by exact Hlevel.
    unfold pauseMilli, emit. rewrite (interval_pause _ Hlevel).
    rewrite IH. unfold after_events, tick_sleep.
    cbn [watcher trace clock_reads env_OSQUERY_EXTENSIONS fst].
    by rewrite <- app_assoc.
Qed.

Lemma dead_launcher_requests_one_shutdown_witness :
  WatcherWatcherRunner.start 0
    ([(sample_env, false); (sample_env, false)] ++ (sample_env, true) :: [])
    fresh_worker
  = Done LoopExited
      (after_events
         (map tick_sleep [(sample_env, false); (sample_env, false)]
          ++ (if interrupted sample_env then [] else [EvRequestShutdown 0]))
         fresh_worker).
Proof.
  apply (dead_launcher_requests_one_shutdown 0
           [(sample_env, false); (sample_env, false)] sample_env true []
           fresh_worker).
  - repeat constructor; simpl; lia.
  - by right.
Defined.
